(** * mmctools.measurements.lidar : a shallow embedding

    The Python module [mmctools/measurements/lidar.py] is embedded function by
    function: [calc_xyz], [estimate_mean_wind], the class [LidarData] (its
    constructor, [_check_data], the accessors [r], [az], [el], the slicers
    [get_range], [get_azimuth], [get_elevation] and [get]) and the loader
    [GalionCornellPEIWEE] with its two filters.  A Python exception is a
    value of [exn]; [print] appends to a log.

    Tables.  A pandas table with a [MultiIndex] is embedded in two ways.
    In [Frame] it is a record of index level names, column names and rows
    (key, fields), and a level of the index holds the values its rows
    have: so it is for a table that [set_index] has built, which is what
    the loader hands to the constructor.  In [Stored] the values of each
    level are kept apart from the rows, which refer to them by position,
    as pandas keeps them: so it is for every table, a slice of another
    table included, whose levels keep values that none of its rows has.

    Numbers.  Construction, re-validation and the filters of the loader
    are stated over the rationals ([Q]); their statements use subtraction
    and comparison symbolically or compare only.  What the accessors and
    the slicers return depends on how the arithmetic rounds and on the
    levels as they are stored; they are embedded over [Stored] tables and
    an interface of the operations they apply ([Machine.Number]) of which
    nothing is assumed, with IEEE 754 double precision (the primitive
    floats) and the rationals as instances.  The coordinate transform and
    the wind estimator call [numpy] elementary functions; they are
    embedded over an interface of numeric operations ([Numeric]) of which
    nothing is assumed either, the real numbers giving one
    interpretation. *)

From Stdlib Require Import String List Bool Arith ZArith QArith Reals Lia Psatz.
From Stdlib Require Import Qabs Sorted Permutation.
From Stdlib Require PrimFloat.
Import ListNotations.

Set Implicit Arguments.

(** ** Python values: exceptions, results, printed lines *)

Module Py.

(** The text of an exception, kept structured where the source formats it
    from program values. *)
Inductive message : Type :=
| Text (s : string)
| UnexpectedLevels (names : list string)
    (* f'Unexpected index levels in dataframe: {names}' *)
| RangeBelow (bound : Q)        (* f'Invalid range, r < {rmin}' *)
| RangeNotBelow (bound : Q)     (* f'Invalid range, r >= {rmax}' *)
| NotBetween (r r0 r1 : Q).     (* f'{r} is not between {r0} and {r1}' *)

Inductive exn : Type :=
| KeyError (key : string)
| IndexError (m : message)
| ValueError (m : message)
| AssertionError (m : message)
| TypeError (m : message).

Inductive result (A : Type) : Type :=
| Ok (a : A)
| Raise (e : exn).
Arguments Ok {A} a.
Arguments Raise {A} e.

Definition bind {A B} (c : result A) (k : A -> result B) : result B :=
  match c with
  | Ok a => k a
  | Raise e => Raise e
  end.

(** What [print] writes. *)
Inductive line : Type :=
| Loaded (what : string)
| NearestGate (idx : nat) (r0 r1 : Q)
    (* f'getting nearest range gate {idx} between {r0} and {r1}' *)
| ExactGate (idx : nat) (r0 r1 : Q).
    (* f'getting range gate {idx} between {r0} and {r1}' *)

(** A computation that prints and may raise: the lines printed, then the
    outcome. *)
Definition io (A : Type) : Type := (list line * result A)%type.

Definition ret {A} (a : A) : io A := ([], Ok a).
Definition raise {A} (e : exn) : io A := ([], Raise e).
Definition print (verbose : bool) (l : line) : io unit :=
  (if verbose then [l] else [], Ok tt).
Definition lift {A} (c : result A) : io A := ([], c).

Definition iobind {A B} (c : io A) (k : A -> io B) : io B :=
  match c with
  | (out, Ok a) => let (out', r) := k a in (out ++ out', r)
  | (out, Raise e) => (out, Raise e)
  end.

Definition outcome {A} (c : io A) : result A := snd c.

End Py.
Import Py.

Declare Scope py_scope.
Delimit Scope py_scope with py.
Notation "x <- c ;; k" := (iobind c (fun x => k))
  (at level 61, c at next level, right associativity) : py_scope.
Notation "c ;; k" := (iobind c (fun _ => k))
  (at level 61, right associativity) : py_scope.
Notation "x <~ c ;; k" := (Py.bind c (fun x => k))
  (at level 61, c at next level, right associativity) : py_scope.

(** ** Tables *)

Module Frame.

(** A table: the names of the index levels, the names of the columns, and
    the rows in table order, each with one key entry per index level and
    one field per column. *)
Record DataFrame (K V : Type) : Type := mkDataFrame {
  index_names : list string;
  columns : list string;
  rows : list (list K * list V)
}.

Fixpoint position (s : string) (l : list string) : option nat :=
  match l with
  | [] => None
  | x :: l' =>
      if String.eqb s x then Some 0%nat
      else option_map S (position s l')
  end.

Definition mem (s : string) (l : list string) : bool :=
  existsb (String.eqb s) l.

(** [a[i]] for a Python integer [i]: negative positions count from the
    end; outside the sequence it is an [IndexError]. *)
Definition getitem {A} (l : list A) (i : Z) : result A :=
  let n := Z.of_nat (length l) in
  let j := (if i <? 0 then i + n else i)%Z in
  if ((j <? 0) || (n <=? j))%Z then
    Raise (IndexError (Text "index out of bounds"))
  else
    match nth_error l (Z.to_nat j) with
    | Some x => Ok x
    | None => Raise (IndexError (Text "index out of bounds"))
    end.

(** [a[mask]] for a boolean mask of the length of [a]. *)
Fixpoint select {A} (mask : list bool) (l : list A) : list A :=
  match mask, l with
  | m :: mask', x :: l' => if m then x :: select mask' l' else select mask' l'
  | _, _ => []
  end.

Section Generic.
Context {K V : Type}.

(** The entry of a key at level [i]; [d] only for a key shorter than the
    index, which pandas cannot build. *)
Definition key_at (d : K) (i : nat) (key : list K) : K := nth i key d.

(** [index.get_level_values(name)] for an index given by its level names
    and its keys in table order. *)
Definition level_values (d : K) (names : list string)
           (keys : list (list K)) (name : string) : result (list K) :=
  match position name names with
  | Some i => Ok (map (key_at d i) keys)
  | None => Raise (KeyError name)
  end.

Definition keys (df : DataFrame K V) : list (list K) := map fst (rows df).

Definition level_column (d : K) (df : DataFrame K V) (i : nat) : list K :=
  map (key_at d i) (keys df).

(** [df.index.get_level_values(name)] *)
Definition get_level_values (d : K) (df : DataFrame K V) (name : string)
  : result (list K) :=
  level_values d (index_names df) (keys df) name.

(** Rows kept, index and columns as they were. *)
Definition with_rows (df : DataFrame K V) (rs : list (list K * list V))
  : DataFrame K V :=
  {| index_names := index_names df; columns := columns df; rows := rs |}.

(** [df[name]]: a column, one field per row. *)
Definition column (na : V) (df : DataFrame K V) (name : string)
  : result (list V) :=
  match position name (columns df) with
  | Some i => Ok (map (fun row => nth i (snd row) na) (rows df))
  | None => Raise (KeyError name)
  end.
End Generic.

End Frame.
Import Frame.

(** ** Sequences of rationals: the levels of an index *)

Module QSeq.
Local Open Scope Q_scope.

Definition Qlt_bool (x y : Q) : bool := negb (Qle_bool y x).

(** Insertion into an ascending sequence without repetition. *)
Fixpoint insert_uniq (x : Q) (l : list Q) : list Q :=
  match l with
  | [] => [x]
  | y :: l' =>
      match x ?= y with
      | Lt => x :: l
      | Eq => l
      | Gt => y :: insert_uniq x l'
      end
  end.

(** The distinct values of a sequence in ascending order: what pandas stores
    as a level of a [MultiIndex] built from a column. *)
Definition unique_sorted (l : list Q) : list Q := fold_right insert_uniq [] l.

(** [np.where(p(a))[0]]: the positions where [p] holds, ascending. *)
Fixpoint where_ (p : Q -> bool) (l : list Q) (i : nat) : list nat :=
  match l with
  | [] => []
  | x :: l' => if p x then i :: where_ p l' (S i) else where_ p l' (S i)
  end.

(** [list(a).index(x)] *)
Fixpoint index_of (x : Q) (l : list Q) : option nat :=
  match l with
  | [] => None
  | y :: l' => if Qeq_bool y x then Some 0%nat else option_map S (index_of x l')
  end.

Definition contains (x : Q) (l : list Q) : bool := existsb (Qeq_bool x) l.

End QSeq.
Import QSeq.

(** ** The scan container: class [LidarData] *)

Module Lidar.
Local Open Scope Q_scope.
Local Open Scope string_scope.
Local Open Scope py_scope.

Section Container.
(** The type of the fields of a row; the container never looks at them. *)
Variable V : Type.

Definition Table : Type := DataFrame Q V.

(** [df.index.levels]: per index level, its distinct values, ascending, as
    [set_index] builds them from the key columns (every value of a level
    has a row). *)
Definition levels (df : Table) : list (list Q) :=
  map (fun i => unique_sorted (level_column 0 df i))
      (seq 0 (length (index_names df))).

(** [df.index.levels[k]] *)
Definition level (df : Table) (k : nat) : result (list Q) :=
  match nth_error (levels df) k with
  | Some l => Ok l
  | None => Raise (IndexError (Text "list index out of range"))
  end.

(** The object while [__init__] runs: [range_gate_size] is an attribute
    only if a subclass has set it ([hasattr]); no class of this module
    does. *)
Record Proto : Type := mkProto {
  p_verbose : bool;
  p_df : Table;
  p_RHI : bool;
  p_PPI : bool;
  p_range_gate_size : option Q
}.

(** The object once [_check_data] has returned. *)
Record LidarData : Type := mkLidarData {
  verbose : bool;
  df : Table;
  RHI : bool;
  PPI : bool;
  range_gate_size : Q;
  rmin : Q;
  rmax : Q
}.

(** The first half of [_check_data]: the scan type from the names of the
    index levels.  Returns the flags [(RHI, PPI)]. *)
Definition check_coordinates (self : Proto) : io (bool * bool) :=
  let names := index_names (p_df self) in
  if forallb (fun coord => mem coord names) ["range"; "azimuth"; "elevation"]
  then
    print (p_verbose self) (Loaded "3D volumetric scan loaded") ;;
    ret (p_RHI self, p_PPI self)
  else if negb (mem "range" names) then
    print (p_verbose self) (Loaded "Vertical scan loaded") ;;
    ret (p_RHI self, p_PPI self)
  else if negb (mem "azimuth" names) then
    print (p_verbose self) (Loaded "RHI scan loaded") ;;
    ret (true, p_PPI self)
  else if negb (mem "elevation" names) then
    print (p_verbose self) (Loaded "PPI scan loaded") ;;
    ret (p_RHI self, true)
  else
    raise (IndexError (UnexpectedLevels names)).

(** The second half of [_check_data]: gate size and bounds. *)
Definition check_ranges (self : Proto) (flags : bool * bool)
  : result LidarData :=
  rarray <~ level (p_df self) 0 ;;
  r1 <~ getitem rarray 1 ;;
  r0 <~ getitem rarray 0 ;;
  let dr := r1 - r0 in
  size <~ match p_range_gate_size self with
          | Some size =>
              if Qeq_bool size dr then Ok size
              else Raise (AssertionError (Text ""))
          | None => Ok dr
          end ;;
  first <~ getitem rarray 0 ;;
  last <~ getitem rarray (-1) ;;
  Ok {| verbose := p_verbose self;
        df := p_df self;
        RHI := fst flags;
        PPI := snd flags;
        range_gate_size := size;
        rmin := first - size / 2;
        rmax := last + size / 2 |}.

Definition _check_data (self : Proto) : io LidarData :=
  flags <- check_coordinates self ;;
  lift (check_ranges self flags).

(** [LidarData.__init__(df, verbose)] *)
Definition __init__ (table : Table) (verb : bool) : io LidarData :=
  _check_data {| p_verbose := verb; p_df := table;
                 p_RHI := false; p_PPI := false;
                 p_range_gate_size := None |}.

(** [df.loc[(rsel, slice(None), slice(None)), :]]: the rows whose first
    key entry is [rsel], with the whole key; a label with no row is a
    [KeyError]. *)
Definition gate_rows (rsel : Q) (table : Table) : list (list Q * list V) :=
  filter (fun row => Qeq_bool (key_at 0 0 (fst row)) rsel) (rows table).

Definition loc_first_level (rsel : Q) (table : Table) : result Table :=
  match gate_rows rsel table with
  | [] => Raise (KeyError "range")
  | rs => Ok (with_rows table rs)
  end.

(** [LidarData.get_range(r)] *)
Definition get_range (self : LidarData) (r : Q) : io Table :=
  rarray <- lift (level (df self) 0) ;;
  if Qlt_bool r (rmin self) then
    raise (ValueError (RangeBelow (rmin self)))
  else if Qle_bool (rmax self) r then
    raise (ValueError (RangeNotBelow (rmax self)))
  else
    rsel <-
      (if negb (contains r rarray) then
         let right_edges := map (fun c => c + range_gate_size self / 2) rarray in
         match where_ (fun edge => Qlt_bool r edge) right_edges 0 with
         | [] => raise (IndexError (Text "index 0 is out of bounds"))
         | idx :: _ =>
             rsel <- lift (getitem rarray (Z.of_nat idx)) ;;
             let r0 := rsel - range_gate_size self / 2 in
             let r1 := rsel + range_gate_size self / 2 in
             if Qle_bool r0 r && Qlt_bool r r1 then
               print (verbose self) (NearestGate idx r0 r1) ;;
               ret rsel
             else raise (AssertionError (NotBetween r r0 r1))
         end
       else
         let rsel := r in
         match index_of r rarray with
         | None => raise (ValueError (Text "is not in list"))
         | Some idx =>
             let r0 := r - range_gate_size self / 2 in
             let r1 := r + range_gate_size self / 2 in
             print (verbose self) (ExactGate idx r0 r1) ;;
             ret rsel
         end) ;;
    lift (loc_first_level rsel (df self)).

End Container.

(** *** Tables used in the examples: three axes, one field per row *)

Definition row3 (r az el : Q) (v : Q) : list Q * list (option Q) :=
  ([r; az; el], [Some v]).

Definition volumetric (rs : list (list Q * list (option Q))) : DataFrame Q (option Q) :=
  {| index_names := ["range"; "azimuth"; "elevation"];
     columns := ["doppler"];
     rows := rs |}.


(** One gate only, at two azimuths. *)
Definition scan_one_gate : DataFrame Q (option Q) :=
  volumetric [row3 15 0 5 1; row3 15 90 5 2].

(** A key with the range axis only. *)
Definition range_only : DataFrame Q (option Q) :=
  {| index_names := ["range"];
     columns := ["doppler"];
     rows := [([15], [Some 1]); ([45], [Some 2])] |}.

(** A vertical scan: azimuth and elevation in the key, no range. *)
Definition vertical_scan : DataFrame Q (option Q) :=
  {| index_names := ["azimuth"; "elevation"];
     columns := ["doppler"];
     rows := [([0; 80], [Some 1]); ([90; 80], [Some 2]);
              ([180; 80], [Some 3])] |}.

End Lidar.
Import Lidar.

(** ** Floating-point operations, as an interface *)

Module Num.

(** The operations of [numpy] the module calls.  Nothing is assumed of
    them: a statement proved for every [Numeric] holds for IEEE doubles as
    for the reals. *)
Class Numeric (F : Type) : Type := {
  zero : F;                       (* 0.0 *)
  ninety : F;                     (* 90 *)
  straight : F;                   (* 180. *)
  add : F -> F -> F;
  sub : F -> F -> F;
  mul : F -> F -> F;
  square : F -> F;                (* x**2 *)
  cos : F -> F;
  sin : F -> F;
  sqrt : F -> F;
  arctan2 : F -> F -> F;
  radians : F -> F;
  degrees : F -> F;
  eqb : F -> F -> bool            (* == *)
}.

(** A [numpy] value: a scalar, or one entry per row of the table. *)
Inductive array (F : Type) : Type :=
| Scalar (x : F)
| Vector (xs : list F).
Arguments Scalar {F} x.
Arguments Vector {F} xs.

Definition map1 {F} (f : F -> F) (a : array F) : array F :=
  match a with
  | Scalar x => Scalar (f x)
  | Vector xs => Vector (map f xs)
  end.

(** An elementwise binary operation with broadcasting of scalars.  The
    vectors met here come from one index and have one length. *)
Definition map2 {F} (f : F -> F -> F) (a b : array F) : array F :=
  match a, b with
  | Scalar x, Scalar y => Scalar (f x y)
  | Scalar x, Vector ys => Vector (map (f x) ys)
  | Vector xs, Scalar y => Vector (map (fun x => f x y) xs)
  | Vector xs, Vector ys => Vector (map (fun p => f (fst p) (snd p)) (combine xs ys))
  end.

(** The entry of a value at row [i]. *)
Definition at_row {F} (a : array F) (i : nat) : option F :=
  match a with
  | Scalar x => Some x
  | Vector xs => nth_error xs i
  end.

End Num.
Import Num.

(** ** The coordinate transform: [calc_xyz] *)

Module Transform.
Local Open Scope string_scope.
Local Open Scope py_scope.

Section CalcXyz.
Context {F : Type} {num : Numeric F}.
Variable V : Type.

(** [try: df.index.get_level_values(name) except KeyError: fallback] *)
Definition level_or (df : DataFrame F V) (name : string)
           (fallback : result (array F)) : result (array F) :=
  match get_level_values zero df name with
  | Ok v => Ok (Vector v)
  | Raise (KeyError _) => fallback
  | Raise e => Raise e
  end.

(** [90 - azimuth] for the keyword argument, [None] when it was not
    given. *)
Definition ninety_minus (azimuth : option F) : result (array F) :=
  match azimuth with
  | Some a => Ok (Scalar (sub ninety a))
  | None =>
      Raise (TypeError (Text "unsupported operand type(s) for -: 'int' and 'NoneType'"))
  end.

(** The three [try] blocks of [calc_xyz]: range, azimuth as a math angle
    in radians, elevation in radians. *)
Definition coordinates (df : DataFrame F V) (range azimuth : option F)
           (elevation : F) : result (array F * array F * array F) :=
  r <~ level_or df "range"
         (match range with
          | Some x => Ok (Scalar x)
          | None =>
              Raise (AssertionError (Text "need to specify constant value for `range`"))
          end) ;;
  az <~ match get_level_values zero df "azimuth" with
        | Ok v => Ok (map1 radians (map1 (sub ninety) (Vector v)))
        | Raise (KeyError _) =>
            match range with
            | Some _ =>
                a <~ ninety_minus azimuth ;;
                Ok (map1 radians a)
            | None =>
                Raise (AssertionError (Text "need to specify constant value for `azimuth`"))
            end
        | Raise e => Raise e
        end ;;
  el <~ level_or df "elevation" (Ok (Scalar elevation)) ;;
  Ok (r, az, map1 radians el).

(** [calc_xyz(df, range, azimuth, elevation, small_elevation_angles)] *)
Definition calc_xyz (df : DataFrame F V) (range azimuth : option F)
           (elevation : F) (small_elevation_angles : bool)
  : result (array F * array F * array F) :=
  c <~ coordinates df range azimuth elevation ;;
  let '(r, az, el) := c in
  if small_elevation_angles then
    let x := map2 mul r (map1 cos az) in
    let y := map2 mul r (map1 sin az) in
    let z := map2 mul r el in
    Ok (x, y, z)
  else
    let x := map2 mul (map2 mul r (map1 cos az)) (map1 cos el) in
    let y := map2 mul (map2 mul r (map1 sin az)) (map1 cos el) in
    let z := map2 mul r (map1 sin el) in
    Ok (x, y, z).

(** The coordinates of row [i] as the caller gave them: from the index
    level if the table has it, else the constant.  Range in metres,
    azimuth and elevation in degrees. *)
Definition given (df : DataFrame F V) (name : string) (constant : option F)
           (i : nat) : option F :=
  match get_level_values zero df name with
  | Ok v => nth_error v i
  | Raise _ => constant
  end.

End CalcXyz.

End Transform.

(** ** The wind estimator: [estimate_mean_wind] *)

Module Wind.
Local Open Scope string_scope.
Local Open Scope py_scope.

(** A [pd.Series]: an index and one value per row; [None] is a missing
    value (NaN). *)
Record Series (K V : Type) : Type := mkSeries {
  s_index_names : list string;
  s_rows : list (list K * option V)
}.

Section Estimate.
Context {F : Type} {num : Numeric F}.

(** [LinearRegression(fit_intercept=False).fit(LHS, y).coef_] for a
    two-column [LHS]: the solver of scikit-learn, outside this
    repository. *)
Variable fit : list (F * F) -> list F -> result (F * F).

Definition s_level_values (s : Series F F) (name : string)
  : result (list F) :=
  level_values zero (s_index_names s) (map fst (s_rows s)) name.

Definition values (s : Series F F) : list (option F) := map snd (s_rows s).

(** [s.isna()] *)
Definition isna (s : Series F F) : list bool :=
  map (fun v => match v with None => true | Some _ => false end) (values s).

(** [s.loc[mask]] *)
Definition loc (mask : list bool) (s : Series F F) : Series F F :=
  {| s_index_names := s_index_names s; s_rows := select mask (s_rows s) |}.

(** The values handed to the solver. *)
Definition observed (s : Series F F) : list F :=
  flat_map (fun v => match v with Some x => [x] | None => [] end) (values s).

(** A value as one entry per row of a table of [n] rows. *)
Definition per_row (n : nat) (a : array F) : list F :=
  match a with
  | Scalar x => repeat x n
  | Vector xs => xs
  end.

(** [estimate_mean_wind(doppler, elevation)] *)
Definition estimate_mean_wind (doppler : Series F F) (elevation : option F)
  : result (F * F) :=
  el <~ match s_level_values doppler "elevation" with
        | Raise (KeyError _) =>
            match elevation with
            | Some e => Ok (Scalar e)
            | None =>
                Raise (AssertionError (Text "PPI scan, need to specify elevation"))
            end
        | Raise e => Raise e
        | Ok el =>
            el0 <~ getitem el 0 ;;
            if forallb (fun e => eqb e el0) el then Ok (Vector el)
            else Raise (AssertionError (Text ""))
        end ;;
  let el := map1 radians el in
  azimuth <~ s_level_values doppler "azimuth" ;;
  let az := map1 radians (Vector azimuth) in
  let comp1 := map2 mul (map1 cos el) (map1 sin az) in
  let comp2 := map2 mul (map1 cos el) (map1 cos az) in
  let missingvals := isna doppler in
  let n := length (s_rows doppler) in
  let '(comp1, comp2, doppler) :=
    if existsb (fun b => b) missingvals then
      (select (map negb missingvals) (per_row n comp1),
       select (map negb missingvals) (per_row n comp2),
       loc (map negb missingvals) doppler)
    else (per_row n comp1, per_row n comp2, doppler) in
  let LHS := combine comp1 comp2 in
  coef <~ fit LHS (observed doppler) ;;
  let '(U0, V0) := coef in
  let Vmag := sqrt (add (square U0) (square V0)) in
  let beta := add straight (degrees (arctan2 U0 V0)) in
  Ok (Vmag, beta).

(** The row has a value. *)
Definition present (row : list F * option F) : bool :=
  match snd row with Some _ => true | None => false end.

(** The arc with the rows of missing value deleted. *)
Definition dropna (s : Series F F) : Series F F :=
  {| s_index_names := s_index_names s;
     s_rows := filter present (s_rows s) |}.

(** The rows share one elevation, a number equal to itself (not NaN). *)
Definition single_elevation (s : Series F F) : Prop :=
  forall el, s_level_values s "elevation" = Ok el ->
             exists e0, eqb e0 e0 = true /\ Forall (fun e => e = e0) el.

(** The elevation of the arc can be told: the index has an elevation
    level, not empty, with one value throughout, or it has none and the
    caller gives the elevation. *)
Definition elevation_known (s : Series F F) (elevation : option F) : Prop :=
  match s_level_values s "elevation" with
  | Ok el => el <> [] /\ exists e0, eqb e0 e0 = true /\ Forall (fun e => e = e0) el
  | Raise _ => elevation <> None
  end.

(** Speed and meteorological direction from the fitted components. *)
Definition wind_of (coef : F * F) : F * F :=
  (sqrt (add (square (fst coef)) (square (snd coef))),
   add straight (degrees (arctan2 (fst coef) (snd coef)))).

(** Fewer than two observed values, or one azimuth throughout. *)
Definition degenerate (s : Series F F) : Prop :=
  (length (observed s) < 2)%nat \/
  (exists a, s_level_values s "azimuth" = Ok a /\
             exists a0, Forall (fun x => x = a0) a).

End Estimate.

End Wind.

(** ** The delimited-text loader: class [GalionCornellPEIWEE] *)

Module Galion.
Local Open Scope Q_scope.
Local Open Scope string_scope.
Local Open Scope py_scope.

(** A row of the file: the three coordinate columns the loader reads by
    name, and the other columns ([intensity], [doppler], ...), possibly
    missing. *)
Record RawRow : Type := mkRawRow {
  range_gate : Q;
  azimuth : Q;
  elevation : Q;
  fields : list (option Q)
}.

(** The parsed file ([pd.read_csv(fpath)], or the table given for [fpath]).
 *)
Record RawTable : Type := mkRawTable {
  field_names : list string;
  raw_rows : list RawRow
}.

(** [load_opts], with the defaults of [_load]. *)
Record LoadOpts : Type := mkLoadOpts {
  minimum_range : Q;
  gate_size : Q
}.
Definition default_opts : LoadOpts :=
  {| minimum_range := 0; gate_size := 30 |}.

Definition Table : Type := DataFrame Q (option Q).
Definition Scan : Type := LidarData (option Q).

(** Keys compared level by level. *)
Fixpoint key_le (k1 k2 : list Q) : bool :=
  match k1, k2 with
  | [], _ => true
  | _ :: _, [] => false
  | a :: k1', b :: k2' =>
      match (a ?= b)%Q with
      | Lt => true
      | Eq => key_le k1' k2'
      | Gt => false
      end
  end.

Fixpoint insert_row (row : list Q * list (option Q))
         (rs : list (list Q * list (option Q))) :=
  match rs with
  | [] => [row]
  | row' :: rs' =>
      if key_le (fst row) (fst row') then row :: rs
      else row' :: insert_row row rs'
  end.

(** [df.sort_index()]: rows in ascending key order, equal keys in their
    former order. *)
Definition sort_index (t : Table) : Table :=
  with_rows t (fold_right insert_row [] (rows t)).

(** [_load(fpath, minimum_range, range_gate_size)] *)
Definition _load (raw : RawTable) (opts : LoadOpts) : Table :=
  let centre (g : Q) :=
    (minimum_range opts + g * gate_size opts) + gate_size opts / 2 in
  sort_index
    {| index_names := ["range"; "azimuth"; "elevation"];
       columns := "range_gate" :: field_names raw;
       rows := map (fun row =>
                      ([centre (range_gate row); azimuth row; elevation row],
                       Some (range_gate row) :: fields row))
                   (raw_rows raw) |}.

Definition set_df (self : Scan) (t : Table) : Scan :=
  {| verbose := verbose self; df := t; RHI := RHI self; PPI := PPI self;
     range_gate_size := range_gate_size self;
     rmin := rmin self; rmax := rmax self |}.

(** A row with every field missing; the key stays. *)
Definition blank (row : list Q * list (option Q)) : list Q * list (option Q) :=
  (fst row, map (fun _ => None) (snd row)).

(** [df.loc[mask, :] = np.nan] for a mask given per row. *)
Definition set_missing (mask : list bool) (t : Table) : Table :=
  with_rows t
    (map (fun p : bool * (list Q * list (option Q)) =>
            if fst p then blank (snd p) else snd p)
         (combine mask (rows t))).

(** [_filter_by_range(range_gates, ranges)]; a window is [None] or a pair
    of optional bounds, and a pair is a true value whatever it holds. *)
Definition _filter_by_range (self : Scan)
           (range_gates : option (option Z * option Z))
           (ranges : option (option Q * option Q)) : result Scan :=
  match range_gates, ranges with
  | None, None => Raise (AssertionError (Text "Specify range_gates or ranges"))
  | _, _ =>
      allranges <~ get_level_values 0 (df self) "range" ;;
      match range_gates with
      | Some (gate0, gate1) =>
          t <~ match gate0 with
               | Some g =>
                   minrange <~ getitem allranges g ;;
                   Ok (set_missing
                         (map (fun x => Qle_bool x minrange) allranges) (df self))
               | None => Ok (df self)
               end ;;
          t <~ match gate1 with
               | Some g =>
                   maxrange <~ getitem allranges g ;;
                   Ok (set_missing
                         (map (fun x => Qle_bool maxrange x) allranges) t)
               | None => Ok t
               end ;;
          Ok (set_df self t)
      | None =>
          match ranges with
          | Some (range0, range1) =>
              let t := match range0 with
                       | Some lo =>
                           set_missing (map (fun x => Qlt_bool x lo) allranges)
                                       (df self)
                       | None => df self
                       end in
              let t := match range1 with
                       | Some hi =>
                           set_missing (map (fun x => Qlt_bool hi x) allranges) t
                       | None => t
                       end in
              Ok (set_df self t)
          | None => Ok self
          end
      end
  end.

(** [df['intensity'] < bound] and [df['intensity'] > bound]: false on a
    missing intensity. *)
Definition below (bound : Q) (v : option Q) : bool :=
  match v with Some x => Qlt_bool x bound | None => false end.
Definition above (bound : Q) (v : option Q) : bool :=
  match v with Some x => Qlt_bool bound x | None => false end.

(** One [if] of [_filter_by_intensity]. *)
Definition intensity_pass (test : Q -> option Q -> bool) (bound : option Q)
           (t : Table) : result Table :=
  match bound with
  | Some b =>
      intensity <~ column None t "intensity" ;;
      Ok (set_missing (map (test b) intensity) t)
  | None => Ok t
  end.

(** [_filter_by_intensity(min_intensity, max_intensity)] on the table. *)
Definition filter_by_intensity (t : Table) (min_intensity max_intensity : option Q)
  : result Table :=
  t <~ intensity_pass below min_intensity t ;;
  intensity_pass above max_intensity t.

Definition _filter_by_intensity (self : Scan)
           (min_intensity max_intensity : option Q) : result Scan :=
  t <~ filter_by_intensity (df self) min_intensity max_intensity ;;
  Ok (set_df self t).

(** [GalionCornellPEIWEE.__init__(fpath, load_opts, range_gates, ranges,
    intensity_range, verbose)] *)
Definition __init__ (raw : RawTable) (load_opts : LoadOpts)
           (range_gates : option (option Z * option Z))
           (ranges : option (option Q * option Q))
           (intensity_range : option Q * option Q)
           (verb : bool) : io Scan :=
  let table := _load raw load_opts in
  self <- Lidar.__init__ table verb ;;
  self <- lift (_filter_by_range self range_gates ranges) ;;
  lift (_filter_by_intensity self (fst intensity_range) (snd intensity_range)).

(** The intensity of a row of [t]: its field in the column [intensity]. *)
Definition intensity_of (t : Table) (row : list Q * list (option Q))
  : option Q :=
  match position "intensity" (columns t) with
  | Some i => nth i (snd row) None
  | None => None
  end.

(** The intensity is below the lower bound or above the upper bound, for
    the bounds that are given. *)
Definition outside (min_intensity max_intensity : option Q) (v : option Q)
  : bool :=
  match min_intensity with Some b => below b v | None => false end
  || match max_intensity with Some b => above b v | None => false end.

(** A gate index, if given, is a position of a sequence of [n] entries,
    counted from the start or, negative, from the end. *)
Definition gate_in_bounds (n : nat) (g : option Z) : Prop :=
  match g with
  | Some i => (- Z.of_nat n <= i < Z.of_nat n)%Z
  | None => True
  end.

(** *** A file of four returns *)

Definition raw4 : RawTable :=
  {| field_names := ["doppler"; "intensity"];
     raw_rows :=
       [ {| range_gate := 1; azimuth := 0; elevation := 5;
            fields := [Some 2; Some (3#2)] |};
         {| range_gate := 0; azimuth := 0; elevation := 5;
            fields := [Some 1; Some (1#2)] |};
         {| range_gate := 2; azimuth := 0; elevation := 5;
            fields := [None; None] |};
         {| range_gate := 0; azimuth := 90; elevation := 5;
            fields := [Some 4; Some 9] |} ] |}.

End Galion.

(** ** The real numbers as an interpretation of the numeric interface *)

Module RealNum.
Local Open Scope R_scope.

(** [atan2(y, x)]: the angle of the point [(x, y)], in (-pi, pi]. *)
Definition Ratan2 (y x : R) : R :=
  if Rlt_dec 0 x then atan (y / x)
  else if Rlt_dec x 0 then
    if Rle_dec 0 y then atan (y / x) + PI else atan (y / x) - PI
  else if Rlt_dec 0 y then PI / 2
  else if Rlt_dec y 0 then - (PI / 2)
  else 0.

#[export] Instance real : Numeric R := {|
  zero := 0;
  ninety := 90;
  straight := 180;
  add := Rplus;
  sub := Rminus;
  mul := Rmult;
  square := fun x => x ^ 2;
  cos := Rtrigo_def.cos;
  sin := Rtrigo_def.sin;
  sqrt := R_sqrt.sqrt;
  arctan2 := Ratan2;
  radians := fun x => x * PI / 180;
  degrees := fun x => x * 180 / PI;
  eqb := fun x y => if Req_dec_T x y then true else false
|}.

Definition dot (xs ys : list R) : R :=
  fold_right Rplus 0 (map (fun p => fst p * snd p) (combine xs ys)).

(** The least-squares solution of least norm of [A x = y] for a matrix of
    two columns, in exact arithmetic: what the solver of scikit-learn
    computes in floating point.  The solver is not part of this
    repository; the statements below hold for every solver, and this one
    serves in the examples. *)
Definition lstsq (A : list (R * R)) (y : list R) : result (R * R) :=
  match A with
  | [] => Raise (ValueError (Text "Found array with 0 sample(s)"))
  | _ =>
      let a := map fst A in
      let b := map snd A in
      let s11 := dot a a in
      let s12 := dot a b in
      let s22 := dot b b in
      let t1 := dot a y in
      let t2 := dot b y in
      let det := s11 * s22 - s12 * s12 in
      if Req_dec_T det 0 then
        if Req_dec_T (s11 + s22) 0 then Ok (0, 0)
        else Ok (t1 / (s11 + s22), t2 / (s11 + s22))
      else Ok ((s22 * t1 - s12 * t2) / det, (s11 * t2 - s12 * t1) / det)
  end.

(** An arc of one return: azimuth 0 (north), elevation 0, radial velocity
    1. *)
Definition one_return : Wind.Series R R :=
  {| Wind.s_index_names := ["azimuth"%string; "elevation"%string];
     Wind.s_rows := [([0; 0], Some 1)] |}.

(** Three returns at elevation 5, the last one missing. *)
Definition arc3 : Wind.Series R R :=
  {| Wind.s_index_names := ["azimuth"%string; "elevation"%string];
     Wind.s_rows := [([0; 5], Some 1); ([90; 5], Some 2); ([180; 5], None)] |}.

(** A table with the three axes in its key. *)
Definition xyz_table : DataFrame R R :=
  {| index_names := ["range"%string; "azimuth"%string; "elevation"%string];
     columns := ["doppler"%string];
     rows := [([100; 90; 0], [1]); ([200; 0; 30], [2])] |}.

End RealNum.

(** ** The other slicers of [LidarData]: [get_azimuth], [get_elevation], [get] *)

Module Slicers.
Local Open Scope Q_scope.
Local Open Scope string_scope.

(** What the slicers print: the lines of [get_range], and their own. *)
Inductive note : Type :=
| Line (l : line)
| NearestAzimuth (az : Q)       (* f'getting nearest azimuth={az} deg' *)
| NearestElevation (el : Q)     (* f'getting nearest elevation={el} deg' *)
| Guidance.                     (* 'Specify r, az, or el' *)

(** A slicer: the notes printed, then the outcome. *)
Definition log (A : Type) : Type := (list note * result A)%type.

Definition logbind {A B} (c : log A) (k : A -> log B) : log B :=
  match c with
  | (out, Ok a) => let (out', r) := k a in ((out ++ out')%list, r)
  | (out, Raise e) => (out, Raise e)
  end.

Definition say (verbose : bool) (n : note) : log unit :=
  (if verbose then [n] else [], Ok tt).

Definition pure {A} (c : result A) : log A := ([], c).

(** A computation of [get_range], with its lines as notes. *)
Definition relog {A} (c : io A) : log A := (map Line (fst c), snd c).

Definition said {A} (c : log A) : list note := fst c.
Definition returned {A} (c : log A) : result A := snd c.

(** [np.argmin(a)]: the first position of the least entry; [best] and
    [least] are the position and the value found before position [i]. *)
Fixpoint argmin_from (l : list Q) (i best : nat) (least : Q) : nat :=
  match l with
  | [] => best
  | x :: l' =>
      if Qlt_bool x least then argmin_from l' (S i) i x
      else argmin_from l' (S i) best least
  end.

Definition argmin (l : list Q) : result nat :=
  match l with
  | [] => Raise (ValueError (Text "attempt to get argmin of an empty sequence"))
  | x :: l' => Ok (argmin_from l' 1 0 x)
  end.

(** A list without its entry at position [i]. *)
Fixpoint remove_at {A} (i : nat) (l : list A) : list A :=
  match l, i with
  | [], _ => []
  | _ :: l', O => l'
  | x :: l', S i' => x :: remove_at i' l'
  end.

Section Slices.
Variable V : Type.

(** The rows whose key has [value] at level [i]. *)
Definition rows_at (i : nat) (value : Q) (table : Lidar.Table V)
  : list (list Q * list V) :=
  filter (fun row => Qeq_bool (key_at 0 i (fst row)) value) (rows table).

(** [df.xs(value, level=name)]: the rows of that value, the level dropped
    from the index; a name that is no level, or a value with no row, is a
    [KeyError]. *)
Definition xs (value : Q) (name : string) (table : Lidar.Table V)
  : result (Lidar.Table V) :=
  match position name (index_names table) with
  | None => Raise (KeyError name)
  | Some i =>
      match rows_at i value table with
      | [] => Raise (KeyError name)
      | rs =>
          Ok {| index_names := remove_at i (index_names table);
                columns := columns table;
                rows := map (fun row => (remove_at i (fst row), snd row)) rs |}
      end
  end.

(** [array[np.argmin(np.abs(q - array))]] *)
Definition nearest (q : Q) (array : list Q) : result Q :=
  Py.bind (argmin (map (fun a => Qabs (q - a)) array))
          (fun idx => getitem array (Z.of_nat idx)).

(** [LidarData.get_azimuth(az)] *)
Definition get_azimuth (self : LidarData V) (az : Q) : log (Lidar.Table V) :=
  logbind (pure (level (df self) 1)) (fun azarray =>
  logbind (pure (getitem azarray 0)) (fun lowest =>
  if Qlt_bool az lowest then
    pure (Raise (ValueError (Text "Invalid range, az < azarray[0]")))
  else
    logbind (pure (getitem azarray (-1))) (fun highest =>
    if Qlt_bool highest az then
      pure (Raise (ValueError (Text "Invalid range, az > azarray[-1]")))
    else
      logbind
        (if negb (contains az azarray) then
           logbind (pure (nearest az azarray)) (fun az' =>
           logbind (say (verbose self) (NearestAzimuth az')) (fun _ =>
           pure (Ok az')))
         else pure (Ok az))
        (fun az => pure (xs az "azimuth" (df self)))))).

(** [LidarData.get_elevation(el)] *)
Definition get_elevation (self : LidarData V) (el : Q) : log (Lidar.Table V) :=
  logbind (pure (level (df self) 2)) (fun elarray =>
  logbind (pure (getitem elarray 0)) (fun lowest =>
  if Qlt_bool el lowest then
    pure (Raise (ValueError (Text "Invalid range, el < elarray[0]")))
  else
    logbind (pure (getitem elarray (-1))) (fun highest =>
    if Qlt_bool highest el then
      pure (Raise (ValueError (Text "Invalid range, el > elarray[-1]")))
    else
      logbind
        (if negb (contains el elarray) then
           logbind (pure (nearest el elarray)) (fun el' =>
           logbind (say (verbose self) (NearestElevation el')) (fun _ =>
           pure (Ok el')))
         else pure (Ok el))
        (fun el => pure (xs el "elevation" (df self)))))).

(** The common shape of [get_azimuth] and [get_elevation]: the level read
    by position [k], the cross-section taken by [name]. *)
Definition slice_at (k : nat) (name : string) (below above : exn)
           (mark : Q -> note) (self : LidarData V) (q : Q)
  : log (Lidar.Table V) :=
  logbind (pure (level (df self) k)) (fun array =>
  logbind (pure (getitem array 0)) (fun lowest =>
  if Qlt_bool q lowest then pure (Raise below)
  else
    logbind (pure (getitem array (-1))) (fun highest =>
    if Qlt_bool highest q then pure (Raise above)
    else
      logbind
        (if negb (contains q array) then
           logbind (pure (nearest q array)) (fun q' =>
           logbind (say (verbose self) (mark q')) (fun _ =>
           pure (Ok q')))
         else pure (Ok q))
        (fun q => pure (xs q name (df self)))))).

(** [LidarData.get(r, az, el)]: [None] for an argument left out, and the
    value [None] returned when all three are. *)
Definition get (self : LidarData V) (r az el : option Q)
  : log (option (Lidar.Table V)) :=
  match r, az, el with
  | Some r, _, _ =>
      logbind (relog (get_range self r)) (fun t => pure (Ok (Some t)))
  | None, Some az, _ =>
      logbind (get_azimuth self az) (fun t => pure (Ok (Some t)))
  | None, None, Some el =>
      logbind (get_elevation self el) (fun t => pure (Ok (Some t)))
  | None, None, None => ([Guidance], Ok None)
  end.

(** The object as [_check_data] finds it when called on a container
    already built: the gate size is an attribute. *)
Definition as_proto (self : LidarData V) : Proto V :=
  {| p_verbose := verbose self; p_df := df self;
     p_RHI := RHI self; p_PPI := PPI self;
     p_range_gate_size := Some (range_gate_size self) |}.

End Slices.

(** A volumetric scan of two gates, three azimuths and two elevations. *)
Definition scan_volume : DataFrame Q (option Q) :=
  volumetric [row3 15 0 5 1; row3 15 90 5 2; row3 15 180 10 3;
              row3 45 0 5 4; row3 45 90 10 5; row3 45 180 10 6].

End Slicers.

(** ** What the loader makes of a row, and the order of its table *)

Module LoaderProps.
Import Galion.
Local Open Scope Q_scope.

(** The centre of the gate of index [g]:
    [minimum_range + g * range_gate_size + range_gate_size / 2]. *)
Definition centre (opts : LoadOpts) (g : Q) : Q :=
  (minimum_range opts + g * gate_size opts) + gate_size opts / 2.

(** The row of the table for a row of the file. *)
Definition loaded (opts : LoadOpts) (row : RawRow) : list Q * list (option Q) :=
  ([centre opts (range_gate row); azimuth row; elevation row],
   Some (range_gate row) :: fields row).

(** The range is outside the window, for the bounds that are given. *)
Definition outside_window (lo hi : option Q) (r : Q) : bool :=
  match lo with Some b => Qlt_bool r b | None => false end
  || match hi with Some b => Qlt_bool b r | None => false end.

(** The range is at or below the lower gate, or at or above the upper
    gate, for the gates that are given. *)
Definition outside_gates (low high : option Q) (r : Q) : bool :=
  match low with Some b => Qle_bool r b | None => false end
  || match high with Some b => Qle_bool b r | None => false end.

(** A table like [t], with each row kept or blanked as [mask] says. *)
Definition masked (mask : list Q * list (option Q) -> bool) (t : Table) : Table :=
  with_rows t (map (fun row => if mask row then blank row else row) (rows t)).

(** [t'] is [t] with some rows blanked: the same index names and columns,
    and row by row the row of [t] or that row with its fields missing. *)
Definition only_blanked (t t' : Table) : Prop :=
  index_names t' = index_names t /\
  columns t' = columns t /\
  Forall2 (fun row row' => row' = row \/ row' = blank row) (rows t) (rows t').

(** The range of the row at position [g] of the table, when a gate index
    is given: [allranges[g]]. *)
Definition gate_range (allranges : list Q) (g : option Z) : result (option Q) :=
  match g with
  | Some i => Py.bind (getitem allranges i) (fun r => Ok (Some r))
  | None => Ok None
  end.

(** A file whose returns are all of one gate. *)
Definition raw_one_gate : RawTable :=
  {| field_names := ["doppler"; "intensity"]%string;
     raw_rows :=
       [ {| range_gate := 3; azimuth := 0; elevation := 5;
            fields := [Some 2; Some 1] |};
         {| range_gate := 3; azimuth := 90; elevation := 5;
            fields := [Some 1; Some 1] |} ] |}.

End LoaderProps.

(** ** Shapes of the values [calc_xyz] returns *)

Module TransformProps.

(** One entry per row of a table of [n] rows. *)
Definition per_row_of {F} (n : nat) (a : array F) : Prop :=
  exists xs, a = Vector xs /\ length xs = n.

(** A single number. *)
Definition scalar {F} (a : array F) : Prop := exists x, a = Scalar x.

(** A value that is a single number or has one entry per row. *)
Definition fits {F} (n : nat) (a : array F) : Prop :=
  scalar a \/ per_row_of n a.

End TransformProps.

(** ** More arcs for the examples *)

Module MoreTables.
Local Open Scope R_scope.

(** An arc of two returns keyed by azimuth alone (a PPI scan). *)
Definition ppi_arc : Wind.Series R R :=
  {| Wind.s_index_names := ["azimuth"%string];
     Wind.s_rows := [([0], Some 1); ([90], Some 2)] |}.

End MoreTables.

(** ** Numbers as the program has them *)

Module Machine.

(** The operations [LidarData] applies to the values of its index and to
    the values it is asked for.  Nothing is assumed of them: a statement
    over this interface holds for the double-precision floats of Python
    and numpy, which round, as it does for exact numbers; where a proof
    needs a fact about an operation, the statement names it as a
    hypothesis on the values at hand. *)
Class Number (N : Type) : Type := {
  less : N -> N -> bool;        (* a < b *)
  greater : N -> N -> bool;     (* a > b *)
  at_least : N -> N -> bool;    (* a >= b *)
  same : N -> N -> bool;        (* a == b *)
  plus : N -> N -> N;           (* a + b *)
  minus : N -> N -> N;          (* a - b *)
  halved : N -> N;              (* a / 2 *)
  absolute : N -> N             (* np.abs(a) *)
}.

(** The rationals: arithmetic without rounding. *)
#[export] Instance exact : Number Q := {|
  less := Qlt_bool;
  greater := fun a b => Qlt_bool b a;
  at_least := fun a b => Qle_bool b a;
  same := Qeq_bool;
  plus := Qplus;
  minus := Qminus;
  halved := fun a => (a / 2)%Q;
  absolute := Qabs
|}.

(** IEEE 754 binary64 with rounding to nearest, ties to even: the [float]
    of Python and the [float64] of numpy. *)
#[export] Instance binary64 : Number PrimFloat.float := {|
  less := PrimFloat.ltb;
  greater := fun a b => PrimFloat.ltb b a;
  at_least := fun a b => PrimFloat.leb b a;
  same := PrimFloat.eqb;
  plus := PrimFloat.add;
  minus := PrimFloat.sub;
  halved := fun a => PrimFloat.div a PrimFloat.two;
  absolute := PrimFloat.abs
|}.

End Machine.

(** ** Tables as pandas stores them *)

Module Stored.

(** A table with a [MultiIndex]: each level of the index with its name and
    its values ([index.names], [index.levels]), and each row with its
    codes, the position in each level of the value the row has there
    ([index.codes]), and with its fields.  The values of a level are
    stored apart from the rows: a slice of a table keeps the levels of the
    table, also the values no row of the slice has. *)
Record Table (N V : Type) : Type := mkTable {
  levels : list (string * list N);
  columns : list string;
  rows : list (list nat * list V)
}.

Section Generic.
Context {N V : Type}.

(** [df.index.names] *)
Definition index_names (t : Table N V) : list string := map fst (levels t).

(** [df.index.levels[k]] *)
Definition level (t : Table N V) (k : nat) : result (list N) :=
  match nth_error (levels t) k with
  | Some l => Ok (snd l)
  | None => Raise (IndexError (Text "list index out of range"))
  end.

(** The code of a row at level [k] is [i]. *)
Definition has_code (k i : nat) (row : list nat * list V) : bool :=
  match nth_error (fst row) k with
  | Some c => Nat.eqb c i
  | None => false
  end.

Definition with_rows (t : Table N V) (rs : list (list nat * list V))
  : Table N V :=
  {| levels := levels t; columns := columns t; rows := rs |}.

(** [np.where(p(a))[0]]: the positions where [p] holds, ascending. *)
Fixpoint where_ {A} (p : A -> bool) (l : list A) (i : nat) : list nat :=
  match l with
  | [] => []
  | x :: l' => if p x then i :: where_ p l' (S i) else where_ p l' (S i)
  end.

(** A list without its entry at position [i]. *)
Fixpoint remove_at {A} (i : nat) (l : list A) : list A :=
  match l, i with
  | [], _ => []
  | _ :: l', O => l'
  | x :: l', S i' => x :: remove_at i' l'
  end.

End Generic.

Section Lookup.
Context {N : Type} {num : Machine.Number N} {V : Type}.

(** [list(a).index(x)], and the position [Index.get_loc(x)] finds: of the
    first entry equal to [x]. *)
Fixpoint index_of (x : N) (l : list N) : option nat :=
  match l with
  | [] => None
  | y :: l' =>
      if Machine.same y x then Some 0%nat else option_map S (index_of x l')
  end.

(** [x in a] *)
Definition contains (x : N) (l : list N) : bool :=
  existsb (fun y => Machine.same y x) l.

(** The rows of a label at level [k]: the label is looked up among the
    values of the level, and the rows are those with its code; a label
    that is no value of the level, and a value of the level that no row
    has, are a [KeyError]. *)
Definition rows_of (k : nat) (label : N) (name : string) (t : Table N V)
  : result (list (list nat * list V)) :=
  match nth_error (levels t) k with
  | None => Raise (KeyError name)
  | Some l =>
      match index_of label (snd l) with
      | None => Raise (KeyError name)
      | Some code =>
          match filter (has_code k code) (rows t) with
          | [] => Raise (KeyError name)
          | rs => Ok rs
          end
      end
  end.

(** [df.loc[(rsel, slice(None), slice(None)), :]] for a key of three
    levels: the rows of [rsel] at the first level, with their whole key. *)
Definition loc_first_level (rsel : N) (t : Table N V) : result (Table N V) :=
  Py.bind (rows_of 0 rsel "range" t) (fun rs => Ok (with_rows t rs)).

(** How often a name occurs among the names of the levels. *)
Definition occurrences (name : string) (names : list string) : nat :=
  length (filter (String.eqb name) names).

(** [df.xs(value, level=name)]: the rows of [value] at the level [name],
    the level dropped from the index.  A name that several levels have is
    a [ValueError], a name that is no level a [KeyError]. *)
Definition xs (value : N) (name : string) (t : Table N V)
  : result (Table N V) :=
  if (1 <? occurrences name (index_names t))%nat then
    Raise (ValueError
             (Text "The name occurs multiple times, use a level number"))
  else
    match position name (index_names t) with
    | None => Raise (KeyError name)
    | Some k =>
        Py.bind (rows_of k value name t) (fun rs =>
        Ok {| levels := remove_at k (levels t);
              columns := columns t;
              rows := map (fun row => (remove_at k (fst row), snd row)) rs |})
    end.

(** [np.argmin(a)]: the first position of the least entry; [best] and
    [least] are the position and the value found before position [i]. *)
Fixpoint argmin_from (l : list N) (i best : nat) (least : N) : nat :=
  match l with
  | [] => best
  | x :: l' =>
      if Machine.less x least then argmin_from l' (S i) i x
      else argmin_from l' (S i) best least
  end.

Definition argmin (l : list N) : result nat :=
  match l with
  | [] => Raise (ValueError (Text "attempt to get argmin of an empty sequence"))
  | x :: l' => Ok (argmin_from l' 1 0 x)
  end.

(** [array[np.argmin(np.abs(q - array))]] *)
Definition nearest (q : N) (array : list N) : result N :=
  Py.bind (argmin (map (fun a => Machine.absolute (Machine.minus q a)) array))
          (fun idx => getitem array (Z.of_nat idx)).

End Lookup.

End Stored.

(** ** The scan container over machine numbers and stored levels *)

Module Container.
Import Machine Stored.
Local Open Scope string_scope.

Section Container.
Context {N : Type} {num : Number N}.
(** The type of the fields of a row; the container never looks at them. *)
Variable V : Type.

(** What the container prints. *)
Inductive printed : Type :=
| Loaded (what : string)
| NearestGate (idx : nat) (r0 r1 : N)
    (* f'getting nearest range gate {idx} between {r0} and {r1}' *)
| ExactGate (idx : nat) (r0 r1 : N)
    (* f'getting range gate {idx} between {r0} and {r1}' *)
| NearestAzimuth (az : N)       (* f'getting nearest azimuth={az} deg' *)
| NearestElevation (el : N).    (* f'getting nearest elevation={el} deg' *)

(** A method: what it prints, then its outcome. *)
Definition run (A : Type) : Type := (list printed * result A)%type.

Definition ret {A} (a : A) : run A := ([], Ok a).
Definition raise {A} (e : exn) : run A := ([], Raise e).
Definition lift {A} (c : result A) : run A := ([], c).
Definition print (verbose : bool) (l : printed) : run unit :=
  (if verbose then [l] else [], Ok tt).

Definition andthen {A B} (c : run A) (k : A -> run B) : run B :=
  match c with
  | (out, Ok a) => let (out', r) := k a in ((out ++ out')%list, r)
  | (out, Raise e) => (out, Raise e)
  end.

Definition printed_by {A} (c : run A) : list printed := fst c.
Definition returned {A} (c : run A) : result A := snd c.

(** The object while [__init__] runs: [range_gate_size] is an attribute
    only if it has been set before ([hasattr]). *)
Record Proto : Type := mkProto {
  p_verbose : bool;
  p_df : Table N V;
  p_RHI : bool;
  p_PPI : bool;
  p_range_gate_size : option N
}.

(** The object once [_check_data] has returned. *)
Record LidarData : Type := mkLidarData {
  verbose : bool;
  df : Table N V;
  RHI : bool;
  PPI : bool;
  range_gate_size : N;
  rmin : N;
  rmax : N
}.

(** The first half of [_check_data]: the scan type from the names of the
    index levels.  Returns the flags [(RHI, PPI)]. *)
Definition check_coordinates (self : Proto) : run (bool * bool) :=
  let names := index_names (p_df self) in
  if forallb (fun coord => mem coord names) ["range"; "azimuth"; "elevation"]
  then
    andthen (print (p_verbose self) (Loaded "3D volumetric scan loaded"))
            (fun _ => ret (p_RHI self, p_PPI self))
  else if negb (mem "range" names) then
    andthen (print (p_verbose self) (Loaded "Vertical scan loaded"))
            (fun _ => ret (p_RHI self, p_PPI self))
  else if negb (mem "azimuth" names) then
    andthen (print (p_verbose self) (Loaded "RHI scan loaded"))
            (fun _ => ret (true, p_PPI self))
  else if negb (mem "elevation" names) then
    andthen (print (p_verbose self) (Loaded "PPI scan loaded"))
            (fun _ => ret (p_RHI self, true))
  else
    raise (IndexError (UnexpectedLevels names)).

(** The second half of [_check_data]: gate size and bounds. *)
Definition check_ranges (self : Proto) (flags : bool * bool)
  : result LidarData :=
  Py.bind (level (p_df self) 0) (fun rarray =>
  Py.bind (getitem rarray 1) (fun r1 =>
  Py.bind (getitem rarray 0) (fun r0 =>
  let dr := minus r1 r0 in
  Py.bind (match p_range_gate_size self with
           | Some size =>
               if same size dr then Ok size
               else Raise (AssertionError (Text ""))
           | None => Ok dr
           end) (fun size =>
  Py.bind (getitem rarray 0) (fun first =>
  Py.bind (getitem rarray (-1)) (fun last =>
  Ok {| verbose := p_verbose self;
        df := p_df self;
        RHI := fst flags;
        PPI := snd flags;
        range_gate_size := size;
        rmin := minus first (halved size);
        rmax := plus last (halved size) |})))))).

Definition _check_data (self : Proto) : run LidarData :=
  andthen (check_coordinates self) (fun flags =>
  lift (check_ranges self flags)).

(** [LidarData.__init__(df, verbose)] *)
Definition __init__ (table : Table N V) (verb : bool) : run LidarData :=
  _check_data {| p_verbose := verb; p_df := table;
                 p_RHI := false; p_PPI := false;
                 p_range_gate_size := None |}.

(** The properties [r], [az], [el]. *)
Definition r (self : LidarData) : result (list N) := level (df self) 0.
Definition az (self : LidarData) : result (list N) := level (df self) 1.
Definition el (self : LidarData) : result (list N) := level (df self) 2.

(** [LidarData.get_range(r)] *)
Definition get_range (self : LidarData) (r : N) : run (Table N V) :=
  andthen (lift (level (df self) 0)) (fun rarray =>
  if less r (rmin self) then
    raise (ValueError (Text "Invalid range, r < {self.rmin}"))
  else if at_least r (rmax self) then
    raise (ValueError (Text "Invalid range, r >= {self.rmax}"))
  else
    andthen
      (if negb (contains r rarray) then
         let right_edges :=
           map (fun c => plus c (halved (range_gate_size self))) rarray in
         match where_ (fun edge => less r edge) right_edges 0 with
         | [] => raise (IndexError (Text "index 0 is out of bounds"))
         | idx :: _ =>
             andthen (lift (getitem rarray (Z.of_nat idx))) (fun rsel =>
             let r0 := minus rsel (halved (range_gate_size self)) in
             let r1 := plus rsel (halved (range_gate_size self)) in
             if at_least r r0 && less r r1 then
               andthen (print (verbose self) (NearestGate idx r0 r1))
                       (fun _ => ret rsel)
             else
               raise (AssertionError (Text "{r} is not between {r0} and {r1}")))
         end
       else
         let rsel := r in
         match index_of r rarray with
         | None => raise (ValueError (Text "is not in list"))
         | Some idx =>
             let r0 := minus r (halved (range_gate_size self)) in
             let r1 := plus r (halved (range_gate_size self)) in
             andthen (print (verbose self) (ExactGate idx r0 r1))
                     (fun _ => ret rsel)
         end)
      (fun rsel => lift (loc_first_level rsel (df self)))).

(** [LidarData.get_azimuth(az)] *)
Definition get_azimuth (self : LidarData) (az : N) : run (Table N V) :=
  andthen (lift (level (df self) 1)) (fun azarray =>
  andthen (lift (getitem azarray 0)) (fun lowest =>
  if less az lowest then
    raise (ValueError (Text "Invalid range, az < {azarray[0]}"))
  else
    andthen (lift (getitem azarray (-1))) (fun highest =>
    if greater az highest then
      raise (ValueError (Text "Invalid range, az > {azarray[-1]}"))
    else
      andthen
        (if negb (contains az azarray) then
           andthen (lift (nearest az azarray)) (fun az' =>
           andthen (print (verbose self) (NearestAzimuth az')) (fun _ =>
           ret az'))
         else ret az)
        (fun az => lift (xs az "azimuth" (df self)))))).

(** [LidarData.get_elevation(el)] *)
Definition get_elevation (self : LidarData) (el : N) : run (Table N V) :=
  andthen (lift (level (df self) 2)) (fun elarray =>
  andthen (lift (getitem elarray 0)) (fun lowest =>
  if less el lowest then
    raise (ValueError (Text "Invalid range, el < {elarray[0]}"))
  else
    andthen (lift (getitem elarray (-1))) (fun highest =>
    if greater el highest then
      raise (ValueError (Text "Invalid range, el > {elarray[-1]}"))
    else
      andthen
        (if negb (contains el elarray) then
           andthen (lift (nearest el elarray)) (fun el' =>
           andthen (print (verbose self) (NearestElevation el')) (fun _ =>
           ret el'))
         else ret el)
        (fun el => lift (xs el "elevation" (df self)))))).

(** The common shape of [get_azimuth] and [get_elevation]: the level read
    by position [k], the cross-section taken by [name]. *)
Definition slice_at (k : nat) (name : string) (below above : exn)
           (mark : N -> printed) (self : LidarData) (q : N)
  : run (Table N V) :=
  andthen (lift (level (df self) k)) (fun array =>
  andthen (lift (getitem array 0)) (fun lowest =>
  if less q lowest then raise below
  else
    andthen (lift (getitem array (-1))) (fun highest =>
    if greater q highest then raise above
    else
      andthen
        (if negb (contains q array) then
           andthen (lift (nearest q array)) (fun q' =>
           andthen (print (verbose self) (mark q')) (fun _ =>
           ret q'))
         else ret q)
        (fun q => lift (xs q name (df self)))))).

End Container.

End Container.

(** ** What the statements about stored tables say *)

Module StoredProps.
Import Machine Stored.

(** [l'] is [l] restricted to its entries that satisfy [P], in the order
    of [l]. *)
Inductive restricted {A} (P : A -> Prop) : list A -> list A -> Prop :=
| restricted_nil : restricted P [] []
| restricted_keep x l l' :
    P x -> restricted P l l' -> restricted P (x :: l) (x :: l')
| restricted_skip x l l' :
    ~ P x -> restricted P l l' -> restricted P (x :: l) l'.

(** [l'] is [l] without its entry at position [k]. *)
Definition without {A} (k : nat) (l l' : list A) : Prop :=
  exists a x b, l = (a ++ x :: b)%list /\ length a = k /\ l' = (a ++ b)%list.

Section Props.
Context {N : Type} {num : Number N} {V : Type}.

(** The row has the value at position [i] of level [k]. *)
Definition coded (k i : nat) (row : list nat * list V) : Prop :=
  nth_error (fst row) k = Some i.

(** The values of the level called [name]. *)
Definition level_named (t : Table N V) (name : string) : option (list N) :=
  option_map snd (find (fun l => String.eqb (fst l) name) (levels t)).

(** The value a row has at the level called [name]: the entry of the
    level at the code of the row. *)
Definition value_of (t : Table N V) (name : string) (row : list nat * list V)
  : option N :=
  match position name (index_names t), level_named t name with
  | Some k, Some values =>
      match nth_error (fst row) k with
      | Some code => nth_error values code
      | None => None
      end
  | _, _ => None
  end.

(** The values of a level differ from one another, and each equals
    itself: what pandas keeps of a level (no value is missing). *)
Definition distinct (l : list N) : Prop :=
  forall i j a b,
    nth_error l i = Some a -> nth_error l j = Some b ->
    (same a b = true <-> i = j).

(** [<] ranks the entries of [l]: none is below itself, below is
    transitive, and an entry below another is below a third or the third
    is below the other.  So it is for numbers, floats included, none of
    which is a NaN. *)
Definition ranked (l : list N) : Prop :=
  (forall a, In a l -> less a a = false) /\
  (forall a b c, In a l -> In b l -> In c l ->
     less a b = true -> less b c = true -> less a c = true) /\
  (forall a b c, In a l -> In b l -> In c l ->
     less a b = true -> less a c = true \/ less c b = true).


(** The outcome of taking the cross-section at code [i] of level [k]: the
    rows with that code, in their order, each without its code of level
    [k], under an index without that level; or, when no row has the code,
    a [KeyError]. *)
Definition cross_section_of (t : Table N V) (k i : nat)
           (res : result (Table N V)) : Prop :=
  (exists t' rs,
     res = Ok t' /\
     without k (levels t) (levels t') /\ columns t' = columns t /\
     rs <> [] /\
     restricted (coded k i) (rows t) rs /\
     Forall2 (fun row row' =>
                without k (fst row) (fst row') /\ snd row' = snd row)
             rs (rows t'))
  \/
  ((forall row, In row (rows t) -> ~ coded k i row) /\
   exists key, res = Raise (KeyError key)).

(** The distance the slicers compute from [q] to a value of a level. *)
Definition distance (q a : N) : N := absolute (minus q a).

End Props.

End StoredProps.

(** ** Scans in double precision *)

Module Doubles.
Import PrimFloat.
Import Stored.
Local Open Scope string_scope.

Definition Scan : Type := Table float (option float).

(** A volumetric scan from its gate centres, azimuths and elevations and
    its rows. *)
Definition scan (ranges azimuths elevations : list float)
           (rs : list (list nat * list (option float))) : Scan :=
  {| levels := [("range", ranges); ("azimuth", azimuths);
                ("elevation", elevations)];
     columns := ["doppler"];
     rows := rs |}.




(** Gates centred at 10, 20 and 50: the gates at 30 and at 40 have no
    return. *)
Definition gap : Scan :=
  scan [10; 20; 50]%float [0]%float [5]%float
       [([0; 0; 0], [Some 1%float]); ([1; 0; 0], [Some 2%float]);
        ([2; 0; 0], [Some 3%float])]%nat.

(** What [three_gates.loc[(45, slice(None), slice(None)), :]] keeps: the
    levels of the table, and the rows of one gate. *)
Definition one_of_three : Scan :=
  scan [15; 45; 75]%float [0; 90]%float [5]%float
       [([1; 0; 0], [Some 3%float])]%nat.

(** Azimuths 0.1 and 3.6 (as doubles), one gate pair, one elevation. *)
Definition two_azimuths : Scan :=
  scan [15; 45]%float [0x1.999999999999ap-4; 0x1.ccccccccccccdp+1]%float
       [5; 10]%float
       [([0; 0; 0], [Some 1%float]); ([0; 1; 1], [Some 2%float]);
        ([1; 0; 1], [Some 3%float]); ([1; 1; 0], [Some 4%float])]%nat.

(** The double nearest to 1.85. *)
Definition midway : float := 0x1.d99999999999ap+0%float.

(** An RHI scan: range and elevation in the key, no azimuth. *)
Definition rhi : Scan :=
  {| levels := [("range", [15; 45]%float); ("elevation", [0; 10]%float)];
     columns := ["doppler"];
     rows := [([0; 0], [Some 1%float]); ([0; 1], [Some 2%float]);
              ([1; 0], [Some 3%float]); ([1; 1], [Some 4%float])]%nat |}.

End Doubles.

(** ** Predicates used in the statements *)

Module Props.
Local Open Scope Q_scope.

(** The intensity [v] of a row is there and lies below the lower bound or
    above the upper bound, for the bounds that are given. *)
Definition out_of_window (lo hi : option Q) (v : option Q) : Prop :=
  exists x, v = Some x /\
    ((exists b, lo = Some b /\ x < b) \/ (exists b, hi = Some b /\ b < x)).

End Props.
Import Props.

(** * Properties *)

(** ** Sequences of rationals *)

Module QSeqFacts.
Local Open Scope Q_scope.

Lemma Qlt_bool_iff (x y : Q) : Qlt_bool x y = true <-> x < y.
Proof.
  unfold Qlt_bool. rewrite negb_true_iff.
  split; intro H.
  - apply Qnot_le_lt. intro Hle. apply Qle_bool_iff in Hle. congruence.
  - destruct (Qle_bool y x) eqn:E; [|reflexivity].
    apply Qle_bool_iff in E. exfalso. apply (Qlt_not_le _ _ H E).
Qed.

Lemma Qlt_bool_false (x y : Q) : Qlt_bool x y = false <-> y <= x.
Proof.
  unfold Qlt_bool. rewrite negb_false_iff. apply Qle_bool_iff.
Qed.

Lemma Qle_bool_false (x y : Q) : Qle_bool x y = false <-> y < x.
Proof.
  rewrite <- Qlt_bool_iff. unfold Qlt_bool.
  destruct (Qle_bool x y); simpl; split; congruence.
Qed.

Lemma insert_uniq_In x l z : In z (insert_uniq x l) -> z = x \/ In z l.
Proof.
  induction l as [|y l IH]; simpl.
  - intros [<- | []]. now left.
  - destruct (x ?= y); simpl.
    + tauto.
    + intros [<- | H]; tauto.
    + intros [<- | H]; [tauto|]. destruct (IH H); tauto.
Qed.

Lemma unique_sorted_In l z : In z (unique_sorted l) -> In z l.
Proof.
  induction l as [|x l IH]; simpl; [tauto|].
  intro H. apply insert_uniq_In in H.
  destruct H as [-> | H]; [now left | right; auto].
Qed.

End QSeqFacts.

(** ** Python sequences *)

Module FrameFacts.

Lemma getitem_nat {A} (l : list A) (i : nat) :
  getitem l (Z.of_nat i) =
  match nth_error l i with
  | Some x => Ok x
  | None => Raise (IndexError (Text "index out of bounds"))
  end.
Proof.
  unfold getitem. cbv zeta.
  assert (E : (Z.of_nat i <? 0)%Z = false) by (apply Z.ltb_ge; lia).
  rewrite E. cbv iota. rewrite E, Nat2Z.id. simpl orb.
  destruct (Z.leb_spec (Z.of_nat (length l)) (Z.of_nat i)) as [H|H].
  - assert (Hn : nth_error l i = None) by (apply nth_error_None; lia).
    rewrite Hn. reflexivity.
  - reflexivity.
Qed.

Lemma getitem_0 {A} (l : list A) :
  getitem l 0 = match l with
                | x :: _ => Ok x
                | [] => Raise (IndexError (Text "index out of bounds"))
                end.
Proof. change 0%Z with (Z.of_nat 0). rewrite getitem_nat. now destruct l. Qed.

Lemma getitem_1 {A} (l : list A) :
  getitem l 1 = match l with
                | _ :: y :: _ => Ok y
                | _ => Raise (IndexError (Text "index out of bounds"))
                end.
Proof.
  change 1%Z with (Z.of_nat 1). rewrite getitem_nat.
  destruct l as [|x [|y l]]; reflexivity.
Qed.

Lemma getitem_last {A} (x : A) (l : list A) (d : A) :
  getitem (x :: l) (-1) = Ok (last (x :: l) d).
Proof.
  unfold getitem. cbv zeta.
  change (-1 <? 0)%Z with true. cbv iota.
  set (n := Z.of_nat (length (x :: l))).
  assert (Hn : (n = Z.of_nat (length l) + 1)%Z) by (subst n; simpl length; lia).
  destruct (Z.ltb_spec (-1 + n) 0) as [H|_]; [lia|].
  destruct (Z.leb_spec n (-1 + n)) as [H|_]; [lia|]. simpl orb. cbv iota.
  replace (Z.to_nat (-1 + n)) with (length l) by lia.
  clear. revert x. induction l as [|y l IH]; intro x; [reflexivity|].
  simpl length. change (nth_error (x :: y :: l) (S (length l)))
    with (nth_error (y :: l) (length l)).
  rewrite IH. reflexivity.
Qed.

Lemma mem_position name l :
  mem name l = true -> exists k, position name l = Some k.
Proof.
  unfold mem. induction l as [|n l IH]; simpl; [discriminate|].
  destruct (String.eqb name n); [eauto|].
  simpl. intro Hm. destruct (IH Hm) as (k & ->). simpl. eauto.
Qed.

End FrameFacts.

(** ** The scan container *)

Module LidarFacts.
Import QSeqFacts FrameFacts.
Local Open Scope Q_scope.

Section Facts.
Variable V : Type.
Implicit Types (t : Lidar.Table V) (s : LidarData V) (p : Proto V).

(** The [else] branch of the scan-type test cannot be reached: a key that
    lacks none of the three axes has all three. *)
Lemma check_coordinates_returns p :
  exists out flags, check_coordinates p = (out, Ok flags).
Proof.
  unfold check_coordinates. cbn [forallb].
  destruct (mem "range" (index_names (p_df p)));
    destruct (mem "azimuth" (index_names (p_df p)));
    destruct (mem "elevation" (index_names (p_df p)));
    destruct (p_verbose p); cbn; eauto.
Qed.

Lemma init_unfold t verb :
  exists out,
    Lidar.__init__ t verb =
    (out, match check_coordinates (mkProto verb t false false None) with
          | (_, Ok flags) =>
              check_ranges (mkProto verb t false false None) flags
          | (_, Raise e) => Raise e
          end).
Proof.
  unfold Lidar.__init__, _check_data, iobind, lift.
  destruct (check_coordinates _) as [out [flags|e]]; [|eauto].
  destruct (check_ranges _ flags); rewrite app_nil_r; eauto.
Qed.

Lemma check_ranges_ok verb t flags r0 r1 rest :
  level t 0 = Ok (r0 :: r1 :: rest) ->
  check_ranges (mkProto verb t false false None) flags =
  Ok {| verbose := verb; df := t; RHI := fst flags; PPI := snd flags;
        range_gate_size := r1 - r0;
        rmin := r0 - (r1 - r0) / 2;
        rmax := last (r0 :: r1 :: rest) 0 + (r1 - r0) / 2 |}.
Proof.
  intro H. unfold check_ranges. cbn [p_df p_verbose p_range_gate_size].
  rewrite H. cbn [Py.bind].
  rewrite getitem_1, getitem_0. cbn [Py.bind].
  rewrite (getitem_last r0 (r1 :: rest) 0). reflexivity.
Qed.

Lemma check_ranges_short verb t flags :
  (forall l, level t 0 = Ok l -> (length l < 2)%nat) ->
  exists txt, check_ranges (mkProto verb t false false None) flags
              = Raise (IndexError (Text txt)).
Proof.
  intro H. unfold check_ranges. cbn [p_df].
  destruct (level t 0) as [l|e] eqn:E; cbn [Py.bind].
  - specialize (H l eq_refl). rewrite getitem_1.
    destruct l as [|a [|b l]]; cbn [Py.bind]; eauto.
    simpl in H. lia.
  - unfold level in E. destruct (nth_error (levels t) 0); [discriminate|].
    injection E as <-. eauto.
Qed.

Lemma init_inv t verb out s :
  Lidar.__init__ t verb = (out, Ok s) ->
  exists r0 r1 rest,
    level t 0 = Ok (r0 :: r1 :: rest) /\
    df s = t /\ verbose s = verb /\
    range_gate_size s = r1 - r0 /\
    rmin s = r0 - (r1 - r0) / 2 /\
    rmax s = last (r0 :: r1 :: rest) 0 + (r1 - r0) / 2.
Proof.
  intro H. destruct (init_unfold t verb) as (out' & E).
  rewrite E in H. injection H as _ H.
  destruct (check_coordinates_returns (mkProto verb t false false None))
    as (o & flags & Ec).
  rewrite Ec in H.
  destruct (level t 0) as [l|e] eqn:El.
  - destruct l as [|r0 [|r1 rest]].
    + destruct (@check_ranges_short verb t flags) as (m & Em);
        [intros l El'; rewrite El in El'; injection El' as <-; simpl; lia|].
      congruence.
    + destruct (@check_ranges_short verb t flags) as (m & Em);
        [intros l El'; rewrite El in El'; injection El' as <-; simpl; lia|].
      congruence.
    + rewrite (check_ranges_ok verb t flags El) in H.
      injection H as <-. exists r0, r1, rest. cbn. tauto.
  - destruct (@check_ranges_short verb t flags) as (m & Em);
      [intros l El'; congruence|].
    congruence.
Qed.

Lemma init_returns t verb r0 r1 rest :
  level t 0 = Ok (r0 :: r1 :: rest) ->
  exists out s, Lidar.__init__ t verb = (out, Ok s).
Proof.
  intro H. destruct (init_unfold t verb) as (out & E).
  destruct (check_coordinates_returns (mkProto verb t false false None))
    as (o & flags & Ec).
  rewrite Ec, (check_ranges_ok verb t flags H) in E. eauto.
Qed.

Lemma outcome_bind A B (c : io A) (k : A -> io B) :
  outcome (iobind c k) =
  match outcome c with
  | Ok a => outcome (k a)
  | Raise e => Raise e
  end.
Proof.
  destruct c as [o [a|e]]; cbn; [destruct (k a)|]; reflexivity.
Qed.

Lemma outcome_lift A (c : result A) : outcome (lift c) = c.
Proof. reflexivity. Qed.

(** The scan types the constructor tells apart. *)
Lemma check_coordinates_volumetric p :
  forallb (fun coord => mem coord (index_names (p_df p)))
          ["range"; "azimuth"; "elevation"]%string = true ->
  check_coordinates p
  = ((if p_verbose p then [Loaded "3D volumetric scan loaded"] else []) ++ [],
     Ok (p_RHI p, p_PPI p)).
Proof.
  intro H. unfold check_coordinates. rewrite H.
  destruct (p_verbose p); reflexivity.
Qed.

Lemma check_coordinates_rhi p :
  mem "range" (index_names (p_df p)) = true ->
  mem "azimuth" (index_names (p_df p)) = false ->
  check_coordinates p
  = ((if p_verbose p then [Loaded "RHI scan loaded"] else []) ++ [],
     Ok (true, p_PPI p)).
Proof.
  intros Hr Ha. unfold check_coordinates. cbn [forallb].
  rewrite Hr, Ha. destruct (p_verbose p); reflexivity.
Qed.

(** C4 (the code at the failing input).  A table keyed by the range axis
    alone is not rejected: with [verbose] set the constructor prints
    'RHI scan loaded', sets the RHI flag and returns the container.  No
    table at all reaches the [IndexError] that names the index levels:
    whatever the key, construction does not raise it. *)
Theorem init_range_only_is_RHI :
  (exists c, Lidar.__init__ range_only true = ([Loaded "RHI scan loaded"], Ok c)
             /\ RHI c = true) /\
  (forall t verb names,
     outcome (Lidar.__init__ t verb) <> Raise (IndexError (UnexpectedLevels names))).
Proof.
  split.
  - eexists. split; vm_compute; reflexivity.
  - intros t verb names. destruct (init_unfold t verb) as (out & E).
    rewrite E. unfold outcome. cbn [snd].
    destruct (check_coordinates_returns (mkProto verb t false false None))
      as (o & flags & Ec).
    rewrite Ec.
    destruct (level t 0) as [[|r0 [|r1 rest]]|e] eqn:El.
    + destruct (@check_ranges_short verb t flags) as (m & Em);
        [intros l El'; rewrite El in El'; injection El' as <-; simpl; lia|].
      congruence.
    + destruct (@check_ranges_short verb t flags) as (m & Em);
        [intros l El'; rewrite El in El'; injection El' as <-; simpl; lia|].
      congruence.
    + rewrite (check_ranges_ok verb t flags El). discriminate.
    + destruct (@check_ranges_short verb t flags) as (m & Em);
        [intros l El'; congruence|].
      congruence.
Qed.

(** C10.  Construction reads the first level of the index by position,
    whatever its name: the gate size is the second entry minus the first,
    [rmin] the first entry minus half the gate size, [rmax] the last
    entry of that level plus half the gate size.  It succeeds when that
    level has two values or more, and when it has fewer (or the index
    has no level) it fails with an out-of-bounds [IndexError], also for
    a valid combination of axes. *)
Theorem init_bounds_from_first_level t verb :
  (forall out s, Lidar.__init__ t verb = (out, Ok s) ->
     exists r0 r1 rest,
       level t 0 = Ok (r0 :: r1 :: rest) /\
       range_gate_size s = r1 - r0 /\
       rmin s = r0 - range_gate_size s / 2 /\
       rmax s = last (r0 :: r1 :: rest) 0 + range_gate_size s / 2) /\
  (forall l, level t 0 = Ok l -> (2 <= length l)%nat ->
     exists out s, Lidar.__init__ t verb = (out, Ok s)) /\
  ((forall l, level t 0 = Ok l -> (length l < 2)%nat) ->
     exists txt, outcome (Lidar.__init__ t verb) = Raise (IndexError (Text txt))).
Proof.
  split; [|split].
  - intros out s H. apply init_inv in H.
    destruct H as (r0 & r1 & rest & Hl & _ & _ & Hs & Hmin & Hmax).
    exists r0, r1, rest. rewrite Hs. tauto.
  - intros [|r0 [|r1 rest]] Hl Hlen; simpl in Hlen; try lia.
    eapply init_returns. exact Hl.
  - intro H. destruct (init_unfold t verb) as (out & E).
    rewrite E. unfold outcome. cbn [snd].
    destruct (check_coordinates_returns (mkProto verb t false false None))
      as (o & flags & Ec).
    rewrite Ec. now apply check_ranges_short.
Qed.

End Facts.
End LidarFacts.

(** ** Instances of the statements on the example tables *)

Module LidarExamples.
Import LidarFacts.
Local Open Scope Q_scope.

(** The vertical scan has no range axis, and its azimuths 0, 90, 180 are
    read as gate centres: gate size 90, bounds -45 and 225; a table of
    one gate fails with an [IndexError]. *)
Lemma init_bounds_from_first_level_witness :
  (exists s, outcome (Lidar.__init__ vertical_scan false) = Ok s /\
             range_gate_size s == 90 /\ rmin s == -45 /\ rmax s == 225) /\
  (exists txt, outcome (Lidar.__init__ scan_one_gate false)
               = Raise (IndexError (Text txt))).
Proof.
  split.
  - destruct (proj1 (proj2 (init_bounds_from_first_level vertical_scan false))
                    [0; 90; 180] eq_refl) as (out & s & E); [simpl; lia|].
    exists s. rewrite E. split; [reflexivity|].
    destruct (proj1 (init_bounds_from_first_level vertical_scan false) out s E)
      as (r0 & r1 & rest & Hl & Hs & Hmin & Hmax).
    injection Hl as <- <- <-.
    rewrite Hmin, Hmax, Hs. cbn [last]. repeat split; reflexivity.
  - apply (proj2 (proj2 (init_bounds_from_first_level scan_one_gate false))).
    intros l H. injection H as <-. simpl. lia.
Defined.

End LidarExamples.

(** ** The coordinate transform *)

Module TransformFacts.
Import Transform.

Lemma nth_error_combine {A B} (xs : list A) (ys : list B) :
  forall i u v,
    nth_error xs i = Some u -> nth_error ys i = Some v ->
    nth_error (combine xs ys) i = Some (u, v).
Proof.
  revert ys. induction xs as [|x xs IH]; intros ys i u v Hu Hv.
  - destruct i; discriminate.
  - destruct ys as [|y ys]; [destruct i; discriminate|].
    destruct i as [|i]; simpl in *.
    + congruence.
    + now apply IH.
Qed.

Section Facts.
Context {F : Type} {num : Numeric F}.
Variable V : Type.
Implicit Types (df : DataFrame F V) (a b : array F).

Lemma at_row_map1 (f : F -> F) a i :
  at_row (map1 f a) i = option_map f (at_row a i).
Proof.
  destruct a as [x|xs]; simpl; [reflexivity | apply nth_error_map].
Qed.

Lemma at_row_map2 (f : F -> F -> F) a b i u v :
  at_row a i = Some u -> at_row b i = Some v ->
  at_row (map2 f a b) i = Some (f u v).
Proof.
  destruct a as [x|xs], b as [y|ys]; simpl; intros Hu Hv.
  - congruence.
  - injection Hu as ->. now rewrite nth_error_map, Hv.
  - injection Hv as ->. now rewrite nth_error_map, Hu.
  - now rewrite nth_error_map, (nth_error_combine _ _ _ Hu Hv).
Qed.

Lemma get_level_values_cases df name :
  (exists v, get_level_values zero df name = Ok v) \/
  get_level_values zero df name = Raise (KeyError name).
Proof.
  unfold get_level_values, level_values.
  destruct (position name (index_names df)); eauto.
Qed.

Lemma coordinates_at df range azimuth elevation r az el i rv av ev :
  coordinates df range azimuth elevation = Ok (r, az, el) ->
  given df "range" range i = Some rv ->
  given df "azimuth" azimuth i = Some av ->
  given df "elevation" (Some elevation) i = Some ev ->
  at_row r i = Some rv /\
  at_row az i = Some (radians (sub ninety av)) /\
  at_row el i = Some (radians ev).
Proof.
  unfold coordinates, level_or, given, ninety_minus.
  destruct (get_level_values_cases df "range") as [[vr Er] | Er];
    destruct (get_level_values_cases df "azimuth") as [[va Ea] | Ea];
    destruct (get_level_values_cases df "elevation") as [[ve Ee] | Ee];
    rewrite Er, Ea, Ee; destruct range as [rc|], azimuth as [ac|];
    cbn [Py.bind]; try discriminate;
    intros H Hr Ha He; injection H as <- <- <-;
    rewrite ?at_row_map1; cbn [at_row map1];
    rewrite ?nth_error_map, ?Hr, ?Ha, ?He; cbn [option_map];
    try (injection Hr as <-); try (injection Ha as <-);
    try (injection He as <-); repeat split; reflexivity.
Qed.

(** C2.  Whenever [calc_xyz] returns, each row has the coordinates of
    the formulas: with [a = radians(90 - az)] and [e = radians(el)], in
    the small-angle mode [x = r*cos(a)], [y = r*sin(a)], [z = r*e], and
    otherwise [x = r*cos(a)*cos(e)], [y = r*sin(a)*cos(e)],
    [z = r*sin(e)]; here [r], [az], [el] are the row's range, azimuth and
    elevation, from the index or from the constant given.  It returns
    when the table has the three axes in its key, and also when an axis
    is missing and the constants for range and azimuth are given. *)
Theorem calc_xyz_formulas df range azimuth elevation small :
  (forall x y z,
     calc_xyz df range azimuth elevation small = Ok (x, y, z) ->
     forall i r az el,
       given df "range" range i = Some r ->
       given df "azimuth" azimuth i = Some az ->
       given df "elevation" (Some elevation) i = Some el ->
       let a := radians (sub ninety az) in
       let e := radians el in
       at_row x i = Some (if small then mul r (cos a)
                          else mul (mul r (cos a)) (cos e)) /\
       at_row y i = Some (if small then mul r (sin a)
                          else mul (mul r (sin a)) (cos e)) /\
       at_row z i = Some (if small then mul r e else mul r (sin e))) /\
  ((range <> None /\ azimuth <> None) \/
   (mem "range" (index_names df) = true /\
    mem "azimuth" (index_names df) = true) ->
   exists x y z, calc_xyz df range azimuth elevation small = Ok (x, y, z)).
Proof.
  split.
  - intros x y z H i r az el Hr Ha He a e. unfold calc_xyz in H.
    destruct (coordinates df range azimuth elevation)
      as [[[cr caz] cel]|err] eqn:Ec; cbn [Py.bind] in H; [|discriminate].
    destruct (coordinates_at _ _ _ _ _ Ec Hr Ha He) as (Hcr & Hcaz & Hcel).
    fold a in Hcaz. fold e in Hcel.
    assert (Hcos : at_row (map1 cos caz) i = Some (cos a))
      by (rewrite at_row_map1, Hcaz; reflexivity).
    assert (Hsin : at_row (map1 sin caz) i = Some (sin a))
      by (rewrite at_row_map1, Hcaz; reflexivity).
    destruct small; injection H as <- <- <-.
    + repeat split; now apply at_row_map2.
    + assert (Hce : at_row (map1 cos cel) i = Some (cos e))
        by (rewrite at_row_map1, Hcel; reflexivity).
      assert (Hse : at_row (map1 sin cel) i = Some (sin e))
        by (rewrite at_row_map1, Hcel; reflexivity).
      repeat split; repeat apply at_row_map2; assumption.
  - intro H.
    assert (Hc : exists c, coordinates df range azimuth elevation = Ok c).
    { unfold coordinates, level_or, ninety_minus, get_level_values,
        level_values.
      destruct H as [[Hr Ha] | [Hr Ha]].
      - destruct range as [rc|]; [|congruence].
        destruct azimuth as [ac|]; [|congruence].
        destruct (position "range" (index_names df)),
                 (position "azimuth" (index_names df)),
                 (position "elevation" (index_names df));
          cbn [Py.bind]; eauto.
      - destruct (FrameFacts.mem_position _ _ Hr) as (kr & ->).
        destruct (FrameFacts.mem_position _ _ Ha) as (ka & ->).
        destruct (position "elevation" (index_names df));
          cbn [Py.bind]; eauto. }
    destruct Hc as ([[cr caz] cel] & Hc). unfold calc_xyz. rewrite Hc.
    cbn [Py.bind]. destruct small; eauto.
Qed.

(** C5 (the code at the failing input).  A table without an azimuth
    level, called with a constant for the range and none for the
    azimuth: the assertion of the azimuth block tests [range], passes,
    and the subtraction [90 - None] raises a [TypeError], for a table
    keyed by elevation alone as for one keyed by range and elevation.
    The assertion fails only when no constant was given for the range,
    and then also when the azimuth was given. *)
Theorem calc_xyz_missing_azimuth cols rs r az elevation small :
  let profile := {| index_names := ["elevation"]%string;
                    columns := cols; rows := rs |} : DataFrame F V in
  let rhi := {| index_names := ["range"; "elevation"]%string;
                columns := cols; rows := rs |} : DataFrame F V in
  calc_xyz profile (Some r) None elevation small
  = Raise (TypeError (Text "unsupported operand type(s) for -: 'int' and 'NoneType'"))
  /\
  calc_xyz rhi (Some r) None elevation small
  = Raise (TypeError (Text "unsupported operand type(s) for -: 'int' and 'NoneType'"))
  /\
  calc_xyz rhi None None elevation small
  = Raise (AssertionError (Text "need to specify constant value for `azimuth`"))
  /\
  calc_xyz rhi None (Some az) elevation small
  = Raise (AssertionError (Text "need to specify constant value for `azimuth`")).
Proof.
  repeat split; reflexivity.
Qed.

End Facts.
End TransformFacts.

(** ** The wind estimator *)

Module WindFacts.
Import Wind.

Lemma select_map {A B} (f : A -> B) (m : list bool) (l : list A) :
  select m (map f l) = map f (select m l).
Proof.
  revert l. induction m as [|b m IH]; intros [|x l]; simpl; try reflexivity.
  destruct b; simpl; now rewrite IH.
Qed.

Lemma select_combine {A B} (m : list bool) (xs : list A) (ys : list B) :
  select m (combine xs ys) = combine (select m xs) (select m ys).
Proof.
  revert xs ys. induction m as [|b m IH]; intros [|x xs] [|y ys]; simpl;
    try reflexivity.
  - destruct b; simpl; now destruct (select m xs).
  - destruct b; simpl; now rewrite IH.
Qed.

Lemma select_filter {A} (p : A -> bool) (l : list A) :
  select (map p l) l = filter p l.
Proof.
  induction l as [|x l IH]; simpl; [reflexivity|].
  destruct (p x); now rewrite IH.
Qed.

Lemma select_Forall {A} (P : A -> Prop) (m : list bool) (l : list A) :
  Forall P l -> Forall P (select m l).
Proof.
  intro H. revert m. induction H as [|x l Hx Hl IH]; intros [|b m]; simpl;
    try constructor.
  destruct b; [constructor|]; auto.
Qed.

Section Facts.
Context {F : Type} {num : Numeric F}.
Variable fit : list (F * F) -> list F -> result (F * F).
Implicit Types (d : Series F F).

Lemma keep_mask d : map negb (isna d) = map present (s_rows d).
Proof.
  unfold isna, values. rewrite !map_map. apply map_ext.
  intros [k [v|]]; reflexivity.
Qed.

Lemma loc_dropna d : loc (map negb (isna d)) d = dropna d.
Proof.
  unfold loc, dropna. rewrite keep_mask, select_filter. reflexivity.
Qed.

Lemma isna_dropna d : existsb (fun b => b) (isna (dropna d)) = false.
Proof.
  unfold isna, values, dropna. cbn [s_rows].
  induction (s_rows d) as [|[k [v|]] l IH]; simpl; auto.
Qed.

Lemma dropna_complete d :
  existsb (fun b => b) (isna d) = false -> dropna d = d.
Proof.
  destruct d as [names rs]. unfold isna, values, dropna. cbn [s_rows s_index_names].
  intro H. f_equal.
  induction rs as [|[k [v|]] l IH]; simpl in *; try discriminate.
  - reflexivity.
  - now rewrite IH.
Qed.

Lemma level_values_dropna d name :
  s_level_values (dropna d) name =
  match s_level_values d name with
  | Ok v => Ok (select (map negb (isna d)) v)
  | Raise e => Raise e
  end.
Proof.
  unfold s_level_values, level_values, dropna. cbn [s_index_names s_rows].
  destruct (position name (s_index_names d)); [|reflexivity].
  rewrite keep_mask, !select_map, select_filter. reflexivity.
Qed.

Lemma level_values_length d name v :
  s_level_values d name = Ok v -> length v = length (s_rows d).
Proof.
  unfold s_level_values, level_values.
  destruct (position name (s_index_names d)); [|discriminate].
  intro H. injection H as <-. now rewrite !length_map.
Qed.

Lemma select_keep_length d {A} (l : list A) :
  length l = length (s_rows d) ->
  length (select (map negb (isna d)) l) = length (observed d).
Proof.
  unfold observed, isna, values.
  revert l. induction (s_rows d) as [|[k [v|]] rs IH]; intros [|x l] H;
    simpl in *; try discriminate; auto.
Qed.

Lemma single_value_checks e0 (l : list F) :
  eqb e0 e0 = true -> Forall (fun e => e = e0) l -> l <> [] ->
  getitem l 0 = Ok e0 /\ forallb (fun e => eqb e e0) l = true.
Proof.
  intros He Hl Hne. rewrite FrameFacts.getitem_0.
  destruct l as [|x l]; [congruence|].
  split.
  - inversion Hl; subst. reflexivity.
  - apply forallb_forall. intros e Hin.
    rewrite Forall_forall in Hl. now rewrite (Hl e Hin).
Qed.

(** C3.  For an arc at one elevation with a value in some row, the
    estimate is that of the same arc with its rows of missing value
    deleted: the missing observations leave the observation vector and
    both coefficient columns before the fit. *)
Theorem estimate_mean_wind_dropna d elevation :
  single_elevation d ->
  observed d <> [] ->
  estimate_mean_wind fit d elevation
  = estimate_mean_wind fit (dropna d) elevation.
Proof.
  intros Hel Hobs.
  destruct (existsb (fun b => b) (isna d)) eqn:Hmiss;
    [|now rewrite dropna_complete].
  unfold estimate_mean_wind.
  rewrite !level_values_dropna, isna_dropna, Hmiss.
  rewrite loc_dropna.
  set (keep := map negb (isna d)).
  destruct (s_level_values d "azimuth") as [azs|ea] eqn:Ea.
  - destruct (s_level_values d "elevation") as [els|[k|m|m|m|m]] eqn:Ee;
      cbn [Py.bind]; try reflexivity.
    + destruct (Hel els Ee) as (e0 & He0 & Hall). clear Hel.
      assert (Hlen : length (select keep els) = length (observed d))
        by (apply select_keep_length; eapply level_values_length; eauto).
      assert (Hne' : select keep els <> [])
        by (intro E; rewrite E in Hlen; destruct (observed d);
            [congruence | discriminate]).
      assert (Hne : els <> [])
        by (intro E; rewrite E in Hne'; destruct keep; auto).
      destruct (single_value_checks He0 Hall Hne) as [G1 G2].
      destruct (single_value_checks He0 (select_Forall keep Hall) Hne')
        as [G3 G4].
      rewrite G1, G3. cbn [Py.bind]. rewrite G2, G4.
      cbn [Py.bind map1 map2 per_row].
      now rewrite !select_map, !select_combine, !select_map.
    + destruct elevation as [e|]; cbn [Py.bind map1 map2 per_row];
        [|reflexivity].
      now rewrite !select_map.
  - destruct (s_level_values d "elevation") as [els|[k|m|m|m|m]] eqn:Ee;
      cbn [Py.bind]; try reflexivity.
    + destruct (Hel els Ee) as (e0 & He0 & Hall). clear Hel.
      assert (Hlen : length (select keep els) = length (observed d))
        by (apply select_keep_length; eapply level_values_length; eauto).
      assert (Hne' : select keep els <> [])
        by (intro E; rewrite E in Hlen; destruct (observed d);
            [congruence | discriminate]).
      assert (Hne : els <> [])
        by (intro E; rewrite E in Hne'; destruct keep; auto).
      destruct (single_value_checks He0 Hall Hne) as [G1 G2].
      destruct (single_value_checks He0 (select_Forall keep Hall) Hne')
        as [G3 G4].
      rewrite G1, G3. cbn [Py.bind]. rewrite G2, G4.
      reflexivity.
Qed.

Lemma observed_dropna d : observed (dropna d) = observed d.
Proof.
  unfold observed, values, dropna. cbn [s_rows].
  induction (s_rows d) as [|[k [v|]] rs IH]; simpl; auto.
  now rewrite IH.
Qed.

Lemma observed_complete d :
  existsb (fun b => b) (isna d) = false ->
  length (observed d) = length (s_rows d).
Proof.
  intro H. rewrite <- (dropna_complete d H) at 1.
  rewrite observed_dropna. rewrite <- (dropna_complete d H) at 2.
  unfold observed, values, dropna. cbn [s_rows].
  induction (s_rows d) as [|[k [v|]] rs IH]; simpl; auto.
Qed.

End Facts.

(** C6 (amended).  For every arc whose elevation can be told and whose
    index has an azimuth level, degenerate or not, [estimate_mean_wind]
    makes no check of its own: it hands the solver one coefficient row per
    observed value, fails exactly when the solver fails, with the error of
    the solver, and otherwise returns the speed and direction of the
    coefficients the solver returned. *)
Theorem estimate_mean_wind_defers_to_solver
        {F : Type} {num : Numeric F} (d : Series F F) (elevation : option F) :
  elevation_known d elevation ->
  mem "azimuth" (s_index_names d) = true ->
  exists A,
    length A = length (observed d) /\
    forall fit,
      estimate_mean_wind fit d elevation =
      match fit A (observed d) with
      | Ok coef => Ok (wind_of coef)
      | Raise e => Raise e
      end.
Proof.
  intros Hel Haz.
  assert (Ha : exists azs, s_level_values d "azimuth" = Ok azs).
  { unfold s_level_values, level_values.
    destruct (FrameFacts.mem_position _ _ Haz) as (k & ->). eauto. }
  destruct Ha as (azs & Ea).
  pose proof (level_values_length _ _ Ea) as Hlaz.
  unfold elevation_known in Hel. unfold estimate_mean_wind.
  rewrite Ea.
  assert (Hfin : forall c1 c2 : list F,
             length c1 = length (s_rows d) -> length c2 = length (s_rows d) ->
             exists A,
               length A = length (observed d) /\
               forall fit,
                 (let '(comp1, comp2, doppler) :=
                    if existsb (fun b => b) (isna d)
                    then (select (map negb (isna d)) c1,
                          select (map negb (isna d)) c2,
                          loc (map negb (isna d)) d)
                    else (c1, c2, d) in
                  Py.bind (fit (combine comp1 comp2) (observed doppler))
                          (fun coef => let '(U0, V0) := coef in
                                       Ok (sqrt (add (square U0) (square V0)),
                                           add straight (degrees (arctan2 U0 V0)))))
                 = match fit A (observed d) with
                   | Ok coef => Ok (wind_of coef)
                   | Raise e => Raise e
                   end).
  { intros c1 c2 H1 H2.
    destruct (existsb (fun b => b) (isna d)) eqn:Hmiss.
    - exists (combine (select (map negb (isna d)) c1)
                      (select (map negb (isna d)) c2)).
      split.
      + rewrite length_combine, !select_keep_length by assumption.
        apply Nat.min_id.
      + intro fit. rewrite loc_dropna, observed_dropna.
        destruct (fit _ (observed d)) as [[U0 V0]|e]; reflexivity.
    - exists (combine c1 c2). split.
      + rewrite length_combine, H1, H2, Nat.min_id.
        symmetry. now apply observed_complete.
      + intro fit. destruct (fit _ (observed d)) as [[U0 V0]|e]; reflexivity. }
  assert (Hcases : (exists els, s_level_values d "elevation" = Ok els) \/
                   s_level_values d "elevation" = Raise (KeyError "elevation")).
  { unfold s_level_values, level_values.
    destruct (position "elevation" (s_index_names d)); eauto. }
  destruct Hcases as [[els Ee] | Ee]; rewrite Ee in Hel |- *.
  - destruct Hel as (Hne & e0 & He0 & Hall).
    pose proof (level_values_length _ _ Ee) as Hlel.
    destruct (single_value_checks He0 Hall Hne) as [G1 G2].
    rewrite G1. cbn [Py.bind]. rewrite G2.
    cbn [Py.bind map1 map2 per_row].
    apply Hfin;
      rewrite length_map, length_combine, !length_map, Hlel, Hlaz;
      apply Nat.min_id.
  - destruct elevation as [e|]; [|congruence].
    cbn [Py.bind map1 map2 per_row].
    apply Hfin; rewrite !length_map; exact Hlaz.
Qed.

End WindFacts.

(** ** Instances over the real numbers *)

Module RealExamples.
Import RealNum Transform Wind TransformFacts WindFacts.
Local Open Scope R_scope.

(** The second row of [xyz_table]: range 200, azimuth 0 (north), elevation
    30. *)
Lemma calc_xyz_formulas_witness :
  exists x y z,
    calc_xyz xyz_table None None 0 false = Ok (x, y, z) /\
    at_row x 1 = Some (200 * Rtrigo_def.cos ((90 - 0) * PI / 180)
                           * Rtrigo_def.cos (30 * PI / 180)) /\
    at_row y 1 = Some (200 * Rtrigo_def.sin ((90 - 0) * PI / 180)
                           * Rtrigo_def.cos (30 * PI / 180)) /\
    at_row z 1 = Some (200 * Rtrigo_def.sin (30 * PI / 180)).
Proof.
  destruct (proj2 (calc_xyz_formulas xyz_table None None 0 false))
    as (x & y & z & E); [right; split; reflexivity|].
  exists x, y, z. split; [exact E|].
  exact (proj1 (calc_xyz_formulas xyz_table None None 0 false)
               x y z E 1%nat 200 0 30 eq_refl eq_refl eq_refl).
Defined.

Lemma real_eqb_refl (x : R) : eqb x x = true.
Proof. cbn. destruct (Req_dec_T x x); congruence. Qed.

(** The arc of three returns at elevation 5, one of them missing. *)
Lemma estimate_mean_wind_dropna_witness :
  estimate_mean_wind lstsq arc3 None
  = estimate_mean_wind lstsq (dropna arc3) None.
Proof.
  apply estimate_mean_wind_dropna.
  - intros el H. injection H as <-. exists 5. split.
    + apply real_eqb_refl.
    + repeat constructor.
  - discriminate.
Defined.

(** The arc of one return has an elevation and an azimuth level. *)
Lemma estimate_mean_wind_defers_to_solver_witness :
  exists A,
    length A = 1%nat /\
    forall fit,
      estimate_mean_wind fit one_return None =
      match fit A [1] with
      | Ok coef => Ok (wind_of coef)
      | Raise e => Raise e
      end.
Proof.
  apply (estimate_mean_wind_defers_to_solver one_return None).
  - split; [discriminate|]. exists 0. split.
    + apply real_eqb_refl.
    + repeat constructor.
  - reflexivity.
Defined.

Lemma atan2_north : Ratan2 0 1 = 0.
Proof.
  unfold Ratan2. destruct (Rlt_dec 0 1) as [_|H]; [|exfalso; lra].
  replace (0 / 1) with 0 by field. apply atan_0.
Qed.

(** C6 (counterexample).  An arc of a single return, at azimuth 0 with
    radial velocity 1, is degenerate; the estimate is not a failure: the
    solver returns its solution of least norm, and the function returns
    the speed 1 and the direction 180. *)
Lemma estimate_mean_wind_one_return :
  degenerate one_return /\
  estimate_mean_wind lstsq one_return None = Ok (1, 180).
Proof.
  split; [left; simpl; lia|].
  unfold estimate_mean_wind. cbn.
  destruct (Req_dec_T 0 0) as [_|H]; [|congruence]. cbn.
  replace (0 * PI / 180) with 0 by (unfold Rdiv; ring).
  rewrite cos_0, sin_0.
  unfold lstsq, dot. cbn.
  destruct (Req_dec_T _ 0) as [_|H]; [|exfalso; apply H; ring].
  destruct (Req_dec_T _ 0) as [H|_]; [exfalso; lra|].
  cbn.
  replace ((1 * 0 * 1 + 0) / (1 * 0 * (1 * 0) + 0 + (1 * 1 * (1 * 1) + 0)))
    with 0 by field.
  replace ((1 * 1 * 1 + 0) / (1 * 0 * (1 * 0) + 0 + (1 * 1 * (1 * 1) + 0)))
    with 1 by field.
  rewrite atan2_north.
  replace (0 * (0 * 1) + 1 * (1 * 1)) with 1 by ring.
  rewrite sqrt_1.
  replace (180 + 0 * 180 / PI) with 180 by (field; apply PI_neq0).
  reflexivity.
Qed.

End RealExamples.

(** ** The delimited-text loader *)

Module GalionFacts.
Import Galion QSeqFacts FrameFacts.
Local Open Scope Q_scope.

Lemma getitem_in_bounds {A} (l : list A) (i : Z) :
  (- Z.of_nat (length l) <= i < Z.of_nat (length l))%Z ->
  exists x, getitem l i = Ok x.
Proof.
  intro H. unfold getitem. cbv zeta.
  set (n := Z.of_nat (length l)) in *.
  set (j := (if (i <? 0)%Z then (i + n)%Z else i)).
  assert (Hj : (0 <= j < n)%Z)
    by (subst j; destruct (Z.ltb_spec i 0); lia).
  destruct (Z.ltb_spec j 0) as [?|_]; [lia|].
  destruct (Z.leb_spec n j) as [?|_]; [lia|]. cbn [orb].
  destruct (nth_error l (Z.to_nat j)) as [x|] eqn:E; [eauto|].
  apply nth_error_None in E. lia.
Qed.

Lemma set_missing_map (h : list Q * list (option Q) -> bool) (t : Table) :
  set_missing (map h (rows t)) t
  = with_rows t (map (fun row => if h row then blank row else row) (rows t)).
Proof.
  unfold set_missing. f_equal.
  induction (rows t) as [|row l IH]; simpl; [reflexivity|].
  now rewrite IH.
Qed.

Lemma with_rows_same (t : Table) : with_rows t (rows t) = t.
Proof. now destruct t. Qed.

Lemma blank_intensity (t : Table) row : intensity_of t (blank row) = None.
Proof.
  unfold intensity_of, blank. cbn [snd].
  destruct (position "intensity" (columns t)) as [k|]; [|reflexivity].
  exact (map_nth (fun _ : option Q => @None Q) (snd row) None k).
Qed.

Lemma intensity_pass_rows test bound (t : Table) :
  mem "intensity" (columns t) = true ->
  intensity_pass test bound t
  = Ok (with_rows t
          (map (fun row =>
                  if match bound with
                     | Some b => test b (intensity_of t row)
                     | None => false
                     end
                  then blank row else row) (rows t))).
Proof.
  intro Hm. unfold intensity_pass. destruct bound as [b|].
  - unfold column, intensity_of.
    destruct (mem_position _ _ Hm) as (k & ->). cbn [Py.bind].
    rewrite map_map. now rewrite set_missing_map.
  - rewrite map_id. now rewrite with_rows_same.
Qed.

(** What [_filter_by_intensity] leaves of a table with an intensity
    column. *)
Lemma filter_by_intensity_rows (t : Table) mn mx :
  mem "intensity" (columns t) = true ->
  filter_by_intensity t mn mx
  = Ok (with_rows t
          (map (fun row => if outside mn mx (intensity_of t row)
                           then blank row else row) (rows t))).
Proof.
  intro Hm. unfold filter_by_intensity.
  rewrite (intensity_pass_rows below mn t Hm). cbn [Py.bind].
  rewrite intensity_pass_rows by exact Hm.
  unfold with_rows. cbn [rows index_names columns]. rewrite map_map.
  do 2 f_equal. apply map_ext. intro row.
  change (intensity_of {| index_names := index_names t;
                          columns := columns t; rows := _ |})
    with (intensity_of t).
  unfold outside.
  destruct (match mn with Some b => below b (intensity_of t row) | None => false end).
  - rewrite blank_intensity. cbn [orb].
    destruct mx; cbn [above]; reflexivity.
  - reflexivity.
Qed.

Lemma outside_out_of_window mn mx v :
  outside mn mx v = true <-> out_of_window mn mx v.
Proof.
  unfold outside, out_of_window, below, above. split.
  - intro H. apply orb_true_iff in H. destruct H as [H|H].
    + destruct mn as [b|]; [|discriminate]. destruct v as [x|]; [|discriminate].
      apply Qlt_bool_iff in H. exists x. split; [reflexivity|]. left. eauto.
    + destruct mx as [b|]; [|discriminate]. destruct v as [x|]; [|discriminate].
      apply Qlt_bool_iff in H. exists x. split; [reflexivity|]. right. eauto.
  - intros (x & -> & [(b & -> & H)|(b & -> & H)]); apply orb_true_iff.
    + left. now apply Qlt_bool_iff.
    + right. now apply Qlt_bool_iff.
Qed.

(** C9.  For a table with an intensity column and for bounds given or
    not, the intensity filter returns a table with the index names, the
    columns and the keys of the table, row by row; a row whose intensity
    is less than the lower bound or greater than the upper bound, in the
    order of the numbers, has every field missing, as many fields as
    before, and every other row, a row of missing intensity included, is
    the row it was. *)
Theorem filter_by_intensity_frame (t : Table) mn mx :
  mem "intensity" (columns t) = true ->
  exists t',
    filter_by_intensity t mn mx = Ok t' /\
    index_names t' = index_names t /\
    columns t' = columns t /\
    keys t' = keys t /\
    forall i row,
      nth_error (rows t) i = Some row ->
      exists row',
        nth_error (rows t') i = Some row' /\
        fst row' = fst row /\
        length (snd row') = length (snd row) /\
        (out_of_window mn mx (intensity_of t row) ->
         Forall (fun v => v = None) (snd row')) /\
        (~ out_of_window mn mx (intensity_of t row) -> row' = row).
Proof.
  intro Hm. eexists. split; [now apply filter_by_intensity_rows|].
  split; [reflexivity|]. split; [reflexivity|]. split.
  - unfold keys, with_rows. cbn [rows]. rewrite map_map.
    apply map_ext. intro row. now destruct (outside _ _ _).
  - intros i row Hrow. cbn [with_rows rows].
    rewrite nth_error_map, Hrow. cbn [option_map].
    eexists. split; [reflexivity|].
    pose proof (outside_out_of_window mn mx (intensity_of t row)) as Hw.
    destruct (outside mn mx (intensity_of t row)).
    + split; [reflexivity|]. split; [|split].
      * unfold blank. cbn [snd]. apply length_map.
      * intros _. unfold blank. cbn [snd]. apply Forall_forall.
        intros v Hv. apply in_map_iff in Hv. now destruct Hv as (_ & <- & _).
      * intro Hn. exfalso. apply Hn, Hw. reflexivity.
    + split; [reflexivity|]. split; [reflexivity|]. split.
      * intro Ho. apply Hw in Ho. discriminate.
      * reflexivity.
Qed.

Lemma load_columns raw opts :
  columns (_load raw opts) = ("range_gate" :: field_names raw)%string.
Proof. reflexivity. Qed.

Lemma insert_row_length row rs :
  length (insert_row row rs) = S (length rs).
Proof.
  induction rs as [|r rs IH]; simpl; [reflexivity|].
  destruct (key_le (fst row) (fst r)); simpl; now rewrite ?IH.
Qed.

Lemma load_length raw opts :
  length (rows (_load raw opts)) = length (raw_rows raw).
Proof.
  unfold _load, sort_index. cbn [with_rows rows].
  induction (raw_rows raw) as [|r rs IH]; simpl; [reflexivity|].
  now rewrite insert_row_length, IH.
Qed.

Lemma filter_by_range_returns (s : Scan) raw opts window :
  df s = _load raw opts ->
  match window with
  | (None, None) => True
  | (Some (g0, g1), _) =>
      gate_in_bounds (length (raw_rows raw)) g0 /\
      gate_in_bounds (length (raw_rows raw)) g1
  | (None, Some _) => True
  end ->
  match window with
  | (None, None) =>
      _filter_by_range s None None
      = Raise (AssertionError (Text "Specify range_gates or ranges"))
  | (rg, rs) =>
      exists s', _filter_by_range s rg rs = Ok s' /\
                 columns (df s') = columns (df s)
  end.
Proof.
  intros Hdf H.
  assert (Hl : get_level_values 0 (df s) "range"
               = Ok (level_column 0 (df s) 0))
    by (unfold get_level_values, level_values; now rewrite Hdf).
  assert (Hn : length (level_column 0 (df s) 0) = length (raw_rows raw))
    by (unfold level_column, keys; rewrite !length_map, Hdf;
        apply load_length).
  destruct window as [[[g0 g1]|] [[lo hi]|]]; unfold _filter_by_range;
    rewrite ?Hl; cbn [Py.bind]; try reflexivity.
  - destruct H as [H0 H1].
    destruct g0 as [g0|], g1 as [g1|]; cbn [gate_in_bounds] in H0, H1.
    + rewrite <- Hn in H0, H1.
      destruct (getitem_in_bounds _ H0) as (x0 & ->).
      destruct (getitem_in_bounds _ H1) as (x1 & ->).
      cbn [Py.bind]. eauto.
    + rewrite <- Hn in H0.
      destruct (getitem_in_bounds _ H0) as (x0 & ->).
      cbn [Py.bind]. eauto.
    + rewrite <- Hn in H1.
      destruct (getitem_in_bounds _ H1) as (x1 & ->).
      cbn [Py.bind]. eauto.
    + cbn [Py.bind]. eexists. split; [reflexivity|]. reflexivity.
  - destruct H as [H0 H1].
    destruct g0 as [g0|], g1 as [g1|]; cbn [gate_in_bounds] in H0, H1.
    + rewrite <- Hn in H0, H1.
      destruct (getitem_in_bounds _ H0) as (x0 & ->).
      destruct (getitem_in_bounds _ H1) as (x1 & ->).
      cbn [Py.bind]. eauto.
    + rewrite <- Hn in H0.
      destruct (getitem_in_bounds _ H0) as (x0 & ->).
      cbn [Py.bind]. eauto.
    + rewrite <- Hn in H1.
      destruct (getitem_in_bounds _ H1) as (x1 & ->).
      cbn [Py.bind]. eauto.
    + cbn [Py.bind]. eexists. split; [reflexivity|]. reflexivity.
  - destruct lo, hi; eexists; split; reflexivity.
Qed.

(** C8 (amended).  On a file from which the container is built and which
    has an intensity column: with both the gate-index window and the
    absolute-range window absent the constructor fails with the assertion
    'Specify range_gates or ranges', whatever the intensity bounds; with
    one of the two windows given (gate indices, where given, being
    positions of the rows) it returns a container, for intensity bounds
    given or absent, each independently. *)
Theorem init_needs_a_range_window raw opts range_gates ranges mn mx verb out s :
  Lidar.__init__ (_load raw opts) verb = (out, Ok s) ->
  mem "intensity" (field_names raw) = true ->
  match range_gates, ranges with
  | None, None =>
      outcome (Galion.__init__ raw opts None None (mn, mx) verb)
      = Raise (AssertionError (Text "Specify range_gates or ranges"))
  | Some (g0, g1), _ =>
      gate_in_bounds (length (raw_rows raw)) g0 ->
      gate_in_bounds (length (raw_rows raw)) g1 ->
      exists s',
        outcome (Galion.__init__ raw opts range_gates ranges (mn, mx) verb)
        = Ok s'
  | None, Some _ =>
      exists s',
        outcome (Galion.__init__ raw opts range_gates ranges (mn, mx) verb)
        = Ok s'
  end.
Proof.
  intros Hinit Hint.
  destruct (LidarFacts.init_inv _ _ Hinit)
    as (r0 & r1 & rest & _ & Hdf & _).
  assert (Hcol : mem "intensity" (columns (df s)) = true).
  { rewrite Hdf, load_columns. unfold mem in *. cbn [existsb].
    rewrite Hint. apply orb_true_r. }
  assert (Hrun : forall rg rs,
             outcome (Galion.__init__ raw opts rg rs (mn, mx) verb)
             = Py.bind (_filter_by_range s rg rs)
                       (fun s' => _filter_by_intensity s' mn mx)).
  { intros rg rs. unfold Galion.__init__.
    rewrite LidarFacts.outcome_bind, Hinit.
    change (outcome (out, Ok s)) with (Ok s). cbv beta iota.
    rewrite LidarFacts.outcome_bind, LidarFacts.outcome_lift.
    destruct (_filter_by_range s rg rs); reflexivity. }
  assert (Hfin : forall rg rs s',
             _filter_by_range s rg rs = Ok s' ->
             columns (df s') = columns (df s) ->
             exists s'',
               outcome (Galion.__init__ raw opts rg rs (mn, mx) verb) = Ok s'').
  { intros rg rs s' Hr Hc. rewrite Hrun, Hr. cbn [Py.bind].
    unfold _filter_by_intensity.
    rewrite filter_by_intensity_rows by (rewrite Hc; exact Hcol).
    cbn [Py.bind]. eauto. }
  destruct range_gates as [[g0 g1]|], ranges as [w|].
  - intros H0 H1.
    destruct (@filter_by_range_returns s raw opts (Some (g0, g1), Some w) Hdf
                                      (conj H0 H1)) as (s' & Hr & Hc).
    eapply Hfin; eauto.
  - intros H0 H1.
    destruct (@filter_by_range_returns s raw opts (Some (g0, g1), None) Hdf
                                      (conj H0 H1)) as (s' & Hr & Hc).
    eapply Hfin; eauto.
  - destruct (@filter_by_range_returns s raw opts (None, Some w) Hdf I)
      as (s' & Hr & Hc).
    eapply Hfin; eauto.
  - rewrite Hrun.
    now rewrite (@filter_by_range_returns s raw opts (None, None) Hdf I).
Qed.

End GalionFacts.

(** ** Instances on the file of four returns *)

Module GalionExamples.
Import Galion GalionFacts.
Local Open Scope Q_scope.

(** Intensities 1/2, 9, 3/2 and one missing, filtered to the window
    [1, 2]. *)
Lemma filter_by_intensity_frame_witness :
  exists t',
    filter_by_intensity (_load raw4 default_opts) (Some 1) (Some 2) = Ok t' /\
    keys t' = keys (_load raw4 default_opts) /\
    (exists row', nth_error (rows t') 0 = Some row' /\
                  Forall (fun v => v = None) (snd row')) /\
    (exists row', nth_error (rows t') 1 = Some row' /\
                  Forall (fun v => v = None) (snd row')) /\
    nth_error (rows t') 2 = nth_error (rows (_load raw4 default_opts)) 2 /\
    nth_error (rows t') 3 = nth_error (rows (_load raw4 default_opts)) 3.
Proof.
  destruct (filter_by_intensity_frame
              (_load raw4 default_opts) (Some 1) (Some 2) eq_refl)
    as (t' & E & _ & _ & K & H).
  exists t'. split; [exact E|]. split; [exact K|].
  split; [|split; [|split]].
  - destruct (H 0%nat _ eq_refl) as (row' & E' & _ & _ & Hb & _).
    exists row'. split; [exact E'|]. apply Hb.
    exists (1 # 2). split; [reflexivity|]. left. exists 1.
    split; reflexivity.
  - destruct (H 1%nat _ eq_refl) as (row' & E' & _ & _ & Hb & _).
    exists row'. split; [exact E'|]. apply Hb.
    exists 9. split; [reflexivity|]. right. exists 2.
    split; reflexivity.
  - destruct (H 2%nat _ eq_refl) as (row' & E' & _ & _ & _ & Hk).
    rewrite E'. rewrite Hk; [reflexivity|].
    intros (x & Hx & [(b & Hb & Hlt)|(b & Hb & Hlt)]);
      vm_compute in Hx; injection Hx as <-; injection Hb as <-;
      vm_compute in Hlt; discriminate.
  - destruct (H 3%nat _ eq_refl) as (row' & E' & _ & _ & _ & Hk).
    rewrite E'. rewrite Hk; [reflexivity|].
    intros (x & Hx & _). vm_compute in Hx. discriminate.
Defined.

(** With an absolute-range window of no bound and a lower intensity bound
    only, the loader returns a container. *)
Lemma init_needs_a_range_window_witness :
  exists s',
    outcome (Galion.__init__ raw4 default_opts None (Some (None, None))
                             (Some 1, None) true) = Ok s'.
Proof.
  destruct (Lidar.__init__ (_load raw4 default_opts) true)
    as [out [s|e]] eqn:E; [|vm_compute in E; discriminate].
  exact (init_needs_a_range_window
           None (Some (None, None)) (Some 1) None E eq_refl).
Defined.

(** C8 (counterexample).  With every filter left out the constructor does
    not return: it prints the scan type and fails with the assertion of
    [_filter_by_range]. *)
Lemma init_without_filters_fails :
  Galion.__init__ raw4 default_opts None None (None, None) true
  = ([Loaded "3D volumetric scan loaded"],
     Raise (AssertionError (Text "Specify range_gates or ranges"))).
Proof. vm_compute. reflexivity. Qed.

End GalionExamples.

(** ** The scan container over machine numbers *)

Module MachineFacts.
Import Machine Stored Container StoredProps FrameFacts.
Local Unset Implicit Arguments.

Section Facts.
Context {N : Type} {num : Number N} {V : Type}.
Implicit Types (t : Table N V) (s : @LidarData N V) (q : N).

Lemma returned_andthen {A B} (c : @run N A) (k : A -> @run N B) :
  returned (andthen c k)
  = match returned c with
    | Ok a => returned (k a)
    | Raise e => Raise e
    end.
Proof.
  destruct c as [o [a|e]]; unfold returned, andthen; cbn [snd];
    [destruct (k a)|]; reflexivity.
Qed.

Lemma andthen_ok {A B} (a : A) (k : A -> @run N B) :
  andthen (lift (Ok a)) k = k a.
Proof. unfold andthen, lift. now destruct (k a). Qed.

Lemma returned_lift {A} (c : result A) : returned (@lift N A c) = c.
Proof. reflexivity. Qed.

Lemma returned_print_then {A} verb (l : @printed N) (c : @run N A) :
  returned (andthen (print verb l) (fun _ => c)) = returned c.
Proof. unfold andthen, print, returned. destruct c. reflexivity. Qed.

(** *** Lists *)



Lemma index_of_first q (l : list N) idx :
  index_of q l = Some idx ->
  exists c,
    nth_error l idx = Some c /\ same c q = true /\
    forall j c', (j < idx)%nat -> nth_error l j = Some c' -> same c' q = false.
Proof.
  revert idx. induction l as [|y l IH]; intros idx H; [discriminate|].
  cbn [index_of] in H. destruct (same y q) eqn:E.
  - injection H as <-. exists y. repeat split; [assumption|].
    intros j c' Hj. lia.
  - destruct (index_of q l) as [i|]; [|discriminate].
    injection H as <-. destruct (IH i eq_refl) as (c & Hn & Hc & Hfirst).
    exists c. repeat split; [assumption|assumption|].
    intros [|j] c' Hj Hc'.
    + cbn in Hc'. injection Hc' as <-. exact E.
    + apply (Hfirst j); [lia|exact Hc'].
Qed.

Lemma index_of_finds q (l : list N) i c :
  nth_error l i = Some c -> same c q = true ->
  exists idx, index_of q l = Some idx.
Proof.
  revert i. induction l as [|y l IH]; intros i Hn Hc; [now destruct i|].
  cbn [index_of]. destruct (same y q) eqn:E; [eauto|].
  destruct i as [|i]; cbn in Hn.
  - injection Hn as ->. congruence.
  - destruct (IH i Hn Hc) as (idx & ->). cbn. eauto.
Qed.

Lemma contains_index_of q (l : list N) :
  contains q l = true -> exists idx, index_of q l = Some idx.
Proof.
  unfold contains. intro H. apply existsb_exists in H.
  destruct H as (c & Hin & Hc). apply In_nth_error in Hin.
  destruct Hin as (i & Hi). exact (index_of_finds q l i c Hi Hc).
Qed.

Lemma contains_false q (l : list N) :
  contains q l = false -> forall c, In c l -> same c q = false.
Proof.
  unfold contains. intros H c Hc.
  destruct (same c q) eqn:E; [|reflexivity].
  assert (existsb (fun y => same y q) l = true)
    by (apply existsb_exists; eauto).
  congruence.
Qed.

(** A value of a level is found at its own position. *)
Lemma index_of_self (l : list N) idx c :
  distinct l -> nth_error l idx = Some c -> index_of c l = Some idx.
Proof.
  intros Hd Hn.
  assert (Hc : same c c = true) by (apply (Hd idx idx c c Hn Hn); reflexivity).
  destruct (index_of_finds c l idx c Hn Hc) as (j & Hj).
  destruct (index_of_first c l j Hj) as (c' & Hn' & Hc' & _).
  apply (Hd j idx c' c Hn' Hn) in Hc'. now subst j.
Qed.

Lemma filter_restricted {A} (f : A -> bool) (P : A -> Prop) (l : list A) :
  (forall x, f x = true <-> P x) -> restricted P l (filter f l).
Proof.
  intro H. induction l as [|x l IH]; cbn [filter]; [constructor|].
  destruct (f x) eqn:E.
  - apply restricted_keep; [now apply H|exact IH].
  - apply restricted_skip; [|exact IH].
    intro Hp. apply H in Hp. congruence.
Qed.

Lemma has_code_coded k i (row : list nat * list V) :
  has_code k i row = true <-> coded k i row.
Proof.
  unfold has_code, coded. destruct (nth_error (fst row) k) as [c|].
  - rewrite Nat.eqb_eq. split; congruence.
  - split; discriminate.
Qed.


Lemma filter_none {A} (f : A -> bool) (l : list A) :
  filter f l = [] -> forall x, In x l -> f x = false.
Proof.
  intros H x Hx. destruct (f x) eqn:E; [|reflexivity].
  assert (Hin : In x (filter f l)) by (apply filter_In; auto).
  rewrite H in Hin. destruct Hin.
Qed.

Lemma remove_at_without {A} k (l : list A) x :
  nth_error l k = Some x -> without k l (remove_at k l).
Proof.
  revert k. induction l as [|y l IH]; intros k H; [now destruct k|].
  destruct k as [|k]; cbn in H.
  - injection H as ->. exists [], x, l. repeat split.
  - destruct (IH k H) as (a & z & b & E & Hlen & E').
    exists (y :: a), z, b. cbn [remove_at]. rewrite E' at 1.
    repeat split; [now rewrite E at 1|cbn; now rewrite Hlen].
Qed.

(** *** Rows of a label *)

Lemma rows_of_cases k label name t lname values code :
  nth_error (levels t) k = Some (lname, values) ->
  index_of label values = Some code ->
  (exists rs, rows_of k label name t = Ok rs /\ rs <> [] /\
              restricted (coded k code) (rows t) rs)
  \/
  ((forall row, In row (rows t) -> ~ coded k code row) /\
   rows_of k label name t = Raise (KeyError name)).
Proof.
  intros Hl Hi. unfold rows_of. rewrite Hl. cbn [snd]. rewrite Hi.
  destruct (filter (has_code k code) (rows t)) as [|row rs] eqn:E.
  - right. split; [|reflexivity]. intros row Hrow Hc.
    apply has_code_coded in Hc.
    pose proof (filter_none _ _ E row Hrow). congruence.
  - left. eexists. split; [reflexivity|]. split; [discriminate|].
    rewrite <- E. apply filter_restricted. intro x. apply has_code_coded.
Qed.



Lemma xs_cross_section t name k label lname values code :
  occurrences name (index_names t) = 1%nat ->
  position name (index_names t) = Some k ->
  nth_error (levels t) k = Some (lname, values) ->
  index_of label values = Some code ->
  cross_section_of t k code (xs label name t).
Proof.
  intros Ho Hp Hl Hi. unfold xs, cross_section_of. rewrite Ho, Hp.
  cbn [Nat.ltb Nat.leb].
  destruct (rows_of_cases k label name t lname values code Hl Hi) as
    [(rs & -> & Hne & Hr)|(Hno & ->)].
  - left. cbn [Py.bind]. eexists. exists rs. split; [reflexivity|].
    cbn [levels columns rows]. split; [exact (remove_at_without _ _ _ Hl)|].
    split; [reflexivity|]. split; [exact Hne|]. split; [exact Hr|].
    assert (Hall : Forall (coded k code) rs).
    { clear -Hr. induction Hr; auto. }
    clear -Hall. induction Hall as [|row rs Hrow _ IH]; cbn [map];
      constructor; [|exact IH].
    cbn [fst snd]. split; [|reflexivity].
    exact (remove_at_without _ _ _ Hrow).
  - right. split; [exact Hno|]. cbn [Py.bind]. eauto.
Qed.

(** *** Construction *)



(** *** [get_range] *)



(** *** The accessors *)

(** C7.  The accessors read the levels of the index by position, whatever
    their names.  For a key of range, azimuth and elevation, in this
    order, [r], [az] and [el] return the values of the range, the azimuth
    and the elevation level.  For an RHI scan, keyed by range and
    elevation, [az] returns the values of the elevation level, among them
    the elevation of every row, and [el] raises an [IndexError]; for a PPI
    scan [el] raises an [IndexError]; for a vertical scan, keyed by
    azimuth and elevation, [r] returns the azimuths and [az] the
    elevations. *)
Theorem accessors_read_positions s :
  (index_names (df s) = ["range"; "azimuth"; "elevation"]%string ->
   exists rs azs els,
     level_named (df s) "range" = Some rs /\
     level_named (df s) "azimuth" = Some azs /\
     level_named (df s) "elevation" = Some els /\
     r s = Ok rs /\ az s = Ok azs /\ el s = Ok els) /\
  (index_names (df s) = ["range"; "elevation"]%string ->
   exists rs els,
     level_named (df s) "range" = Some rs /\
     level_named (df s) "elevation" = Some els /\
     level_named (df s) "azimuth" = None /\
     r s = Ok rs /\ az s = Ok els /\
     (exists m, el s = Raise (IndexError m)) /\
     (forall row e, In row (rows (df s)) ->
        value_of (df s) "elevation" row = Some e -> In e els)) /\
  (index_names (df s) = ["range"; "azimuth"]%string ->
   exists rs azs,
     level_named (df s) "range" = Some rs /\
     level_named (df s) "azimuth" = Some azs /\
     r s = Ok rs /\ az s = Ok azs /\
     (exists m, el s = Raise (IndexError m))) /\
  (index_names (df s) = ["azimuth"; "elevation"]%string ->
   exists azs els,
     level_named (df s) "azimuth" = Some azs /\
     level_named (df s) "elevation" = Some els /\
     level_named (df s) "range" = None /\
     r s = Ok azs /\ az s = Ok els /\
     (exists m, el s = Raise (IndexError m))).
Proof.
  unfold r, az, el, level, value_of, level_named, index_names.
  repeat split; intro H;
    destruct (levels (df s)) as [|[n1 l1] [|[n2 l2] [|[n3 l3] [|]]]];
    try discriminate; cbn [map fst] in H;
    inversion H; subst; clear H.
  - exists l1, l2, l3. cbn. tauto.
  - exists l1, l2. cbn [find fst snd String.eqb option_map nth_error].
    cbn. repeat split; eauto.
    intros row e _. cbn [position].
    destruct (fst row) as [|c0 [|code tl]]; try discriminate.
    apply nth_error_In.
  - exists l1, l2. cbn. repeat split; eauto.
  - exists l1, l2. cbn. repeat split; eauto.
Qed.

End Facts.
End MachineFacts.

(** ** Instances in double precision *)

Module MachineExamples.
Import Machine Stored Container StoredProps MachineFacts Doubles.
Import PrimFloat.
Local Unset Implicit Arguments.

(** The values of a short level differ from one another. *)
Ltac distinct_values :=
  let i := fresh "i" in
  let j := fresh "j" in
  let Hi := fresh "Hi" in
  let Hj := fresh "Hj" in
  intros i j ? ? Hi Hj;
  repeat (destruct i as [|i]; cbn [nth_error] in Hi; try discriminate Hi);
  repeat (destruct j as [|j]; cbn [nth_error] in Hj; try discriminate Hj);
  injection Hi as <-; injection Hj as <-;
  vm_compute; split; intro;
  first [reflexivity | discriminate | lia].



(** Gates at 10, 20 and 50, in doubles without rounding: the range 30 is
    within the bounds 5 and 55 and in no gate, and the assertion fails. *)
Lemma get_range_gap_in_doubles :
  exists s,
    __init__ gap false = ([], Ok s) /\
    less 30%float (rmin s) = false /\
    at_least 30%float (rmax s) = false /\
    returned (get_range s 30%float)
    = Raise (AssertionError (Text "{r} is not between {r0} and {r1}")).
Proof.
  eexists. split; [vm_compute; reflexivity|].
  repeat split; vm_compute; reflexivity.
Qed.

(** A slice keeps the levels of its table: in the slice of the gate at 45
    the first level still holds 15, and [get_range(15)] is a
    [KeyError]. *)
Lemma get_range_of_a_slice :
  exists s,
    __init__ one_of_three false = ([], Ok s) /\
    r s = Ok [15; 45; 75]%float /\
    returned (get_range s 15%float) = Raise (KeyError "range").
Proof.
  eexists. split; [vm_compute; reflexivity|].
  split; vm_compute; reflexivity.
Qed.

(** An RHI scan: [az] returns its elevations, [el] raises. *)
Lemma accessors_read_positions_witness :
  exists s,
    __init__ rhi false = ([], Ok s) /\
    az s = Ok [0; 10]%float /\
    exists m, el s = Raise (IndexError m).
Proof.
  destruct (__init__ rhi false) as [out [s|e]] eqn:E;
    [|vm_compute in E; discriminate].
  pose proof E as E'. vm_compute in E'. injection E' as <- Hs.
  exists s. split; [reflexivity|].
  destruct (accessors_read_positions s) as (_ & H & _).
  destruct H as (rs & els & _ & He & _ & _ & Haz & Hel & _);
    [rewrite <- Hs; reflexivity|].
  rewrite <- Hs in He. vm_compute in He. injection He as <-.
  split; assumption.
Defined.

End MachineExamples.

(** * Further properties *)

Unset Implicit Arguments.

(** ** The slicers by azimuth and by elevation, over machine numbers *)

Module MachineSlicerFacts.
Import Machine Stored Container StoredProps FrameFacts MachineFacts.

Section Facts.
Context {N : Type} {num : Number N} {V : Type}.
Implicit Types (t : Table N V) (s : @LidarData N V) (q : N).

(** *** The nearest value of a level *)

Lemma argmin_from_spec (whole : list N) :
  ranked whole ->
  forall l pre i best least,
    whole = (pre ++ l)%list -> i = length pre ->
    nth_error whole best = Some least -> (best < i)%nat ->
    (forall j d, (j < i)%nat -> nth_error whole j = Some d ->
       less d least = false) ->
    (forall j d, (j < best)%nat -> nth_error whole j = Some d ->
       less least d = true) ->
    exists m,
      nth_error whole (argmin_from l i best least) = Some m /\
      (forall j d, nth_error whole j = Some d -> less d m = false) /\
      (forall j d, (j < argmin_from l i best least)%nat ->
         nth_error whole j = Some d -> less m d = true).
Proof.
  intros (Hirr & Htrans & Hweak).
  induction l as [|x l IH]; intros pre i best least Hw Hi Hb Hlt H1 H2.
  - cbn [argmin_from]. exists least. split; [exact Hb|]. split; [|exact H2].
    intros j d Hd. apply (H1 j d); [|exact Hd].
    rewrite app_nil_r in Hw. subst whole i.
    apply nth_error_Some. congruence.
  - assert (Hx : nth_error whole i = Some x).
    { subst whole i. rewrite nth_error_app2 by lia.
      now rewrite Nat.sub_diag. }
    assert (Hw' : whole = ((pre ++ [x]) ++ l)%list)
      by (rewrite <- app_assoc; exact Hw).
    assert (Hi' : S i = length (pre ++ [x]))
      by (rewrite length_app; cbn; lia).
    pose proof (nth_error_In _ _ Hx) as Hinx.
    pose proof (nth_error_In _ _ Hb) as Hinl.
    cbn [argmin_from]. destruct (less x least) eqn:E.
    + apply (IH (pre ++ [x])%list (S i) i x Hw' Hi' Hx); [lia| |].
      * intros j d Hj Hd. pose proof (nth_error_In _ _ Hd) as Hind.
        destruct (Nat.eq_dec j i) as [->|Hne].
        -- rewrite Hx in Hd. injection Hd as <-. now apply Hirr.
        -- destruct (less d x) eqn:Ed; [|reflexivity].
           pose proof (Htrans d x least Hind Hinx Hinl Ed E) as Ht.
           assert (Hj' : (j < i)%nat) by lia.
           pose proof (H1 j d Hj' Hd). congruence.
      * intros j d Hj Hd. pose proof (nth_error_In _ _ Hd) as Hind.
        destruct (Hweak x least d Hinx Hinl Hind E) as [H|H]; [exact H|].
        pose proof (H1 j d Hj Hd). congruence.
    + apply (IH (pre ++ [x])%list (S i) best least Hw' Hi' Hb); [lia| |exact H2].
      intros j d Hj Hd.
      destruct (Nat.eq_dec j i) as [->|Hne].
      * rewrite Hx in Hd. now injection Hd as <-.
      * apply (H1 j d); [lia|exact Hd].
Qed.

Lemma argmin_from_bound (l : list N) i best least :
  (best < i)%nat -> (argmin_from l i best least < i + length l)%nat.
Proof.
  revert i best least. induction l as [|x l IH]; intros i best least H;
    cbn [argmin_from length]; [lia|].
  destruct (less x least).
  - pose proof (IH (S i) i x). lia.
  - pose proof (IH (S i) best least). lia.
Qed.

(** Off an empty level the nearest value is found. *)
Lemma nearest_returns q (a0 : N) rest :
  exists a, nearest q (a0 :: rest) = Ok a.
Proof.
  unfold nearest. cbn [map argmin Py.bind]. rewrite getitem_nat.
  set (idx := argmin_from _ 1 0 _).
  assert (Hlt : (idx < length (a0 :: rest))%nat).
  { subst idx.
    match goal with
    | |- (argmin_from ?l 1 0 ?x < _)%nat =>
        pose proof (argmin_from_bound l 1 0 x)
    end.
    rewrite length_map in H. cbn [length]. lia. }
  apply nth_error_Some in Hlt.
  destruct (nth_error (a0 :: rest) idx) as [a|]; [eauto|congruence].
Qed.

Lemma nearest_spec q (a0 : N) rest :
  ranked (map (distance q) (a0 :: rest)) ->
  exists idx a,
    nearest q (a0 :: rest) = Ok a /\
    nth_error (a0 :: rest) idx = Some a /\
    (forall j b, nth_error (a0 :: rest) j = Some b ->
       less (distance q b) (distance q a) = false) /\
    (forall j b, (j < idx)%nat -> nth_error (a0 :: rest) j = Some b ->
       less (distance q a) (distance q b) = true).
Proof.
  intro Hr. unfold nearest.
  change (fun a => absolute (minus q a)) with (distance q).
  set (ds := map (distance q) (a0 :: rest)) in *.
  assert (Hirr : less (distance q a0) (distance q a0) = false).
  { destruct Hr as (Hirr & _). apply Hirr. subst ds. now left. }
  destruct (argmin_from_spec ds Hr (map (distance q) rest) [distance q a0]
              1 0 (distance q a0) eq_refl eq_refl eq_refl)
    as (m & Hm & Hleast & Hfirst); [lia| | |].
  - intros [|j] d Hj Hd; [|lia]. cbn in Hd. now injection Hd as <-.
  - intros j d Hj. lia.
  - subst ds. cbn [map argmin Py.bind].
    set (idx := argmin_from _ 1 0 _) in *.
    change (distance q a0 :: map (distance q) rest)
      with (map (distance q) (a0 :: rest)) in Hm.
    rewrite nth_error_map in Hm.
    destruct (nth_error (a0 :: rest) idx) as [a|] eqn:Ea; [|discriminate].
    cbn [option_map] in Hm. injection Hm as <-.
    exists idx, a. rewrite getitem_nat, Ea.
    split; [reflexivity|]. split; [reflexivity|]. split.
    + intros j b Hb. apply (Hleast j).
      change (distance q a0 :: map (distance q) rest)
        with (map (distance q) (a0 :: rest)).
      now rewrite nth_error_map, Hb.
    + intros j b Hj Hb. apply (Hfirst j); [exact Hj|].
      change (distance q a0 :: map (distance q) rest)
        with (map (distance q) (a0 :: rest)).
      now rewrite nth_error_map, Hb.
Qed.

(** *** [get_azimuth] and [get_elevation] *)

Lemma slice_at_spec k name below above mark s q lname (a0 : N) rest :
  nth_error (levels (df s)) k = Some (lname, a0 :: rest) ->
  position name (index_names (df s)) = Some k ->
  occurrences name (index_names (df s)) = 1%nat ->
  (less q a0 = true ->
   slice_at k name below above mark s q = ([], Raise below)) /\
  (less q a0 = false -> greater q (last (a0 :: rest) a0) = true ->
   slice_at k name below above mark s q = ([], Raise above)) /\
  (less q a0 = false -> greater q (last (a0 :: rest) a0) = false ->
   distinct (a0 :: rest) -> ranked (map (distance q) (a0 :: rest)) ->
   exists idx a,
     nth_error (a0 :: rest) idx = Some a /\
     cross_section_of (df s) k idx
       (returned (slice_at k name below above mark s q)) /\
     ((same a q = true /\
       (forall j b, (j < idx)%nat -> nth_error (a0 :: rest) j = Some b ->
          same b q = false) /\
       printed_by (slice_at k name below above mark s q) = [])
      \/
      ((forall b, In b (a0 :: rest) -> same b q = false) /\
       (forall j b, nth_error (a0 :: rest) j = Some b ->
          less (distance q b) (distance q a) = false) /\
       (forall j b, (j < idx)%nat -> nth_error (a0 :: rest) j = Some b ->
          less (distance q a) (distance q b) = true) /\
       printed_by (slice_at k name below above mark s q)
       = if verbose s then [mark a] else []))).
Proof.
  intros Hl Hp Ho. unfold slice_at, level. rewrite Hl. cbn [snd].
  rewrite andthen_ok, getitem_0, andthen_ok.
  split; [|split].
  - intros ->. reflexivity.
  - intros -> Hg. rewrite (getitem_last a0 rest a0), andthen_ok, Hg.
    reflexivity.
  - intros -> Hg Hdist Hrank.
    rewrite (getitem_last a0 rest a0), andthen_ok, Hg.
    destruct (contains q (a0 :: rest)) eqn:Ec; cbn [negb].
    + destruct (contains_index_of q _ Ec) as (idx & Hi).
      destruct (index_of_first q _ idx Hi) as (a & Hn & Ha & Hfirst).
      exists idx, a. split; [exact Hn|].
      pose proof (xs_cross_section (df s) name k q lname _ idx Ho Hp Hl Hi)
        as Hx.
      change (ret q) with (@lift N N (Ok q)). rewrite andthen_ok.
      split; [exact Hx|]. left. auto.
    + pose proof (contains_false q _ Ec) as Hnone.
      destruct (nearest_spec q a0 rest Hrank)
        as (idx & a & Hnear & Hn & Hleast & Hfirst).
      rewrite Hnear. exists idx, a. split; [exact Hn|].
      pose proof (xs_cross_section (df s) name k a lname _ idx Ho Hp Hl
                    (index_of_self _ idx a Hdist Hn)) as Hx.
      rewrite andthen_ok.
      unfold andthen, ret, lift, print, returned, printed_by in *.
      cbn [fst snd app] in *.
      split; [exact Hx|]. right.
      split; [exact Hnone|]. split; [exact Hleast|]. split; [exact Hfirst|].
      destruct (verbose s); reflexivity.
Qed.

Lemma occurrences_absent name (names : list string) :
  ~ In name names -> occurrences name names = 0%nat.
Proof.
  unfold occurrences. induction names as [|n names IH]; [reflexivity|].
  intro H. cbn [filter].
  destruct (String.eqb_spec name n) as [E|_].
  - exfalso. apply H. now left.
  - apply IH. intro Hin. apply H. now right.
Qed.

Lemma position_second (name n0 : string) (rest : list string) :
  n0 <> name -> ~ In name rest ->
  position name (n0 :: name :: rest) = Some 1%nat /\
  occurrences name (n0 :: name :: rest) = 1%nat.
Proof.
  intros H Hr. unfold occurrences. cbn [position filter].
  destruct (String.eqb_spec name n0) as [E|_]; [congruence|].
  rewrite String.eqb_refl. split; [reflexivity|].
  cbn [length]. f_equal. now apply occurrences_absent.
Qed.

Lemma position_third (name n0 n1 : string) (rest : list string) :
  n0 <> name -> n1 <> name -> ~ In name rest ->
  position name (n0 :: n1 :: name :: rest) = Some 2%nat /\
  occurrences name (n0 :: n1 :: name :: rest) = 1%nat.
Proof.
  intros H0 H1 Hr. unfold occurrences. cbn [position filter].
  destruct (String.eqb_spec name n0) as [E|_]; [congruence|].
  destruct (String.eqb_spec name n1) as [E|_]; [congruence|].
  rewrite String.eqb_refl. split; [reflexivity|].
  cbn [length]. f_equal. now apply occurrences_absent.
Qed.

(** X5.  For a table whose second level, and no other, is called
    azimuth, whatever the arithmetic: [get_azimuth(az)] raises a [ValueError], printing
    nothing, when [az < azarray[0]], and when [az > azarray[-1]].
    Otherwise it settles on one azimuth of the level: the first that
    equals [az] if one does, printing nothing; if none does, one at the
    least distance [abs(az - a)] as the program computes it, the first
    of them in the level when several are as near, which it prints when
    verbose.  The outcome is the cross-section at that azimuth, the rows
    that have it, each without its azimuth, or a [KeyError] when no row
    has it. *)
Theorem get_azimuth_nearest s q n0 l0 (a0 : N) rest others :
  levels (df s) = (n0, l0) :: ("azimuth"%string, a0 :: rest) :: others ->
  n0 <> "azimuth"%string -> ~ In "azimuth"%string (map fst others) ->
  (less q a0 = true ->
   exists m, get_azimuth s q = ([], Raise (ValueError m))) /\
  (less q a0 = false -> greater q (last (a0 :: rest) a0) = true ->
   exists m, get_azimuth s q = ([], Raise (ValueError m))) /\
  (less q a0 = false -> greater q (last (a0 :: rest) a0) = false ->
   distinct (a0 :: rest) -> ranked (map (distance q) (a0 :: rest)) ->
   exists idx a,
     nth_error (a0 :: rest) idx = Some a /\
     cross_section_of (df s) 1 idx (returned (get_azimuth s q)) /\
     ((same a q = true /\
       (forall j b, (j < idx)%nat -> nth_error (a0 :: rest) j = Some b ->
          same b q = false) /\
       printed_by (get_azimuth s q) = [])
      \/
      ((forall b, In b (a0 :: rest) -> same b q = false) /\
       (forall j b, nth_error (a0 :: rest) j = Some b ->
          less (distance q b) (distance q a) = false) /\
       (forall j b, (j < idx)%nat -> nth_error (a0 :: rest) j = Some b ->
          less (distance q a) (distance q b) = true) /\
       printed_by (get_azimuth s q)
       = if verbose s then [NearestAzimuth a] else []))).
Proof.
  intros Hl Hn0 Hno.
  assert (Hk : nth_error (levels (df s)) 1
               = Some ("azimuth"%string, a0 :: rest)) by now rewrite Hl.
  assert (Hp : position "azimuth" (index_names (df s)) = Some 1%nat /\
               occurrences "azimuth" (index_names (df s)) = 1%nat).
  { unfold index_names. rewrite Hl. cbn [map fst].
    now apply position_second. }
  destruct (slice_at_spec 1 "azimuth"
              (ValueError (Text "Invalid range, az < {azarray[0]}"))
              (ValueError (Text "Invalid range, az > {azarray[-1]}"))
              NearestAzimuth s q "azimuth" a0 rest Hk (proj1 Hp) (proj2 Hp))
    as (H1 & H2 & H3).
  split; [|split].
  - intro H. eexists. exact (H1 H).
  - intros Ha Hb. eexists. exact (H2 Ha Hb).
  - exact H3.
Qed.

(** X6.  For a table whose third level, and no other, is called
    elevation, whatever the arithmetic: [get_elevation(el)] raises a [ValueError], printing
    nothing, when [el < elarray[0]], and when [el > elarray[-1]].
    Otherwise it settles on one elevation of the level: the first that
    equals [el] if one does, printing nothing; if none does, one at the
    least computed distance [abs(el - e)], the first of them in the level
    when several are as near, which it prints when verbose.  The outcome
    is the cross-section at that elevation, or a [KeyError] when no row
    has it. *)
Theorem get_elevation_nearest s q n0 l0 n1 l1 (e0 : N) rest others :
  levels (df s)
  = (n0, l0) :: (n1, l1) :: ("elevation"%string, e0 :: rest) :: others ->
  n0 <> "elevation"%string -> n1 <> "elevation"%string ->
  ~ In "elevation"%string (map fst others) ->
  (less q e0 = true ->
   exists m, get_elevation s q = ([], Raise (ValueError m))) /\
  (less q e0 = false -> greater q (last (e0 :: rest) e0) = true ->
   exists m, get_elevation s q = ([], Raise (ValueError m))) /\
  (less q e0 = false -> greater q (last (e0 :: rest) e0) = false ->
   distinct (e0 :: rest) -> ranked (map (distance q) (e0 :: rest)) ->
   exists idx e,
     nth_error (e0 :: rest) idx = Some e /\
     cross_section_of (df s) 2 idx (returned (get_elevation s q)) /\
     ((same e q = true /\
       (forall j b, (j < idx)%nat -> nth_error (e0 :: rest) j = Some b ->
          same b q = false) /\
       printed_by (get_elevation s q) = [])
      \/
      ((forall b, In b (e0 :: rest) -> same b q = false) /\
       (forall j b, nth_error (e0 :: rest) j = Some b ->
          less (distance q b) (distance q e) = false) /\
       (forall j b, (j < idx)%nat -> nth_error (e0 :: rest) j = Some b ->
          less (distance q e) (distance q b) = true) /\
       printed_by (get_elevation s q)
       = if verbose s then [NearestElevation e] else []))).
Proof.
  intros Hl Hn0 Hn1 Hno.
  assert (Hk : nth_error (levels (df s)) 2
               = Some ("elevation"%string, e0 :: rest)) by now rewrite Hl.
  assert (Hp : position "elevation" (index_names (df s)) = Some 2%nat /\
               occurrences "elevation" (index_names (df s)) = 1%nat).
  { unfold index_names. rewrite Hl. cbn [map fst].
    now apply position_third. }
  destruct (slice_at_spec 2 "elevation"
              (ValueError (Text "Invalid range, el < {elarray[0]}"))
              (ValueError (Text "Invalid range, el > {elarray[-1]}"))
              NearestElevation s q "elevation" e0 rest Hk (proj1 Hp)
              (proj2 Hp))
    as (H1 & H2 & H3).
  split; [|split].
  - intro H. eexists. exact (H1 H).
  - intros Ha Hb. eexists. exact (H2 Ha Hb).
  - exact H3.
Qed.

Lemma position_none_occurrences name (names : list string) :
  position name names = None -> occurrences name names = 0%nat.
Proof.
  unfold occurrences. induction names as [|n names IH]; [reflexivity|].
  cbn [position filter]. destruct (String.eqb name n); [discriminate|].
  destruct (position name names); [discriminate|]. intros _. now apply IH.
Qed.

Lemma xs_no_level label name t :
  position name (index_names t) = None ->
  xs label name t = Raise (KeyError name).
Proof.
  intro H. unfold xs.
  rewrite (position_none_occurrences _ _ H), H. reflexivity.
Qed.

(** X19.  The two slicers read their level by position and take the
    cross-section by name.  On a key of fewer than three levels, an RHI
    scan included, [get_elevation] raises an [IndexError] whatever the
    elevation asked for.  On a key with no level called azimuth,
    [get_azimuth] never returns a table; on an RHI scan it takes the
    elevations for azimuths, and for a value within their bounds it
    raises the [KeyError] of the level it does not find. *)
Theorem slicers_need_their_position s q :
  ((length (levels (df s)) < 3)%nat ->
   exists m, get_elevation s q = ([], Raise (IndexError m))) /\
  (position "azimuth" (index_names (df s)) = None ->
   (forall t', returned (get_azimuth s q) <> Ok t') /\
   (forall lname (a0 : N) rest,
      nth_error (levels (df s)) 1 = Some (lname, a0 :: rest) ->
      less q a0 = false -> greater q (last (a0 :: rest) a0) = false ->
      returned (get_azimuth s q) = Raise (KeyError "azimuth"))).
Proof.
  split.
  - intro H. unfold get_elevation, level.
    destruct (nth_error (levels (df s)) 2) as [l|] eqn:E.
    + assert (Hlt : (2 < length (levels (df s)))%nat)
        by (apply nth_error_Some; congruence).
      lia.
    + eexists. reflexivity.
  - intro Hp. split.
    + intros t'. unfold get_azimuth.
      rewrite returned_andthen, returned_lift.
      destruct (level (df s) 1) as [array|e]; [|discriminate].
      rewrite returned_andthen, returned_lift.
      destruct (getitem array 0) as [lowest|e]; [|discriminate].
      destruct (less q lowest); [discriminate|].
      rewrite returned_andthen, returned_lift.
      destruct (getitem array (-1)) as [highest|e]; [|discriminate].
      destruct (greater q highest); [discriminate|].
      rewrite returned_andthen.
      destruct (returned _) as [a|e]; [|discriminate].
      rewrite returned_lift, (xs_no_level _ _ _ Hp). discriminate.
    + intros lname a0 rest Hl Hlo Hhi. unfold get_azimuth, level.
      rewrite Hl. cbn [snd].
      rewrite andthen_ok, getitem_0, andthen_ok, Hlo.
      rewrite (getitem_last a0 rest a0), andthen_ok, Hhi.
      rewrite returned_andthen.
      assert (Hr : exists a,
                 returned
                   (if negb (contains q (a0 :: rest))
                    then
                      andthen (lift (nearest q (a0 :: rest)))
                        (fun az' =>
                         andthen (print (verbose s) (NearestAzimuth az'))
                                 (fun _ => ret az'))
                    else ret q) = Ok a).
      { destruct (negb (contains q (a0 :: rest))); [|now exists q].
        destruct (nearest_returns q a0 rest) as (a & ->).
        exists a. rewrite andthen_ok. apply returned_print_then. }
      destruct Hr as (a & ->).
      rewrite returned_lift. now apply xs_no_level.
Qed.

End Facts.
End MachineSlicerFacts.

(** ** Instances of the slicers in double precision *)

Module MachineSlicerExamples.
Import Machine Stored Container StoredProps MachineFacts MachineSlicerFacts.
Import MachineExamples Doubles.
Import PrimFloat.

(** The entries of a short sequence are ranked by [<]. *)
Ltac ranked_values :=
  repeat split; intros; cbn [map In] in *;
  repeat match goal with
         | H : _ \/ _ |- _ => destruct H
         | H : False |- _ => destruct H
         end; subst;
  vm_compute in *; first [reflexivity | discriminate | (left; reflexivity)
                         | (right; reflexivity)].

(** Azimuths 0.1 and 3.6 and the azimuth 1.85: the two computed distances
    are both 1.75, and the first azimuth, 0.1, is taken. *)
Lemma get_azimuth_nearest_witness :
  exists s,
    __init__ two_azimuths false = ([], Ok s) /\
    cross_section_of two_azimuths 1 0 (returned (get_azimuth s midway)) /\
    printed_by (get_azimuth s midway) = [].
Proof.
  destruct (__init__ two_azimuths false) as [out [s|e]] eqn:E;
    [|vm_compute in E; discriminate].
  pose proof E as E'. vm_compute in E'. injection E' as <- Hs.
  exists s. split; [reflexivity|].
  assert (Hdf : df s = two_azimuths) by (rewrite <- Hs; reflexivity).
  assert (Hv : verbose s = false) by (rewrite <- Hs; reflexivity).
  destruct (get_azimuth_nearest s midway "range" [15; 45]%float
              0x1.999999999999ap-4%float [0x1.ccccccccccccdp+1%float]
              [("elevation"%string, [5; 10]%float)])
    as (_ & _ & H);
    [rewrite Hdf; reflexivity|discriminate|intros [H|[]]; discriminate|].
  destruct H as (idx & a & Hn & Hx & Hcase);
    [reflexivity|reflexivity|distinct_values|ranked_values|].
  rewrite Hdf in Hx.
  destruct Hcase as [(Ha & _)|(_ & _ & Hfirst & Hp)].
  - exfalso.
    repeat (destruct idx as [|idx]; cbn [nth_error] in Hn;
            try discriminate Hn);
      injection Hn as <-; vm_compute in Ha; discriminate.
  - repeat (destruct idx as [|idx]; cbn [nth_error] in Hn;
            try discriminate Hn);
      injection Hn as <-.
    + split; [exact Hx|]. now rewrite Hp, Hv.
    + exfalso.
      specialize (Hfirst 0%nat 0x1.999999999999ap-4%float (le_n 1) eq_refl).
      vm_compute in Hfirst. discriminate.
Defined.

(** Elevations 5 and 10 and the elevation 9: the elevation 10 is taken,
    and printed when verbose. *)
Lemma get_elevation_nearest_witness :
  exists s,
    __init__ two_azimuths true = ([Loaded "3D volumetric scan loaded"], Ok s) /\
    cross_section_of two_azimuths 2 1 (returned (get_elevation s 9%float)) /\
    printed_by (get_elevation s 9%float) = [NearestElevation 10%float].
Proof.
  destruct (__init__ two_azimuths true) as [out [s|e]] eqn:E;
    [|vm_compute in E; discriminate].
  pose proof E as E'. vm_compute in E'. injection E' as <- Hs.
  exists s. split; [reflexivity|].
  assert (Hdf : df s = two_azimuths) by (rewrite <- Hs; reflexivity).
  assert (Hv : verbose s = true) by (rewrite <- Hs; reflexivity).
  destruct (get_elevation_nearest s 9%float "range" [15; 45]%float
              "azimuth" [0x1.999999999999ap-4; 0x1.ccccccccccccdp+1]%float
              5%float [10%float] [])
    as (_ & _ & H);
    [rewrite Hdf; reflexivity|discriminate|discriminate|intros []|].
  destruct H as (idx & a & Hn & Hx & Hcase);
    [reflexivity|reflexivity|distinct_values|ranked_values|].
  rewrite Hdf in Hx.
  destruct Hcase as [(Ha & _)|(_ & Hleast & _ & Hp)].
  - exfalso.
    repeat (destruct idx as [|idx]; cbn [nth_error] in Hn;
            try discriminate Hn);
      injection Hn as <-; vm_compute in Ha; discriminate.
  - repeat (destruct idx as [|idx]; cbn [nth_error] in Hn;
            try discriminate Hn);
      injection Hn as <-.
    + exfalso. specialize (Hleast 1%nat 10%float eq_refl).
      vm_compute in Hleast. discriminate.
    + split; [exact Hx|]. now rewrite Hp, Hv.
Defined.

(** The RHI scan: [get_elevation] raises an [IndexError] although the key
    has an elevation axis, and [get_azimuth(5)], 5 being within the
    elevations 0 and 10, raises [KeyError('azimuth')]. *)
Lemma slicers_need_their_position_witness :
  exists s,
    __init__ rhi false = ([], Ok s) /\
    (exists m, get_elevation s 5%float = ([], Raise (IndexError m))) /\
    returned (get_azimuth s 5%float) = Raise (KeyError "azimuth").
Proof.
  destruct (__init__ rhi false) as [out [s|e]] eqn:E;
    [|vm_compute in E; discriminate].
  pose proof E as E'. vm_compute in E'. injection E' as <- Hs.
  exists s. split; [reflexivity|].
  assert (Hdf : df s = rhi) by (rewrite <- Hs; reflexivity).
  destruct (slicers_need_their_position s 5%float) as (H1 & H2).
  split.
  - apply H1. rewrite Hdf. cbn. lia.
  - destruct H2 as (_ & H2); [rewrite Hdf; reflexivity|].
    apply (H2 "elevation"%string 0%float [10%float]);
      [rewrite Hdf; reflexivity|reflexivity|reflexivity].
Defined.

End MachineSlicerExamples.

(** ** The container, checked again *)

Module ContainerFacts.
Import QSeqFacts FrameFacts LidarFacts.
Local Open Scope Q_scope.

Section Facts.
Variable V : Type.
Implicit Types (t : Lidar.Table V) (s : LidarData V).

(** What a constructed container holds, flags included. *)
Lemma init_record t verb out s :
  Lidar.__init__ t verb = (out, Ok s) ->
  exists flags r0 r1 rest,
    check_coordinates (mkProto verb t false false None) = (out, Ok flags) /\
    level t 0 = Ok (r0 :: r1 :: rest) /\
    s = {| verbose := verb; df := t; RHI := fst flags; PPI := snd flags;
           range_gate_size := r1 - r0;
           rmin := r0 - (r1 - r0) / 2;
           rmax := last (r0 :: r1 :: rest) 0 + (r1 - r0) / 2 |}.
Proof.
  intro H. pose proof H as Hinv. apply init_inv in Hinv.
  destruct Hinv as (r0 & r1 & rest & Hl & _).
  unfold Lidar.__init__, _check_data, iobind, lift in H.
  destruct (check_coordinates _) as [o [flags|e]] eqn:Ec; [|discriminate].
  rewrite (check_ranges_ok verb t flags Hl) in H.
  rewrite app_nil_r in H. injection H as <- <-.
  exists flags, r0, r1, rest. auto.
Qed.

Lemma check_coordinates_again verb t o flags size :
  check_coordinates (mkProto verb t false false None) = (o, Ok flags) ->
  check_coordinates (mkProto verb t (fst flags) (snd flags) size)
  = (o, Ok flags).
Proof.
  unfold check_coordinates. cbn [forallb p_df p_verbose p_RHI p_PPI].
  destruct (mem "range" (index_names t));
    destruct (mem "azimuth" (index_names t));
    destruct (mem "elevation" (index_names t));
    destruct verb; cbn; intro H; injection H as <- <-; reflexivity.
Qed.


End Facts.
End ContainerFacts.

(** ** What the slicers print *)

Module SlicerFacts.
Import QSeqFacts FrameFacts LidarFacts ContainerFacts Slicers.
Local Open Scope Q_scope.

Lemma returned_bind {A B} (c : log A) (k : A -> log B) :
  returned (logbind c k) =
  match returned c with
  | Ok a => returned (k a)
  | Raise e => Raise e
  end.
Proof.
  destruct c as [o [a|e]]; cbn; [destruct (k a)|]; reflexivity.
Qed.

Lemma said_bind {A B} (c : log A) (k : A -> log B) :
  said (logbind c k) =
  (said c ++ match returned c with
             | Ok a => said (k a)
             | Raise _ => []
             end)%list.
Proof.
  destruct c as [o [a|e]]; cbn; [destruct (k a)|]; cbn;
    rewrite ?app_nil_r; reflexivity.
Qed.

Section Facts.
Variable V : Type.
Implicit Types (t : Lidar.Table V) (s : LidarData V).

Lemma returned_pure {A} (c : result A) : returned (pure c) = c.
Proof. reflexivity. Qed.

Lemma quiet_iobind {A B} (c : io A) (k : A -> io B) :
  fst c = [] -> (forall a, fst (k a) = []) -> fst (iobind c k) = [].
Proof.
  destruct c as [o [a|e]]; cbn; intros -> Hk; [|reflexivity].
  specialize (Hk a). destruct (k a). cbn in *. now subst.
Qed.

Lemma quiet_logbind {A B} (c : log A) (k : A -> log B) :
  said c = [] -> (forall a, said (k a) = []) -> said (logbind c k) = [].
Proof.
  intros Hc Hk. rewrite said_bind, Hc. cbn.
  destruct (returned c); [apply Hk | reflexivity].
Qed.

Lemma get_range_quiet s q : verbose s = false -> fst (get_range s q) = [].
Proof.
  intro H. unfold get_range.
  apply quiet_iobind; [reflexivity|]. intro rarray.
  destruct (Qlt_bool q (rmin s)); [reflexivity|].
  destruct (Qle_bool (rmax s) q); [reflexivity|].
  apply quiet_iobind; [|intro; reflexivity].
  destruct (negb (contains q rarray)).
  - destruct (where_ _ _ 0) as [|idx others]; [reflexivity|].
    apply quiet_iobind; [reflexivity|]. intro rsel.
    destruct (_ && _); [|reflexivity].
    apply quiet_iobind; [|intro; reflexivity].
    unfold print. now rewrite H.
  - destruct (index_of q rarray); [|reflexivity].
    apply quiet_iobind; [|intro; reflexivity].
    unfold print. now rewrite H.
Qed.

Lemma slice_at_quiet s k name below above mark q :
  verbose s = false -> said (slice_at k name below above mark s q) = [].
Proof.
  intro H. unfold slice_at.
  apply quiet_logbind; [reflexivity|]. intro array.
  apply quiet_logbind; [reflexivity|]. intro lowest.
  destruct (Qlt_bool q lowest); [reflexivity|].
  apply quiet_logbind; [reflexivity|]. intro highest.
  destruct (Qlt_bool highest q); [reflexivity|].
  apply quiet_logbind; [|intro; reflexivity].
  destruct (negb (contains q array)); [|reflexivity].
  apply quiet_logbind; [reflexivity|]. intro q'.
  apply quiet_logbind; [|intro; reflexivity].
  unfold say. now rewrite H.
Qed.

(** X7.  With [verbose] off nothing is printed: not by the constructor,
    not by [get_range], [get_azimuth] or [get_elevation], and not by [get]
    when it is given an argument.  Called with no argument, [get] prints
    its guidance whatever [verbose] is, and returns [None]. *)
Theorem quiet_unless_verbose :
  (forall t, fst (Lidar.__init__ t false) = []) /\
  (forall s q,
     verbose s = false ->
     fst (get_range s q) = [] /\
     said (get_azimuth s q) = [] /\
     said (get_elevation s q) = [] /\
     said (get s (Some q) None None) = [] /\
     said (get s None (Some q) None) = [] /\
     said (get s None None (Some q)) = []) /\
  (forall s, get s None None None = ([Guidance], Ok None)).
Proof.
  split; [|split].
  - intro t. unfold Lidar.__init__, _check_data.
    apply quiet_iobind; [|intro; reflexivity].
    unfold check_coordinates. cbn [p_verbose print].
    repeat match goal with
           | |- fst (if ?b then _ else _) = [] => destruct b
           end; reflexivity.
  - intros s q H.
    pose proof (get_range_quiet s q H) as Hr.
    assert (Ha : said (get_azimuth s q) = [])
      by (apply (slice_at_quiet s 1 "azimuth"); exact H).
    assert (He : said (get_elevation s q) = [])
      by (apply (slice_at_quiet s 2 "elevation"); exact H).
    repeat split; try assumption.
    + unfold get. apply quiet_logbind; [|intro; reflexivity].
      unfold relog, said. cbn [fst]. now rewrite Hr.
    + unfold get. apply quiet_logbind; [exact Ha | intro; reflexivity].
    + unfold get. apply quiet_logbind; [exact He | intro; reflexivity].
  - reflexivity.
Qed.

End Facts.
End SlicerFacts.

(** ** The delimited-text loader: its filters *)

Module LoaderFacts.
Import Galion GalionFacts LoaderProps QSeqFacts FrameFacts LidarFacts.
Local Open Scope Q_scope.

Lemma insert_row_perm row rs : Permutation (insert_row row rs) (row :: rs).
Proof.
  induction rs as [|r rs IH]; cbn; [reflexivity|].
  destruct (key_le (fst row) (fst r)); [reflexivity|].
  rewrite IH. apply perm_swap.
Qed.

Lemma sort_rows_perm rs : Permutation (fold_right insert_row [] rs) rs.
Proof.
  induction rs as [|r rs IH]; cbn; [reflexivity|].
  rewrite insert_row_perm. now constructor.
Qed.

Lemma load_rows raw opts :
  Permutation (rows (_load raw opts)) (map (loaded opts) (raw_rows raw)).
Proof. unfold _load, sort_index. cbn [with_rows rows]. apply sort_rows_perm. Qed.

Lemma blank_blank (row : list Q * list (option Q)) : blank (blank row) = blank row.
Proof. unfold blank. cbn [fst snd]. now rewrite map_map. Qed.

Lemma set_missing_mapped (h : list Q * list (option Q) -> bool)
      (f : list Q * list (option Q) -> list Q * list (option Q)) (t : Table) l :
  set_missing (map h l) (with_rows t (map f l))
  = with_rows t (map (fun row => if h row then blank (f row) else f row) l).
Proof.
  unfold set_missing, with_rows. cbn [rows index_names columns]. f_equal.
  induction l as [|row l IH]; cbn; [reflexivity|]. now rewrite IH.
Qed.

Lemma level_column_rows (t : Table) k :
  level_column 0 t k = map (fun row => key_at 0 k (fst row)) (rows t).
Proof. unfold level_column, keys. now rewrite map_map. Qed.

Lemma masked_twice m1 m2 (t : Table) :
  set_missing (map m2 (rows t)) (set_missing (map m1 (rows t)) t)
  = masked (fun row => m1 row || m2 row) t.
Proof.
  rewrite set_missing_map, set_missing_mapped. unfold masked. f_equal.
  apply map_ext. intro row.
  destruct (m1 row), (m2 row); cbn; auto using blank_blank.
Qed.

Lemma masked_none (t : Table) : masked (fun _ => false) t = t.
Proof. unfold masked. rewrite map_id. apply with_rows_same. Qed.

(** X9.  With an absolute-range window and no gate window, the range
    filter blanks the rows whose range is below the lower bound or above
    the upper bound, for the bounds that are given, and leaves every other
    row, those at a bound included, and every key as they were; the
    container is otherwise unchanged. *)
Theorem filter_by_absolute_range (s : Scan) k lo hi :
  position "range" (index_names (df s)) = Some k ->
  _filter_by_range s None (Some (lo, hi))
  = Ok (set_df s (masked (fun row => outside_window lo hi (key_at 0 k (fst row)))
                         (df s))).
Proof.
  intro Hp. unfold _filter_by_range, get_level_values, level_values.
  rewrite Hp. cbn [Py.bind].
  change (map (key_at 0 k) (keys (df s))) with (level_column 0 (df s) k).
  rewrite level_column_rows. do 2 f_equal.
  destruct lo as [lo|], hi as [hi|]; unfold outside_window; rewrite ?map_map.
  - apply (masked_twice (fun row => Qlt_bool (key_at 0 k (fst row)) lo)
                        (fun row => Qlt_bool hi (key_at 0 k (fst row)))).
  - rewrite set_missing_map. unfold masked. f_equal. apply map_ext.
    intro row. now rewrite orb_false_r.
  - rewrite set_missing_map. reflexivity.
  - symmetry. apply masked_none.
Qed.

(** X10.  With a gate window the range filter ignores the absolute-range
    window.  A gate index is a position among the rows of the table, from
    the end when negative, and outside the rows it is an [IndexError], the
    lower index being looked up first.  The rows whose range is at or
    below the range of the row at the lower index, or at or above that at
    the upper index, are blanked, the two rows themselves included; every
    other row and every key stay.  When the upper range is not above the
    lower one, every row is blanked. *)
Theorem filter_by_range_gates (s : Scan) k g0 g1 ranges :
  position "range" (index_names (df s)) = Some k ->
  _filter_by_range s (Some (g0, g1)) ranges
  = Py.bind (gate_range (level_column 0 (df s) k) g0) (fun low =>
    Py.bind (gate_range (level_column 0 (df s) k) g1) (fun high =>
    Ok (set_df s (masked (fun row => outside_gates low high (key_at 0 k (fst row)))
                         (df s))))) /\
  forall a b, b <= a ->
    masked (fun row => outside_gates (Some a) (Some b) (key_at 0 k (fst row)))
           (df s)
    = with_rows (df s) (map blank (rows (df s))).
Proof.
  intro Hp. split.
  - unfold _filter_by_range, get_level_values, level_values.
    rewrite Hp.
    change (map (key_at 0 k) (keys (df s))) with (level_column 0 (df s) k).
    cbn [Py.bind].
    unfold gate_range.
    destruct g0 as [i0|]; cbn [Py.bind].
    + destruct (getitem (level_column 0 (df s) k) i0) as [low|e];
        cbn [Py.bind]; [|reflexivity].
      destruct g1 as [i1|]; cbn [Py.bind].
      * destruct (getitem (level_column 0 (df s) k) i1) as [high|e];
          cbn [Py.bind]; [|reflexivity].
        rewrite level_column_rows, !map_map. do 2 f_equal.
        apply (masked_twice
                 (fun row => Qle_bool (key_at 0 k (fst row)) low)
                 (fun row => Qle_bool high (key_at 0 k (fst row)))).
      * rewrite level_column_rows, !map_map, set_missing_map.
        do 2 f_equal. unfold masked. f_equal. apply map_ext.
        intro row. unfold outside_gates. now rewrite orb_false_r.
    + destruct g1 as [i1|]; cbn [Py.bind].
      * destruct (getitem (level_column 0 (df s) k) i1) as [high|e];
          cbn [Py.bind]; [|reflexivity].
        rewrite level_column_rows, !map_map, set_missing_map. reflexivity.
      * do 2 f_equal. symmetry. apply masked_none.
  - intros a b Hab. unfold masked. f_equal. apply map_ext. intro row.
    unfold outside_gates.
    destruct (Qle_bool (key_at 0 k (fst row)) a) eqn:E1; [reflexivity|].
    destruct (Qle_bool b (key_at 0 k (fst row))) eqn:E2; [reflexivity|].
    apply Qle_bool_false in E1. apply Qle_bool_false in E2. lra.
Qed.

Lemma masked_intensity (t : Table) m row :
  intensity_of (masked m t) row = intensity_of t row.
Proof. reflexivity. Qed.

Lemma filter_by_intensity_masked (t : Table) mn mx :
  mem "intensity" (columns t) = true ->
  filter_by_intensity t mn mx
  = Ok (masked (fun row => outside mn mx (intensity_of t row)) t).
Proof. apply filter_by_intensity_rows. Qed.

Lemma masked_masked m1 m2 (t : Table) :
  masked m2 (masked m1 t)
  = masked (fun row => m1 row || m2 (if m1 row then blank row else row)) t.
Proof.
  unfold masked, with_rows. cbn [rows index_names columns]. f_equal.
  rewrite map_map. apply map_ext. intro row.
  destruct (m1 row); cbn [orb].
  - destruct (m2 (blank row)); [apply blank_blank | reflexivity].
  - reflexivity.
Qed.

Lemma masked_ext m1 m2 (t : Table) :
  (forall row, m1 row = m2 row) -> masked m1 t = masked m2 t.
Proof.
  intro H. unfold masked. f_equal. apply map_ext. intro row. now rewrite H.
Qed.

Lemma outside_blank (t : Table) mn mx row :
  outside mn mx (intensity_of t (blank row)) = false.
Proof.
  rewrite blank_intensity. unfold outside. now destruct mn, mx.
Qed.

(** X11.  On a table with an intensity column the intensity filter is
    idempotent, and its two bounds can be applied one after the other in
    either order: filtering by the lower bound and then by the upper one,
    or the other way round, gives what filtering by both gives. *)
Theorem filter_by_intensity_composes (t : Table) mn mx :
  mem "intensity" (columns t) = true ->
  exists t',
    filter_by_intensity t mn mx = Ok t' /\
    filter_by_intensity t' mn mx = Ok t' /\
    Py.bind (filter_by_intensity t mn None)
            (fun t1 => filter_by_intensity t1 None mx) = Ok t' /\
    Py.bind (filter_by_intensity t None mx)
            (fun t1 => filter_by_intensity t1 mn None) = Ok t'.
Proof.
  intro Hm. eexists. split; [now apply filter_by_intensity_masked|].
  assert (Hstep : forall a b c d,
             Py.bind (filter_by_intensity t a b)
                     (fun t1 => filter_by_intensity t1 c d)
             = Ok (masked (fun row =>
                             outside a b (intensity_of t row)
                             || outside c d (intensity_of t row)) t)).
  { intros a b c d. rewrite (filter_by_intensity_masked t a b Hm).
    cbn [Py.bind]. rewrite filter_by_intensity_masked by exact Hm.
    rewrite masked_masked. f_equal. apply masked_ext. intro row.
    rewrite !masked_intensity.
    destruct (outside a b (intensity_of t row)); cbn [orb]; reflexivity. }
  split; [|split].
  - pose proof (Hstep mn mx mn mx) as H.
    rewrite (filter_by_intensity_masked t mn mx Hm) in H. cbn [Py.bind] in H.
    rewrite H. f_equal. apply masked_ext. intro row. apply orb_diag.
  - rewrite Hstep. f_equal. apply masked_ext. intro row.
    unfold outside. destruct mn, mx; cbn; now rewrite ?orb_false_r.
  - rewrite Hstep. f_equal. apply masked_ext. intro row.
    unfold outside. destruct mn, mx; cbn; rewrite ?orb_false_r;
      auto using orb_comm.
Qed.

Lemma only_blanked_refl (t : Table) : only_blanked t t.
Proof.
  repeat split. induction (rows t); constructor; auto.
Qed.

Lemma only_blanked_trans (t1 t2 t3 : Table) :
  only_blanked t1 t2 -> only_blanked t2 t3 -> only_blanked t1 t3.
Proof.
  intros (N1 & C1 & R1) (N2 & C2 & R2).
  split; [congruence|]. split; [congruence|].
  revert R2. generalize (rows t3). induction R1 as [|a b l l' Hab R1 IH];
    intros l3 R2; inversion R2 as [|? c ? l3' Hbc R2']; subst; constructor.
  - destruct Hab as [-> | ->], Hbc as [-> | ->]; auto.
    right. apply blank_blank.
  - now apply IH.
Qed.

Lemma only_blanked_keys (t t' : Table) : only_blanked t t' -> keys t' = keys t.
Proof.
  intros (_ & _ & R). unfold keys.
  induction R as [|a b l l' Hab R IH]; cbn; [reflexivity|].
  rewrite IH. now destruct Hab as [-> | ->].
Qed.

Lemma set_missing_only_blanked mask (t : Table) :
  length mask = length (rows t) -> only_blanked t (set_missing mask t).
Proof.
  intro H. repeat split. unfold set_missing. cbn [with_rows rows].
  revert mask H. induction (rows t) as [|row l IH]; intros [|b mask] H;
    try discriminate; cbn; constructor.
  - destruct b; auto.
  - apply IH. now injection H.
Qed.

Lemma set_missing_length mask (t : Table) :
  length mask = length (rows t) ->
  length (rows (set_missing mask t)) = length (rows t).
Proof.
  intro H. unfold set_missing. cbn [with_rows rows].
  now rewrite length_map, length_combine, H, Nat.min_id.
Qed.

Lemma filter_by_range_only_blanks (s s1 : Scan) range_gates ranges :
  _filter_by_range s range_gates ranges = Ok s1 ->
  s1 = set_df s (df s1) /\ only_blanked (df s) (df s1).
Proof.
  unfold _filter_by_range.
  assert (Hself : s = set_df s (df s)) by now destruct s.
  assert (Hstep : forall (f : Q -> bool) l t,
             length l = length (rows (df s)) ->
             only_blanked (df s) t ->
             only_blanked (df s) (set_missing (map f l) t)).
  { intros f l t Hl Hb. eapply only_blanked_trans; [exact Hb|].
    apply set_missing_only_blanked. rewrite length_map, Hl.
    destruct Hb as (_ & _ & R). now apply Forall2_length in R. }
  destruct (get_level_values 0 (df s) "range") as [allranges|e] eqn:El.
  - assert (Hlen : length allranges = length (rows (df s))).
    { unfold get_level_values, level_values in El.
      destruct (position "range" (index_names (df s))); [|discriminate].
      injection El as <-. unfold keys. now rewrite !length_map. }
    pose proof (only_blanked_refl (df s)) as Hrefl.
    destruct range_gates as [[g0 g1]|]; cbn [Py.bind].
    + destruct g0 as [i0|], g1 as [i1|]; cbn [Py.bind];
        repeat match goal with
               | |- context [getitem allranges ?i] =>
                   destruct (getitem allranges i); cbn [Py.bind]
               end;
        intro H; try discriminate; injection H as <-;
        (split; [reflexivity|]); cbn [set_df df]; auto.
    + destruct ranges as [[lo hi]|]; [|discriminate].
      intro H. injection H as <-. split; [reflexivity|]. cbn [set_df df].
      destruct lo, hi; auto.
  - destruct range_gates as [[g0 g1]|]; cbn [Py.bind]; [discriminate|].
    destruct ranges; discriminate.
Qed.

Lemma filter_by_intensity_only_blanks (t t' : Table) mn mx :
  filter_by_intensity t mn mx = Ok t' -> only_blanked t t'.
Proof.
  assert (Hpass : forall test bound (a b : Table),
             intensity_pass test bound a = Ok b -> only_blanked a b).
  { intros test bound a b. unfold intensity_pass, column.
    destruct bound as [v|]; [|intro H; injection H as <-;
                                apply only_blanked_refl].
    destruct (position "intensity" (columns a)); [|discriminate].
    cbn [Py.bind]. intro H. injection H as <-.
    apply set_missing_only_blanked. now rewrite !length_map. }
  unfold filter_by_intensity.
  destruct (intensity_pass below mn t) as [t1|e] eqn:E1; [|discriminate].
  cbn [Py.bind]. intro E2.
  eapply only_blanked_trans; eauto.
Qed.

Lemma level_same_index (t t' : Table) k :
  index_names t' = index_names t -> keys t' = keys t ->
  level t' k = level t k.
Proof.
  intros Hn Hk. unfold level, levels, level_column. now rewrite Hn, Hk.
Qed.

Lemma check_coordinates_names verb (t t' : Table) a b size size' :
  index_names t' = index_names t ->
  check_coordinates (mkProto verb t' a b size)
  = check_coordinates (mkProto verb t a b size').
Proof.
  intro H. unfold check_coordinates. cbn [p_df p_verbose p_RHI p_PPI].
  now rewrite H.
Qed.

(** X12.  The filters of the loader touch the fields only.  When the
    loader returns a container, the container of the unfiltered table was
    built first, with the same printed lines; the two differ in their table
    alone, and only by rows blanked: index names, columns and keys are
    those of the unfiltered table, and gate size, bounds and flags with
    them.  Validation run again on the filtered container returns it
    unchanged. *)
Theorem filters_keep_the_index raw opts range_gates ranges mn mx verb out s' :
  Galion.__init__ raw opts range_gates ranges (mn, mx) verb = (out, Ok s') ->
  exists s,
    Lidar.__init__ (_load raw opts) verb = (out, Ok s) /\
    s' = set_df s (df s') /\
    only_blanked (df s) (df s') /\
    keys (df s') = keys (df s) /\
    _check_data (Slicers.as_proto s') = (out, Ok s').
Proof.
  unfold Galion.__init__, iobind, lift. cbn [fst snd].
  destruct (Lidar.__init__ (_load raw opts) verb) as [o [s|e]] eqn:Hinit;
    [|discriminate].
  destruct (_filter_by_range s range_gates ranges) as [s1|e] eqn:Hr;
    [|discriminate].
  unfold _filter_by_intensity.
  destruct (filter_by_intensity (df s1) mn mx) as [t2|e] eqn:Hi;
    [|discriminate].
  cbn [Py.bind]. rewrite !app_nil_r. intro H. injection H as <- <-.
  destruct (filter_by_range_only_blanks _ _ _ _ Hr) as [Hs1 Hb1].
  pose proof (filter_by_intensity_only_blanks _ _ _ _ Hi) as Hb2.
  pose proof (only_blanked_trans _ _ _ Hb1 Hb2) as Hb.
  exists s. split; [reflexivity|].
  assert (Hs' : set_df s1 t2 = set_df s t2) by (rewrite Hs1; reflexivity).
  rewrite Hs'. cbn [set_df df].
  split; [reflexivity|]. split; [exact Hb|].
  split; [now apply only_blanked_keys|].
  destruct (ContainerFacts.init_record _ _ _ _ _ Hinit)
    as (flags & r0 & r1 & rest & Ec & Hl & ->).
  cbn [set_df verbose df RHI PPI range_gate_size rmin rmax].
  unfold Slicers.as_proto, set_df.
  cbn [verbose df RHI PPI range_gate_size rmin rmax].
  pose proof (only_blanked_keys _ _ Hb) as Hk.
  destruct Hb as (Hn & _ & _). cbn [df] in Hn, Hk.
  unfold _check_data, iobind, lift.
  rewrite (check_coordinates_names verb (_load raw opts) t2 _ _ _
             (Some (r1 - r0)) Hn).
  rewrite (ContainerFacts.check_coordinates_again _ _ _ _ _ _ Ec).
  unfold check_ranges. cbn [p_df p_verbose p_range_gate_size].
  rewrite (level_same_index _ _ 0 Hn Hk), Hl. cbn [Py.bind].
  rewrite getitem_1, getitem_0. cbn [Py.bind].
  assert (E : Qeq_bool (r1 - r0) (r1 - r0) = true)
    by (apply Qeq_bool_iff; reflexivity).
  rewrite E. cbn [Py.bind].
  rewrite (getitem_last r0 (r1 :: rest) 0). cbn [Py.bind].
  now rewrite app_nil_r.
Qed.


Lemma unique_sorted_single (l : list Q) :
  (forall x y, In x l -> In y l -> x == y) ->
  (length (unique_sorted l) <= 1)%nat.
Proof.
  induction l as [|x l IH]; intro H; [cbn; lia|].
  change (unique_sorted (x :: l)) with (insert_uniq x (unique_sorted l)).
  assert (IH' : (length (unique_sorted l) <= 1)%nat)
    by (apply IH; intros; apply H; now right).
  destruct (unique_sorted l) as [|y [|z u]] eqn:E; cbn in *; try lia.
  assert (Hy : In y l) by (apply unique_sorted_In; rewrite E; now left).
  assert (Hxy : x == y) by (apply H; [now left | now right]).
  apply Qeq_alt in Hxy. rewrite Hxy. cbn. lia.
Qed.

Lemma init_fails_short (t : Table) verb :
  (forall l, level t 0 = Ok l -> (length l < 2)%nat) ->
  exists txt, outcome (Lidar.__init__ t verb) = Raise (IndexError (Text txt)).
Proof.
  intro H. destruct (init_unfold t verb) as (out & E).
  rewrite E. unfold outcome. cbn [snd].
  destruct (check_coordinates_returns (mkProto verb t false false None))
    as (o & flags & Ec).
  rewrite Ec. now apply check_ranges_short.
Qed.

(** X13.  A file whose returns are all of one gate, an empty file
    included, cannot be loaded: the constructor fails with an [IndexError],
    whatever the options and the filters, before the range filter is
    reached. *)
Theorem load_needs_two_gates raw opts range_gates ranges intensity_range verb :
  (forall r r', In r (raw_rows raw) -> In r' (raw_rows raw) ->
                range_gate r == range_gate r') ->
  exists txt,
    outcome (Galion.__init__ raw opts range_gates ranges intensity_range verb)
    = Raise (IndexError (Text txt)).
Proof.
  intro H.
  destruct (init_fails_short (_load raw opts) verb) as (txt & E).
  - intros l Hl. unfold level, levels in Hl.
    change (index_names (_load raw opts))
      with ["range"; "azimuth"; "elevation"]%string in Hl.
    cbn [length seq map nth_error] in Hl. injection Hl as <-.
    apply Nat.lt_succ_r. apply unique_sorted_single.
    intros x y Hx Hy. rewrite level_column_rows in Hx, Hy.
    apply in_map_iff in Hx, Hy.
    destruct Hx as (rx & <- & Hx), Hy as (ry & <- & Hy).
    apply (Permutation_in _ (load_rows raw opts)) in Hx, Hy.
    apply in_map_iff in Hx, Hy.
    destruct Hx as (r & <- & Hr), Hy as (r' & <- & Hr').
    cbn. unfold centre. now rewrite (H r r' Hr Hr').
  - exists txt. unfold Galion.__init__.
    rewrite outcome_bind, E. reflexivity.
Qed.

End LoaderFacts.

(** ** The coordinate transform: shapes *)

Module TransformMore.
Import Transform TransformFacts TransformProps FrameFacts.

Section Shapes.
Context {F : Type} {num : Numeric F}.
Variable V : Type.
Implicit Types (df : DataFrame F V) (a b : array F).

Lemma level_values_rows df name v :
  get_level_values zero df name = Ok v -> length v = length (rows df).
Proof.
  unfold get_level_values, level_values, keys.
  destruct (position name (index_names df)); [|discriminate].
  intro H. injection H as <-. now rewrite !length_map.
Qed.

Lemma level_values_mem df name :
  mem name (index_names df) = true ->
  exists v, get_level_values zero df name = Ok v.
Proof.
  intro H. unfold get_level_values, level_values.
  destruct (mem_position _ _ H) as (k & ->). eauto.
Qed.

Lemma level_values_not_mem df name :
  mem name (index_names df) = false ->
  get_level_values zero df name = Raise (KeyError name).
Proof.
  intro H. unfold get_level_values, level_values.
  destruct (position name (index_names df)) as [k|] eqn:E; [|reflexivity].
  assert (Hm : mem name (index_names df) = true).
  { clear H. revert k E. unfold mem.
    induction (index_names df) as [|n l IH]; cbn; [discriminate|].
    intros k. destruct (String.eqb name n); [reflexivity|].
    destruct (position name l) as [j|]; [|discriminate].
    intros _. cbn. now apply (IH j). }
  congruence.
Qed.

Lemma fits_map1 n (f : F -> F) a : fits n a -> fits n (map1 f a).
Proof.
  intros [(x & ->) | (xs & -> & H)]; [left | right]; cbn.
  - now exists (f x).
  - exists (map f xs). now rewrite length_map.
Qed.

Lemma per_row_map1 n (f : F -> F) a : per_row_of n a -> per_row_of n (map1 f a).
Proof.
  intros (xs & -> & H). exists (map f xs). now rewrite length_map.
Qed.

Lemma scalar_map1 (f : F -> F) a : scalar a -> scalar (map1 f a).
Proof. intros (x & ->). now exists (f x). Qed.

Lemma per_row_map2 n (f : F -> F -> F) a b :
  per_row_of n a -> fits n b -> per_row_of n (map2 f a b).
Proof.
  intros (xs & -> & Hx) [(y & ->) | (ys & -> & Hy)]; cbn.
  - exists (map (fun x => f x y) xs). now rewrite length_map.
  - eexists. split; [reflexivity|].
    now rewrite length_map, length_combine, Hx, Hy, Nat.min_id.
Qed.

Lemma scalar_map2 (f : F -> F -> F) a b :
  scalar a -> scalar b -> scalar (map2 f a b).
Proof. intros (x & ->) (y & ->). now exists (f x y). Qed.

Lemma coordinates_shapes df range azimuth elevation r az el :
  coordinates df range azimuth elevation = Ok (r, az, el) ->
  let n := length (rows df) in
  (if mem "range" (index_names df) then per_row_of n r else scalar r) /\
  (if mem "azimuth" (index_names df) then per_row_of n az else scalar az) /\
  (if mem "elevation" (index_names df) then per_row_of n el else scalar el).
Proof.
  unfold coordinates, level_or, ninety_minus.
  destruct (mem "range" (index_names df)) eqn:Mr;
    [destruct (level_values_mem _ _ Mr) as (vr & Er)
    | pose proof (level_values_not_mem _ _ Mr) as Er];
    (destruct (mem "azimuth" (index_names df)) eqn:Ma;
     [destruct (level_values_mem _ _ Ma) as (va & Ea)
     | pose proof (level_values_not_mem _ _ Ma) as Ea]);
    (destruct (mem "elevation" (index_names df)) eqn:Me;
     [destruct (level_values_mem _ _ Me) as (ve & Ee)
     | pose proof (level_values_not_mem _ _ Me) as Ee]);
    rewrite Er, Ea, Ee; destruct range as [rc|], azimuth as [ac|];
    cbn [Py.bind]; try discriminate;
    intro H; injection H as <- <- <-; cbn [map1];
    repeat split;
    try (eexists; reflexivity);
    try (eexists; split; [reflexivity|]; rewrite ?length_map;
         eapply level_values_rows; eassumption).
Qed.

(** X14.  When the table has a range level, each of [x], [y] and [z] that
    [calc_xyz] returns has one entry per row of the table; when it has
    none of the three levels, each is a single number.  When it has all
    three, the constants given for range, azimuth and elevation are not
    used. *)
Theorem calc_xyz_shapes df range azimuth elevation small :
  (forall x y z,
     calc_xyz df range azimuth elevation small = Ok (x, y, z) ->
     (mem "range" (index_names df) = true ->
      per_row_of (length (rows df)) x /\
      per_row_of (length (rows df)) y /\
      per_row_of (length (rows df)) z) /\
     (mem "range" (index_names df) = false ->
      mem "azimuth" (index_names df) = false ->
      mem "elevation" (index_names df) = false ->
      scalar x /\ scalar y /\ scalar z)) /\
  (mem "range" (index_names df) = true ->
   mem "azimuth" (index_names df) = true ->
   mem "elevation" (index_names df) = true ->
   forall range' azimuth' elevation',
     calc_xyz df range azimuth elevation small
     = calc_xyz df range' azimuth' elevation' small).
Proof.
  split.
  - intros x y z H. unfold calc_xyz in H.
    destruct (coordinates df range azimuth elevation)
      as [[[r az] el]|e] eqn:Ec; cbn [Py.bind] in H; [|discriminate].
    destruct (coordinates_shapes _ _ _ _ _ _ _ Ec) as (Hr & Ha & He).
    assert (Fa : fits (length (rows df)) az)
      by (destruct (mem "azimuth" (index_names df)); [right | left]; exact Ha).
    assert (Fe : fits (length (rows df)) el)
      by (destruct (mem "elevation" (index_names df)); [right | left]; exact He).
    split.
    + intro Mr. rewrite Mr in Hr.
      destruct small; injection H as <- <- <-;
        repeat split;
        repeat (apply per_row_map2 || apply fits_map1 || assumption).
    + intros Mr Ma Me. rewrite Mr in Hr. rewrite Ma in Ha. rewrite Me in He.
      destruct small; injection H as <- <- <-;
        repeat split;
        repeat (apply scalar_map2 || apply scalar_map1 || assumption).
  - intros Mr Ma Me range' azimuth' elevation'.
    unfold calc_xyz, coordinates, level_or.
    destruct (level_values_mem _ _ Mr) as (vr & ->).
    destruct (level_values_mem _ _ Ma) as (va & ->).
    destruct (level_values_mem _ _ Me) as (ve & ->).
    reflexivity.
Qed.

End Shapes.
End TransformMore.

(** ** The wind estimator: its preconditions *)

Module WindMore.
Import Wind WindFacts FrameFacts.

Section Preconditions.
Context {F : Type} {num : Numeric F}.
Variable fit : list (F * F) -> list F -> result (F * F).
Implicit Types (d : Series F F).

Lemma s_level_values_mem d name :
  mem name (s_index_names d) = true ->
  s_level_values d name
  = Ok (map (fun row => key_at zero
                          (match position name (s_index_names d) with
                           | Some k => k
                           | None => 0%nat
                           end) (fst row)) (s_rows d)).
Proof.
  intro H. unfold s_level_values, level_values.
  destruct (mem_position _ _ H) as (k & ->). now rewrite map_map.
Qed.

Lemma s_level_values_not_mem d name :
  mem name (s_index_names d) = false ->
  s_level_values d name = Raise (KeyError name).
Proof.
  intro H. unfold s_level_values, level_values.
  destruct (position name (s_index_names d)) as [k|] eqn:E; [|reflexivity].
  assert (Hm : mem name (s_index_names d) = true).
  { clear H. revert k E. unfold mem.
    induction (s_index_names d) as [|n l IH]; cbn; [discriminate|].
    intros k. destruct (String.eqb name n); [reflexivity|].
    destruct (position name l) as [j|]; [|discriminate].
    intros _. cbn. now apply (IH j). }
  congruence.
Qed.

(** X17.  The failures of [estimate_mean_wind] before the fit, in the
    order the function meets them.  Without an elevation level and
    without the [elevation] argument: the assertion 'PPI scan, need to
    specify elevation'.  With an elevation level and no row: an
    [IndexError].  With an elevation level whose values are not all equal
    to the first one (a first value that is not equal to itself included):
    an [AssertionError].  With the elevation settled and no azimuth level:
    [KeyError] 'azimuth'.  With an elevation level, the [elevation]
    argument is not used. *)
Theorem estimate_mean_wind_preconditions d elevation :
  (mem "elevation" (s_index_names d) = false -> elevation = None ->
   estimate_mean_wind fit d elevation
   = Raise (AssertionError (Text "PPI scan, need to specify elevation"))) /\
  (mem "elevation" (s_index_names d) = true -> s_rows d = [] ->
   exists m, estimate_mean_wind fit d elevation = Raise (IndexError m)) /\
  (forall e0 els,
     s_level_values d "elevation" = Ok (e0 :: els) ->
     forallb (fun e => eqb e e0) (e0 :: els) = false ->
     estimate_mean_wind fit d elevation = Raise (AssertionError (Text ""))) /\
  (elevation_known d elevation ->
   mem "azimuth" (s_index_names d) = false ->
   estimate_mean_wind fit d elevation = Raise (KeyError "azimuth")) /\
  (mem "elevation" (s_index_names d) = true ->
   forall elevation',
     estimate_mean_wind fit d elevation = estimate_mean_wind fit d elevation').
Proof.
  split; [|split; [|split; [|split]]].
  - intros Hm ->. unfold estimate_mean_wind.
    now rewrite (s_level_values_not_mem d _ Hm).
  - intros Hm Hr. unfold estimate_mean_wind.
    rewrite (s_level_values_mem d _ Hm), Hr. cbn. eauto.
  - intros e0 els Hl Hf. unfold estimate_mean_wind.
    rewrite Hl, getitem_0. cbn [Py.bind]. now rewrite Hf.
  - intros Hk Hm. unfold estimate_mean_wind. unfold elevation_known in Hk.
    rewrite (s_level_values_not_mem d _ Hm).
    destruct (s_level_values d "elevation") as [els|e] eqn:Ee.
    + destruct Hk as (Hne & e0 & He0 & Hall).
      destruct (single_value_checks He0 Hall Hne) as [G1 G2].
      rewrite G1. cbn [Py.bind]. rewrite G2. reflexivity.
    + unfold s_level_values, level_values in Ee.
      destruct (position "elevation" (s_index_names d)); [discriminate|].
      injection Ee as <-.
      destruct elevation as [e|]; [reflexivity | congruence].
  - intros Hm elevation'. unfold estimate_mean_wind.
    now rewrite (s_level_values_mem d _ Hm).
Qed.

End Preconditions.
End WindMore.

(** ** Instances of the further properties *)

Module MoreExamples.
Import QSeqFacts ContainerFacts Slicers SlicerFacts.
Import Galion LoaderProps LoaderFacts.
Local Open Scope Q_scope.

Ltac build s E table :=
  destruct (Lidar.__init__ table false) as [? [s|?]] eqn:E;
  [|vm_compute in E; discriminate];
  let E' := fresh in
  pose proof E as E'; vm_compute in E'; injection E' as <- <-.


Lemma quiet_unless_verbose_witness :
  exists s,
    Lidar.__init__ scan_volume false = ([], Ok s) /\
    fst (get_range s 30) = [] /\ said (get_azimuth s 45) = [].
Proof.
  build s E scan_volume.
  eexists. split; [exact E|].
  match type of E with
  | _ = (_, Ok ?r) =>
      split;
      [exact (proj1 (proj1 (proj2 (quiet_unless_verbose _)) r 30 eq_refl))
      |exact (proj1 (proj2 (proj1 (proj2 (quiet_unless_verbose _))
                                  r 45 eq_refl)))]
  end.
Defined.

Ltac load s E :=
  destruct (Lidar.__init__ (_load raw4 default_opts) false) as [? [s|?]] eqn:E;
  [|vm_compute in E; discriminate];
  let E' := fresh in
  pose proof E as E'; vm_compute in E'; injection E' as <- <-.

(** Ranges 15, 15, 45 and 75, the window from 30 to 60. *)
Lemma filter_by_absolute_range_witness :
  exists s s',
    Lidar.__init__ (_load raw4 default_opts) false = ([], Ok s) /\
    _filter_by_range s None (Some (Some 30, Some 60)) = Ok s' /\
    keys (df s') = keys (df s).
Proof.
  load s E.
  match type of E with
  | _ = (_, Ok ?r) =>
      pose proof (filter_by_absolute_range r 0%nat (Some 30) (Some 60) eq_refl)
        as H
  end.
  do 2 eexists. split; [exact E|]. split; [exact H|].
  vm_compute. reflexivity.
Defined.

(** The gates of the rows 0 and 3, of ranges 15 and 75. *)
Lemma filter_by_range_gates_witness :
  exists s s',
    Lidar.__init__ (_load raw4 default_opts) false = ([], Ok s) /\
    _filter_by_range s (Some (Some 0%Z, Some 3%Z)) None = Ok s' /\
    keys (df s') = keys (df s).
Proof.
  load s E.
  match type of E with
  | _ = (_, Ok ?r) =>
      pose proof (proj1 (filter_by_range_gates r 0%nat (Some 0%Z) (Some 3%Z)
                                               None eq_refl)) as H
  end.
  do 2 eexists. split; [exact E|]. split; [exact H|].
  vm_compute. reflexivity.
Defined.

Lemma filter_by_intensity_composes_witness :
  exists t',
    filter_by_intensity (_load raw4 default_opts) (Some 1) (Some 2) = Ok t' /\
    filter_by_intensity t' (Some 1) (Some 2) = Ok t'.
Proof.
  destruct (filter_by_intensity_composes
              (_load raw4 default_opts) (Some 1) (Some 2) eq_refl)
    as (t' & H1 & H2 & _).
  exists t'. split; assumption.
Defined.

Lemma filters_keep_the_index_witness :
  exists s s',
    Galion.__init__ raw4 default_opts None (Some (None, None)) (Some 1, None)
                    false = ([], Ok s') /\
    Lidar.__init__ (_load raw4 default_opts) false = ([], Ok s) /\
    keys (df s') = keys (df s).
Proof.
  destruct (Galion.__init__ raw4 default_opts None (Some (None, None))
                            (Some 1, None) false) as [out [s'|e]] eqn:E;
    [|vm_compute in E; discriminate].
  destruct (filters_keep_the_index _ _ _ _ _ _ _ _ _ E)
    as (s & Hs & _ & _ & Hk & _).
  pose proof E as E'. vm_compute in E'. injection E' as Ho _.
  subst out. exists s, s'. repeat split; assumption.
Defined.

Lemma load_needs_two_gates_witness :
  exists txt,
    outcome (Galion.__init__ raw_one_gate default_opts None
                             (Some (None, None)) (None, None) true)
    = Raise (IndexError (Text txt)).
Proof.
  apply load_needs_two_gates.
  intros r r' [<- | [<- | []]] [<- | [<- | []]]; reflexivity.
Defined.

End MoreExamples.

(** ** Instances of the further properties over the real numbers *)

Module MoreRealExamples.
Import RealNum MoreTables Transform TransformProps TransformMore.
Import Wind WindMore.
Local Open Scope R_scope.

Lemma calc_xyz_shapes_witness :
  exists x y z,
    calc_xyz xyz_table None None 0 false = Ok (x, y, z) /\
    per_row_of 2 x /\ per_row_of 2 y /\ per_row_of 2 z.
Proof.
  do 3 eexists. split; [reflexivity|].
  exact (proj1 (proj1 (calc_xyz_shapes R xyz_table None None 0 false)
                      _ _ _ eq_refl) eq_refl).
Defined.

(** An arc without an elevation level, the elevation not given. *)
Lemma estimate_mean_wind_preconditions_witness :
  estimate_mean_wind lstsq ppi_arc None
  = Raise (AssertionError (Text "PPI scan, need to specify elevation")).
Proof.
  exact (proj1 (estimate_mean_wind_preconditions lstsq ppi_arc None)
               eq_refl eq_refl).
Defined.

End MoreRealExamples.
